(** * DANE-util: the S3 transfer layer ([dane/s3_util.py])

    A shallow embedding of [dane/s3_util.py] and the properties of its
    path-to-key mapping, archive validation, URI handling, upload and
    download loops, followed by the guards of the class [Task] of
    [DANE/tasks.py].

    Python strings are Rocq strings; the slicing, [split], [find] and the
    [os.path] / [ntpath] / [pathlib] helpers the module calls are written out
    below.  Everything outside the module (the file system, [tarfile], the
    boto3 client, the clock) is an environment [Env] of oracles that answer
    from the history of effects so far; the code itself runs in a small
    state-and-exception monad over that history. *)

From Stdlib Require Import String Ascii List ZArith Lia Bool Arith.
Import ListNotations.
Open Scope string_scope.
Open Scope list_scope.

(* ================================================================== *)
(** * Python [str] primitives *)
(* ================================================================== *)

Module Py.

(** [s[:n]] for [n >= 0]. *)
Fixpoint take (n : nat) (s : string) : string :=
  match n, s with
  | S n', String a s' => String a (take n' s')
  | _, _ => ""
  end.

(** [s[n:]] for [n >= 0]. *)
Fixpoint drop (n : nat) (s : string) : string :=
  match n, s with
  | S n', String _ s' => drop n' s'
  | _, _ => s
  end.

(** [s[-n:]] for [n > 0]: the last [n] characters, the whole string when it
    is shorter. *)
Definition last_n (n : nat) (s : string) : string :=
  drop (String.length s - n) s.

(** [s[:i]] for any integer [i]; a negative bound counts from the end. *)
Definition slice_to (i : Z) (s : string) : string :=
  if (0 <=? i)%Z then take (Z.to_nat i) s
  else take (String.length s - Z.to_nat (- i)) s.

(** Index of the first character satisfying [p]. *)
Fixpoint find_pred (p : ascii -> bool) (s : string) : option nat :=
  match s with
  | "" => None
  | String a s' =>
      if p a then Some 0
      else match find_pred p s' with
           | Some i => Some (S i)
           | None => None
           end
  end.

(** Index of the last character satisfying [p]. *)
Fixpoint rfind_pred (p : ascii -> bool) (s : string) : option nat :=
  match s with
  | "" => None
  | String a s' =>
      match rfind_pred p s' with
      | Some i => Some (S i)
      | None => if p a then Some 0 else None
      end
  end.

Definition index_or_minus_one (o : option nat) : Z :=
  match o with
  | Some i => Z.of_nat i
  | None => (-1)%Z
  end.

(** [s.find(c)] and [s.rfind(c)] for a one-character [c]. *)
Definition find (c : ascii) (s : string) : Z :=
  index_or_minus_one (find_pred (Ascii.eqb c) s).

Definition rfind (c : ascii) (s : string) : Z :=
  index_or_minus_one (rfind_pred (Ascii.eqb c) s).

(** [s.find(c, start)]. *)
Definition find_from (c : ascii) (start : nat) (s : string) : Z :=
  if (String.length s <? start)%nat then (-1)%Z
  else match find_pred (Ascii.eqb c) (drop start s) with
       | Some i => Z.of_nat (start + i)
       | None => (-1)%Z
       end.

(** [s.split(c)] for a one-character separator: never empty. *)
Fixpoint split (c : ascii) (s : string) : list string :=
  match s with
  | "" => [""]
  | String a s' =>
      if Ascii.eqb a c then "" :: split c s'
      else match split c s' with
           | w :: ws => String a w :: ws
           | [] => [String a ""]
           end
  end.

(** [s.replace(a, b)] for one-character [a] and [b]. *)
Fixpoint replace (a b : ascii) (s : string) : string :=
  match s with
  | "" => ""
  | String c s' => String (if Ascii.eqb c a then b else c) (replace a b s')
  end.

(** [s.startswith(t)]. *)
Definition startswith (t s : string) : bool := prefix t s.

(** [s.endswith(t)]. *)
Definition endswith (t s : string) : bool :=
  (String.length t <=? String.length s)%nat && (last_n (String.length t) s =? t).

(** [t in s]. *)
Fixpoint contains (t s : string) : bool :=
  prefix t s ||
  match s with
  | "" => false
  | String _ s' => contains t s'
  end.

(** [sep.join(parts)]. *)
Definition join_with (sep : string) (parts : list string) : string :=
  String.concat sep parts.

(** [xs[2:-1]] and [xs[-1]] on lists. *)
Definition slice_2_to_last {A} (xs : list A) : list A :=
  removelast (skipn 2 xs).

(** Truthiness of a string. *)
Definition truthy (s : string) : bool := negb (s =? "").

(** ASCII upper-casing, as [str.upper] acts on the characters compared
    below. *)
Definition upper_ascii (a : ascii) : ascii :=
  let n := nat_of_ascii a in
  if ((97 <=? n) && (n <=? 122))%nat then ascii_of_nat (n - 32) else a.

Fixpoint upper (s : string) : string :=
  match s with
  | "" => ""
  | String a s' => String (upper_ascii a) (upper s')
  end.

End Py.

(* ================================================================== *)
(** * [os.path], [ntpath] and [pathlib] *)
(* ================================================================== *)

Module OsPath.

Definition sep : ascii := "/"%char.

(** One round of the loop of [posixpath.join(a, *p)]. *)
Definition join_step (path b : string) : string :=
  if Py.startswith "/" b then b
  else if (path =? "") || Py.endswith "/" path then path ++ b
  else path ++ "/" ++ b.

(** [os.path.join(a, *p)]. *)
Definition join (a : string) (p : list string) : string :=
  fold_left join_step p a.

(** [os.path.basename(p)]: [i = p.rfind('/') + 1; return p[i:]]. *)
Definition basename (p : string) : string :=
  Py.drop (Z.to_nat (Py.rfind sep p + 1)) p.

(** [os.path.splitext(p)] of [posixpath] (through [genericpath._splitext]). *)
Fixpoint all_dots (s : string) : bool :=
  match s with
  | "" => true
  | String a s' => Ascii.eqb a "."%char && all_dots s'
  end.

Definition splitext (p : string) : string * string :=
  let sepIndex := Py.rfind sep p in
  let dotIndex := Py.rfind "."%char p in
  if (sepIndex <? dotIndex)%Z then
    let filenameIndex := Z.to_nat (sepIndex + 1) in
    let between := Py.take (Z.to_nat dotIndex - filenameIndex)
                           (Py.drop filenameIndex p) in
    if all_dots between then (p, "")
    else (Py.take (Z.to_nat dotIndex) p, Py.drop (Z.to_nat dotIndex) p)
  else (p, "").

End OsPath.

Module NtPath.

Definition is_sep (a : ascii) : bool :=
  Ascii.eqb a "\"%char || Ascii.eqb a "/"%char.

(** [ntpath.splitdrive(p)] as of CPython 3.11: the drive (a drive letter
    with its colon, or a UNC share) and the rest. *)
Definition splitdrive (p : string) : string * string :=
  if (2 <=? String.length p)%nat then
    let normp := Py.replace "/"%char "\"%char p in
    if Py.take 2 normp =? "\\" then
      let start := if Py.upper (Py.take 8 normp) =? "\\?\UNC\" then 8 else 2 in
      let index := Py.find_from "\"%char start normp in
      if (index =? -1)%Z then (p, "")
      else
        let index2 := Py.find_from "\"%char (Z.to_nat (index + 1)) normp in
        if (index2 =? -1)%Z then (p, "")
        else (Py.take (Z.to_nat index2) p, Py.drop (Z.to_nat index2) p)
    else if Py.take 1 (Py.drop 1 normp) =? ":" then (Py.take 2 p, Py.drop 2 p)
    else ("", p)
  else ("", p).

(** The tail of [ntpath.split(p)]: what follows the last [\] or [/] of the
    drive-less path. *)
Definition tail_after_seps (p : string) : string :=
  match Py.rfind_pred is_sep p with
  | Some i => Py.drop (S i) p
  | None => p
  end.

(** [ntpath.basename(p) = ntpath.split(p)[1]]. *)
Definition basename (p : string) : string :=
  tail_after_seps (snd (splitdrive p)).

End NtPath.

Module PathLib.

(** The anchor of a [PurePosixPath]: exactly two leading slashes are kept,
    any other number collapses to one. *)
Fixpoint leading_slashes (s : string) : nat :=
  match s with
  | String a s' => if Ascii.eqb a "/"%char then S (leading_slashes s') else 0
  | "" => 0
  end.

Definition root (s : string) : string :=
  match leading_slashes s with
  | 0 => ""
  | 2 => "//"
  | _ => "/"
  end.

Definition is_part (x : string) : bool :=
  negb (x =? "") && negb (x =? ".").

Definition parts (s : string) : list string :=
  filter is_part (Py.split "/"%char s).

Definition render (r : string) (ps : list string) : string :=
  match r, ps with
  | "", [] => "."
  | _, _ => r ++ Py.join_with "/" ps
  end.

(** [str(Path(s).parent)]. *)
Definition parent (s : string) : string :=
  render (root s) (removelast (parts s)).

End PathLib.

(* ================================================================== *)
(** * Exceptions, effects and the environment *)
(* ================================================================== *)

(** The exceptions that occur; every one is a subclass of Python's
    [Exception], so an [except Exception] clause catches each of them. *)
Inductive exn : Type :=
| PyException (msg : string)      (* [raise Exception(msg)] *)
| KeyError (key : string)         (* a dict read of an absent key *)
| IndexError                      (* [xs[-1]] on an empty list *)
| TarError                        (* [tarfile.TarError] *)
| FileNotFoundError
| OSError (msg : string)
| ClientError (msg : string).     (* a failure reported by boto3 *)

Inductive level : Type := DEBUG | INFO | WARNING | ERROR.

(** A listing response of the client, as the dict the code reads: each of the
    three entries may be absent.  The items of ["Contents"] are kept as their
    ["Key"]. *)
Record response : Type := mkResponse {
  Contents : option (list string);
  IsTruncated : option bool;
  KeyCount : option Z
}.

(** The effects of a run, oldest first.  A call that raised carries the
    exception, a call that returned carries [None]. *)
Inductive event : Type :=
| EvLog (lvl : level) (fmt : string)
| EvMakedirs (path : string) (r : option exn)
| EvTarOpen (archive_path : string) (r : option exn)
| EvTarAdd (item arcname : string) (r : option exn)
| EvTarClose (archive_path : string) (r : option exn)
| EvListObjects (bucket prefix : string) (marker : option string)
| EvDeleteObjects (bucket : string) (keys : list string) (r : option exn)
| EvUploadFile (filename bucket key : string) (r : option exn)
| EvListObjectsV2 (bucket prefix : string) (marker : option string)
| EvDownloadFileobj (bucket key path : string) (r : option exn).

Definition history : Type := list event.

(** The answer of an environment call that returns a value. *)
Inductive answer (A : Type) : Type :=
| Returned (a : A)
| Raised (e : exn).
Arguments Returned {A} a.
Arguments Raised {A} e.

Inductive outcome (A : Type) : Type :=
| Ok (a : A)
| Raise (e : exn)
| OutOfFuel.
Arguments Ok {A} a.
Arguments Raise {A} e.
Arguments OutOfFuel {A}.

(** What the module does not define: the file system, [tarfile], the boto3
    client and the clock.  Each oracle answers from the history so far, so an
    environment may change its answers as the run proceeds.
    [download_fileobj] stands for the statement
    [with open(path, "wb") as f: client.download_fileobj(bucket, key, f)];
    [os_walk] gives the triples of a whole walk, read when the loop over it
    starts; [time] reads the clock in whole ticks.  The construction of the
    client ([S3Store()]) is not part of a run. *)
Record Env : Type := mkEnv {
  os_path_exists : history -> string -> bool;
  os_path_isdir : history -> string -> bool;
  os_walk : history -> string -> list (string * list string * list string);
  os_makedirs : history -> string -> option exn;
  tarfile_open : history -> string -> option exn;
  tar_add : history -> string -> string -> option exn;
  tar_close : history -> string -> option exn;
  list_objects : history -> string -> string -> option string -> answer response;
  delete_objects : history -> string -> list string -> option exn;
  upload_file : history -> string -> string -> string -> option exn;
  list_objects_v2 : history -> string -> string -> option string -> answer response;
  download_fileobj : history -> string -> string -> string -> option exn;
  time : history -> Z
}.

(** ** The monad *)

Definition M (A : Type) : Type := history -> outcome A * history.

Definition ret {A} (a : A) : M A := fun h => (Ok a, h).

Definition bind {A B} (m : M A) (k : A -> M B) : M B :=
  fun h =>
    match m h with
    | (Ok a, h') => k a h'
    | (Raise e, h') => (Raise e, h')
    | (OutOfFuel, h') => (OutOfFuel, h')
    end.

Definition raise {A} (e : exn) : M A := fun h => (Raise e, h).

Definition out_of_fuel {A} : M A := fun h => (OutOfFuel, h).

Definition emit (ev : event) : M unit := fun h => (Ok tt, h ++ [ev]).

(** Reading an oracle at the current history. *)
Definition ask {A} (f : history -> A) : M A := fun h => (Ok (f h), h).

(** [try: m  except Exception: handler]. *)
Definition try_except {A} (m : M A) (handler : exn -> M A) : M A :=
  fun h =>
    match m h with
    | (Raise e, h') => handler e h'
    | r => r
    end.

Declare Scope monad_scope.
Delimit Scope monad_scope with monad.
Notation "x <- m ;; k" := (bind m (fun x => k))
  (at level 61, m at next level, right associativity) : monad_scope.
Notation "m ;; k" := (bind m (fun _ => k))
  (at level 61, right associativity) : monad_scope.
Notation "' pat <- m ;; k" := (bind m (fun x => match x with pat => k end))
  (at level 61, pat pattern, m at next level, right associativity) : monad_scope.
Open Scope monad_scope.

(** A call that either returns or raises, recorded with its result. *)
Definition call (r : history -> option exn) (ev : option exn -> event) : M unit :=
  fun h =>
    match r h with
    | None => (Ok tt, h ++ [ev None])
    | Some e => (Raise e, h ++ [ev (Some e)])
    end.

(** A listing call, recorded with its arguments. *)
Definition call_listing (r : history -> answer response) (ev : event) : M response :=
  fun h =>
    match r h with
    | Returned resp => (Ok resp, h ++ [ev])
    | Raised e => (Raise e, h ++ [ev])
    end.

Definition log (lvl : level) (fmt : string) : M unit := emit (EvLog lvl fmt).

(** [d[key]] on a response. *)
Definition getitem {A} (key : string) (field : option A) : M A :=
  match field with
  | Some v => ret v
  | None => raise (KeyError key)
  end.

(** [xs[-1]]. *)
Definition last_item (xs : list string) : M string :=
  match xs with
  | [] => raise IndexError
  | _ => ret (last xs "")
  end.

(** [for x in xs: acc = body(acc, x)]. *)
Fixpoint for_fold {A B} (xs : list A) (acc : B) (body : B -> A -> M B) : M B :=
  match xs with
  | [] => ret acc
  | x :: xs' => acc' <- body acc x ;; for_fold xs' acc' body
  end.

(** [m] returns [v] from history [h]. *)
Definition returns {A} (m : M A) (h : history) (v : A) : Prop :=
  exists h', m h = (Ok v, h').

Definition raises {A} (m : M A) (h : history) (e : exn) : Prop :=
  exists h', m h = (Raise e, h').

(* ================================================================== *)
(** * The module [dane/s3_util.py] *)
(* ================================================================== *)

Definition COMPRESSED_TAR_EXTENSION : string := ".tar.gz".

Record DownloadResult : Type := mkDownloadResult {
  success : bool;
  file_path : string;
  download_time : Z;
  mime_type : string;
  content_length : Z
}.

(** [download_file]: where the object of [key] is written, below
    [output_path] (lines 271-273 and 277). *)
Definition local_dir (output_path key : string) : string :=
  let splitpath := Py.split "/"%char key in
  let subpath := Py.slice_2_to_last splitpath in
  OsPath.join output_path subpath.

Definition local_file (output_path key : string) : string :=
  let splitpath := Py.split "/"%char key in
  let basename := last splitpath "" in
  OsPath.join (local_dir output_path key) [basename].

Section S3Util.

Variable env : Env.

Definition generate_asset_id_from_input_file
    (input_file : string) (with_extension : bool) : M string :=
  log DEBUG "generating asset ID for {input_file}" ;;
  let file_name := NtPath.basename input_file in
  if with_extension then ret file_name
  else
    let '(asset_id, extension) := OsPath.splitext file_name in
    ret asset_id.

Definition is_valid_tar_path (archive_path : string) : M bool :=
  log INFO "Validating {archive_path}" ;;
  parent_exists <- ask (fun h => os_path_exists env h (PathLib.parent archive_path)) ;;
  if negb parent_exists then
    log ERROR "Parent dir does not exist: {archive_path}" ;;
    ret false
  else if negb (Py.last_n 7 archive_path =? COMPRESSED_TAR_EXTENSION) then
    log ERROR "Archive file should have correct extension: {COMPRESSED_TAR_EXTENSION}" ;;
    ret false
  else ret true.

(** The [with tarfile.open(...) as tar] statement: the archive is closed
    by the normal exit of the block. *)
Definition write_tar (archive_path : string) (file_list : list string) : M unit :=
  call (fun h => tarfile_open env h archive_path) (EvTarOpen archive_path) ;;
  for_fold file_list tt (fun _ item =>
    log INFO (OsPath.basename item) ;;
    call (fun h => tar_add env h item (OsPath.basename item))
         (EvTarAdd item (OsPath.basename item))) ;;
  call (fun h => tar_close env h archive_path) (EvTarClose archive_path).

Definition tar_list_of_files (archive_path : string) (file_list : list string) : M bool :=
  log INFO "Tarring {len(file_list)} into {archive_path}" ;;
  valid <- is_valid_tar_path archive_path ;;
  if negb valid then ret false
  else
    try_except
      (write_tar archive_path file_list ;;
       log INFO "Succesfully created {archive_path}" ;;
       ret true)
      (fun e =>
         match e with
         | TarError => log ERROR "Failed to created archive: {archive_path}"
         | FileNotFoundError => log ERROR "File in file list not found"
         | _ => log ERROR "Unhandled error"
         end ;;
         log ERROR "Unknown error" ;;
         ret false).

(** [fuel] bounds the depth of the recursion. *)
Fixpoint digest_file_list (fuel : nat) (file_list : list string)
    (prefix tar_archive_path : string) {struct fuel} : M (list (string * string)) :=
  match fuel with
  | 0 => out_of_fuel
  | S fuel' =>
      if Py.truthy tar_archive_path then
        tar_success <- tar_list_of_files tar_archive_path file_list ;;
        if negb tar_success then
          log ERROR "Could not archive the file list before transferring to S3" ;;
          raise (PyException "Could not digest file list: archive error")
        else
          name <- generate_asset_id_from_input_file tar_archive_path true ;;
          let key := OsPath.join prefix [name] in
          ret [(tar_archive_path, key)]
      else
        for_fold file_list [] (fun file_and_key_list f =>
          is_dir <- ask (fun h => os_path_isdir env h f) ;;
          if is_dir then
            walked <- ask (fun h => os_walk env h f) ;;
            for_fold walked file_and_key_list
              (fun file_and_key_list '(root, dirs, files) =>
                 sub <- digest_file_list fuel'
                          (map (fun fn => OsPath.join root [fn]) (dirs ++ files))
                          (OsPath.join prefix [OsPath.basename f])
                          tar_archive_path ;;
                 ret (file_and_key_list ++ sub))
          else
            name <- generate_asset_id_from_input_file f true ;;
            let key := OsPath.join prefix [name] in
            ret (file_and_key_list ++ [(f, key)]))
  end.

Definition validate_s3_uri (s3_uri : string) : M bool :=
  if negb (Py.take 5 s3_uri =? "s3://") then
    log ERROR "Invalid protocol in {s3_uri}" ;;
    ret false
  else if (List.length (Py.split "/"%char (Py.drop 5 s3_uri)) <? 2)%nat then
    log ERROR "No object_name specified {s3_uri}" ;;
    ret false
  else ret true.

Definition parse_s3_uri (s3_uri : string) : M (string * string) :=
  log INFO "Parsing s3 URI {s3_uri}" ;;
  let tmp := Py.drop 5 s3_uri in
  let bucket := Py.slice_to (Py.find "/"%char tmp) tmp in
  let object_name := Py.drop (String.length bucket + 6) s3_uri in
  ret (bucket, object_name).

(** ** [S3Store] *)

(** The [while True] loop of [clear_prefix] and of [download_file]: gather
    the keys of [response] and of the pages after it.  [fuel] bounds the
    number of pages. *)
Fixpoint gather_pages (fuel : nat)
    (list_page : history -> string -> answer response)
    (page_event : string -> event)
    (response : response) (acc : list string) {struct fuel} : M (list string) :=
  match fuel with
  | 0 => out_of_fuel
  | S fuel' =>
      contents <- getitem "Contents" (Contents response) ;;
      let acc := acc ++ contents in
      truncated <- getitem "IsTruncated" (IsTruncated response) ;;
      if negb truncated then ret acc
      else
        contents' <- getitem "Contents" (Contents response) ;;
        marker <- last_item contents' ;;
        response' <- call_listing (fun h => list_page h marker) (page_event marker) ;;
        gather_pages fuel' list_page page_event response' acc
  end.

Definition clear_prefix (fuel : nat) (bucket prefix : string) : M unit :=
  response <- call_listing (fun h => list_objects env h bucket prefix None)
                           (EvListObjects bucket prefix None) ;;
  contents <- getitem "Contents" (Contents response) ;;
  if (0 <? List.length contents)%nat then
    log WARNING "Prefix '{prefix}' exists in bucket '{bucket}'." ;;
    to_delete <- gather_pages fuel
                   (fun h marker => list_objects env h bucket prefix (Some marker))
                   (fun marker => EvListObjects bucket prefix (Some marker))
                   response [] ;;
    log WARNING "Removing {len(to_delete)} item with '{prefix}' as prefix from bucket." ;;
    call (fun h => delete_objects env h bucket to_delete)
         (EvDeleteObjects bucket to_delete)
  else ret tt.

(** The [try] statement of the upload loop (lines 219-227): whether the
    loop goes on. *)
Definition try_upload (bucket f k : string) : M bool :=
  try_except
    (call (fun h => upload_file env h f bucket k) (EvUploadFile f bucket k) ;;
     ret true)
    (fun e => log ERROR "Failed to upload {f}" ;; ret false).

(** The upload loop of [transfer_to_s3] (lines 218-228): a failed upload
    returns false from inside the loop. *)
Fixpoint upload_all (bucket : string) (file_and_key_list : list (string * string)) : M bool :=
  match file_and_key_list with
  | [] => ret true
  | (f, k) :: rest =>
      uploaded <- try_upload bucket f k ;;
      if uploaded then upload_all bucket rest else ret false
  end.

Definition transfer_to_s3 (fuel : nat) (bucket prefix : string)
    (file_list : list string) (tar_archive_path : string) : M bool :=
  clear_prefix fuel bucket prefix ;;
  file_and_key_list <- digest_file_list fuel file_list prefix tar_archive_path ;;
  upload_all bucket file_and_key_list.

(** The [try] statement of the download loop (lines 276-283): the value of
    [success] after it. *)
Definition try_download (bucket output_path : string) (success : bool) (key : string) : M bool :=
  try_except
    (call (fun h => download_fileobj env h bucket key (local_file output_path key))
          (EvDownloadFileobj bucket key (local_file output_path key)) ;;
     ret success)
    (fun e =>
       log ERROR "Failed to download {item} from bucket {bucket}." ;;
       ret false).

(** [if not os.path.exists(location): os.makedirs(location)]. *)
Definition ensure_dir (location : string) : M unit :=
  location_exists <- ask (fun h => os_path_exists env h location) ;;
  if negb location_exists then
    call (fun h => os_makedirs env h location) (EvMakedirs location)
  else ret tt.

(** One round of the download loop (lines 269-283). *)
Definition download_item (bucket output_path : string) (success : bool) (key : string) : M bool :=
  ensure_dir (local_dir output_path key) ;;
  try_download bucket output_path success key.

(** [download_file] from line 238 on. *)
Definition download_into (fuel : nat) (bucket object_name output_folder : string)
    (start_time : Z) : M DownloadResult :=
  let output_path := OsPath.join output_folder [OsPath.basename object_name] in
  success <-
    (if Py.contains "tar.gz" object_name then
       try_except
         (call (fun h => download_fileobj env h bucket object_name output_path)
               (EvDownloadFileobj bucket object_name output_path) ;;
          ret true)
         (fun e => log ERROR "Failed to download {object_name}" ;; ret false)
     else
       response <- call_listing (fun h => list_objects_v2 env h bucket object_name None)
                                (EvListObjectsV2 bucket object_name None) ;;
       key_count <- getitem "KeyCount" (KeyCount response) ;;
       if (key_count =? 0)%Z then
         log ERROR "No content available in bucket '{bucket}' for prefix '{object_name}'." ;;
         ret false
       else
         to_download <- gather_pages fuel
                          (fun h marker => list_objects_v2 env h bucket object_name (Some marker))
                          (fun marker => EvListObjectsV2 bucket object_name (Some marker))
                          response [] ;;
         for_fold to_download true (download_item bucket output_path)) ;;
  end_time <- ask (time env) ;;
  ret {| success := success;
         file_path := output_path;
         download_time := end_time - start_time;
         mime_type := "unknown";
         content_length := -1 |}.

Definition download_file (fuel : nat) (bucket object_name output_folder : string)
    : M DownloadResult :=
  start_time <- ask (time env) ;;
  log INFO "Downloading {bucket}:{object_name} into {output_folder}" ;;
  folder_exists <- ask (fun h => os_path_exists env h output_folder) ;;
  (if negb folder_exists then
     log INFO "Output folder does not exist, creating it..." ;;
     call (fun h => os_makedirs env h output_folder) (EvMakedirs output_folder)
   else ret tt) ;;
  download_into fuel bucket object_name output_folder start_time.

Definition download_s3_uri (fuel : nat) (s3_uri output_folder : string) : M DownloadResult :=
  log INFO "Downloading {s3_uri}" ;;
  valid <- validate_s3_uri s3_uri ;;
  if negb valid then
    log ERROR "Invalid S3 URI" ;;
    ret {| success := false; file_path := ""; download_time := -1;
           mime_type := "unknown"; content_length := -1 |}
  else
    '(bucket, object_name) <- parse_s3_uri s3_uri ;;
    log DEBUG "OBJECT NAME: {object_name}" ;;
    download_file fuel bucket object_name output_folder.

End S3Util.

(* ================================================================== *)
(** * Concrete environments *)
(* ================================================================== *)

(** A directory tree seen from the working directory, for the file-system
    oracles of concrete runs. *)
Module Tree.

#[warnings="-register-all"]
Inductive node : Type :=
| File
| Dir (entries : list (string * node)).

Fixpoint lookup (name : string) (entries : list (string * node)) : option node :=
  match entries with
  | [] => None
  | (n, c) :: rest => if n =? name then Some c else lookup name rest
  end.

Fixpoint resolve_parts (n : node) (ps : list string) : option node :=
  match ps with
  | [] => Some n
  | p :: ps' =>
      match n with
      | Dir entries =>
          match lookup p entries with
          | Some c => resolve_parts c ps'
          | None => None
          end
      | File => None
      end
  end.

Definition resolve (root : node) (path : string) : option node :=
  if path =? "" then None else resolve_parts root (PathLib.parts path).

Definition exists_ (root : node) (path : string) : bool :=
  match resolve root path with
  | Some _ => true
  | None => false
  end.

Definition isdir (root : node) (path : string) : bool :=
  match resolve root path with
  | Some (Dir _) => true
  | _ => false
  end.

Definition is_dir_entry (e : string * node) : bool :=
  match snd e with
  | Dir _ => true
  | File => false
  end.

Definition dirnames (entries : list (string * node)) : list string :=
  map fst (filter is_dir_entry entries).

Definition filenames (entries : list (string * node)) : list string :=
  map fst (filter (fun e => negb (is_dir_entry e)) entries).

(** [os.walk(top)], top-down: the triple of [top], then the walk of each of
    its sub-directories. *)
Fixpoint walk_node (top : string) (n : node) : list (string * list string * list string) :=
  match n with
  | File => []
  | Dir entries =>
      (top, dirnames entries, filenames entries) ::
      (fix walk_entries (es : list (string * node)) :=
         match es with
         | [] => []
         | (name, c) :: es' => walk_node (OsPath.join top [name]) c ++ walk_entries es'
         end) entries
  end.

Definition walk (root : node) (top : string) : list (string * list string * list string) :=
  match resolve root top with
  | Some n => walk_node top n
  | None => []
  end.

End Tree.

(** An environment in which every call succeeds and the file system is the
    tree [root]: the bucket holds one old key under every prefix that
    [list_objects] is asked for, and nothing that [list_objects_v2] is asked
    for. *)
Definition quiet_env (root : Tree.node) : Env :=
  {| os_path_exists := fun _ => Tree.exists_ root;
     os_path_isdir := fun _ => Tree.isdir root;
     os_walk := fun _ => Tree.walk root;
     os_makedirs := fun _ _ => None;
     tarfile_open := fun _ _ => None;
     tar_add := fun _ _ _ => None;
     tar_close := fun _ _ => None;
     list_objects := fun _ _ prefix _ =>
       Returned {| Contents := Some [OsPath.join prefix ["old.json"]];
                   IsTruncated := Some false; KeyCount := None |};
     delete_objects := fun _ _ _ => None;
     upload_file := fun _ _ _ _ => None;
     list_objects_v2 := fun _ _ _ _ =>
       Returned {| Contents := None; IsTruncated := Some false; KeyCount := Some 0%Z |};
     download_fileobj := fun _ _ _ _ => None;
     time := fun h => Z.of_nat (List.length h) |}.

(** The directory that [test/test_s3_util.py] sets up. *)
Definition test_tree : Tree.node :=
  Tree.Dir
    [("tmp_dir_for_tests",
      Tree.Dir [("provenance", Tree.Dir [("tmp_file_in_subdir", Tree.File)]);
                ("assets", Tree.Dir []);
                ("tmp_file_top_level", Tree.File)])].

(* ================================================================== *)
(** * Observations on runs *)
(* ================================================================== *)

(** A path component without separator. *)
Definition no_slash (s : string) : Prop :=
  Py.find_pred (Ascii.eqb "/"%char) s = None.

(** The part of the history that records uploads: file, key and whether the
    call returned. *)
Definition succeeded (r : option exn) : bool :=
  match r with
  | None => true
  | Some _ => false
  end.

Definition uploads (h : history) : list (string * string * bool) :=
  flat_map (fun ev =>
              match ev with
              | EvUploadFile f _ k r => [(f, k, succeeded r)]
              | _ => []
              end) h.

(** The downloads: key, local path and whether the call returned. *)
Definition downloads (h : history) : list (string * string * bool) :=
  flat_map (fun ev =>
              match ev with
              | EvDownloadFileobj _ k path r => [(k, path, succeeded r)]
              | _ => []
              end) h.

Definition is_error_log (ev : event) : bool :=
  match ev with
  | EvLog ERROR _ => true
  | _ => false
  end.

(** [m] never runs out of fuel. *)
Definition fuel_free {A} (m : M A) : Prop :=
  forall h h', m h <> (OutOfFuel, h').

(** [m] only adds to the history. *)
Definition extends {A} (m : M A) : Prop :=
  forall h, exists t, snd (m h) = h ++ t.

(** The history at which [tar_list_of_files] checks the archive path and, if
    it is valid, starts writing. *)
Definition at_validation (h : history) : history :=
  h ++ [EvLog INFO "Tarring {len(file_list)} into {archive_path}";
        EvLog INFO "Validating {archive_path}"].

(** The history after the first lines of [download_file] (233-237), when the
    creation of the folder, if there is one, returns. *)
Definition after_folder_check (env : Env) (output_folder : string) (h : history) : history :=
  let h0 := h ++ [EvLog INFO "Downloading {bucket}:{object_name} into {output_folder}"] in
  if os_path_exists env h0 output_folder then h0
  else h0 ++ [EvLog INFO "Output folder does not exist, creating it...";
              EvMakedirs output_folder None].

Definition keys_start_with (prefix : string) (pairs : list (string * string)) : Prop :=
  forall f k, In (f, k) pairs -> Py.startswith prefix k = true.


(** The upload events of a whole list of pairs, each successful. *)
Definition uploaded (pairs : list (string * string)) : list (string * string * bool) :=
  map (fun p => (fst p, snd p, true)) pairs.

(** What fail-fast leaves in the history for [pairs]: either every pair
    uploaded and the result true, or the pairs before the first failure
    uploaded, the failing one attempted, nothing after it, and the result
    false. *)
Definition fail_fast (pairs : list (string * string)) (b : bool)
    (ups : list (string * string * bool)) : Prop :=
  (b = true /\ ups = uploaded pairs) \/
  (b = false /\
   exists done failed rest,
     pairs = done ++ failed :: rest /\
     ups = uploaded done ++ [(fst failed, snd failed, false)]).

(** The local path that the words of the specification describe: below
    [base], the segments of the key after its first two. *)
Definition claimed_local_file (base key : string) : string :=
  OsPath.join base (skipn 2 (Py.split "/"%char key)).

Definition failed_downloads (t : history) : list (string * string * bool) :=
  filter (fun d => negb (snd d)) (downloads t).

Definition error_logs (t : history) : list event :=
  filter is_error_log t.

(** The [os.makedirs] calls that raised. *)
Definition makedirs_failures (t : history) : list (string * exn) :=
  flat_map (fun ev =>
              match ev with
              | EvMakedirs location (Some e) => [(location, e)]
              | _ => []
              end) t.

(** What the first lines of [download_file] (233-237) raise, if anything:
    the exception of [os.makedirs(output_folder)] when the folder is
    missing. *)
Definition folder_check (env : Env) (output_folder : string) (h : history) : option exn :=
  let h0 := h ++ [EvLog INFO "Downloading {bucket}:{object_name} into {output_folder}"] in
  if os_path_exists env h0 output_folder then None
  else os_makedirs env (h0 ++ [EvLog INFO "Output folder does not exist, creating it..."])
         output_folder.

(** The keys of [keys] have each been attempted once, in order, each at its
    local path, every failure has its line in the log, and no [os.makedirs]
    call has raised. *)
Definition attempted (output_path : string) (keys : list string) (t : history) : Prop :=
  map fst (downloads t) = map (fun k => (k, local_file output_path k)) keys /\
  List.length (error_logs t) = List.length (failed_downloads t) /\
  makedirs_failures t = [].

(** The retrieval that the words of the specification describe for a listing
    of [keys]: a result comes back, every key has been attempted, and
    [success] is the conjunction of the outcomes. *)
Definition claimed_fail_continue (keys : list string)
    (run : outcome DownloadResult * history) : Prop :=
  exists res,
    fst run = Ok res /\
    map (fun d => fst (fst d)) (downloads (snd run)) = keys /\
    success res = forallb snd (downloads (snd run)).

(** ** Environments of concrete runs *)

Definition set_list_objects
    (f : history -> string -> string -> option string -> answer response) (e : Env) : Env :=
  {| os_path_exists := os_path_exists e; os_path_isdir := os_path_isdir e;
     os_walk := os_walk e; os_makedirs := os_makedirs e;
     tarfile_open := tarfile_open e; tar_add := tar_add e; tar_close := tar_close e;
     list_objects := f; delete_objects := delete_objects e;
     upload_file := upload_file e; list_objects_v2 := list_objects_v2 e;
     download_fileobj := download_fileobj e; time := time e |}.

Definition set_upload_file
    (f : history -> string -> string -> string -> option exn) (e : Env) : Env :=
  {| os_path_exists := os_path_exists e; os_path_isdir := os_path_isdir e;
     os_walk := os_walk e; os_makedirs := os_makedirs e;
     tarfile_open := tarfile_open e; tar_add := tar_add e; tar_close := tar_close e;
     list_objects := list_objects e; delete_objects := delete_objects e;
     upload_file := f; list_objects_v2 := list_objects_v2 e;
     download_fileobj := download_fileobj e; time := time e |}.

Definition set_list_objects_v2
    (f : history -> string -> string -> option string -> answer response) (e : Env) : Env :=
  {| os_path_exists := os_path_exists e; os_path_isdir := os_path_isdir e;
     os_walk := os_walk e; os_makedirs := os_makedirs e;
     tarfile_open := tarfile_open e; tar_add := tar_add e; tar_close := tar_close e;
     list_objects := list_objects e; delete_objects := delete_objects e;
     upload_file := upload_file e; list_objects_v2 := f;
     download_fileobj := download_fileobj e; time := time e |}.

Definition set_download_fileobj
    (f : history -> string -> string -> string -> option exn) (e : Env) : Env :=
  {| os_path_exists := os_path_exists e; os_path_isdir := os_path_isdir e;
     os_walk := os_walk e; os_makedirs := os_makedirs e;
     tarfile_open := tarfile_open e; tar_add := tar_add e; tar_close := tar_close e;
     list_objects := list_objects e; delete_objects := delete_objects e;
     upload_file := upload_file e; list_objects_v2 := list_objects_v2 e;
     download_fileobj := f; time := time e |}.

Definition set_os_makedirs (f : history -> string -> option exn) (e : Env) : Env :=
  {| os_path_exists := os_path_exists e; os_path_isdir := os_path_isdir e;
     os_walk := os_walk e; os_makedirs := f;
     tarfile_open := tarfile_open e; tar_add := tar_add e; tar_close := tar_close e;
     list_objects := list_objects e; delete_objects := delete_objects e;
     upload_file := upload_file e; list_objects_v2 := list_objects_v2 e;
     download_fileobj := download_fileobj e; time := time e |}.

(** A store whose second upload fails. *)
Definition second_put_fails : Env :=
  set_upload_file
    (fun h _ _ _ =>
       if (List.length (uploads h) =? 1)%nat then Some (ClientError "put failed") else None)
    (quiet_env test_tree).

(** A store that lists three keys in one page and whose second download
    fails. *)
Definition three_keys : list string :=
  ["test_items/1411058/keyframes/105320.jpg";
   "test_items/1411058/keyframes/105321.jpg";
   "test_items/1411058/index.json"].

Definition second_get_fails : Env :=
  set_download_fileobj
    (fun h _ _ _ =>
       if (List.length (downloads h) =? 1)%nat then Some (ClientError "get failed") else None)
    (set_list_objects_v2
       (fun _ _ _ _ =>
          Returned {| Contents := Some three_keys; IsTruncated := Some false;
                      KeyCount := Some 3%Z |})
       (quiet_env test_tree)).

(** A store that holds an object [p/q/a] and objects below [p/q/a/]: once
    the first is written to the file [out/q/a], the directory [out/q/a/b] of
    the second cannot be created. *)
Definition blocked_keys : list string := ["p/q/a"; "p/q/a/b/c"; "p/q/z"].

Definition blocked_directory_store : Env :=
  set_os_makedirs
    (fun _ location =>
       if (location =? "out/q/a/b")%string
       then Some (OSError "[Errno 20] Not a directory: 'out/q/a/b'")
       else None)
    (set_list_objects_v2
       (fun _ _ _ _ =>
          Returned {| Contents := Some blocked_keys; IsTruncated := Some false;
                      KeyCount := Some 3%Z |})
       (quiet_env test_tree)).

(** A store that answers a listing of a prefix without keys the way S3 does:
    with no ["Contents"] entry in the response. *)
Definition empty_prefix_store : Env :=
  set_list_objects
    (fun _ _ _ _ =>
       Returned {| Contents := None; IsTruncated := Some false; KeyCount := None |})
    (quiet_env test_tree).

(** ** Kinds of effects *)

Inductive event_kind : Type :=
| KLog | KMakedirs | KTar
| KListObjects | KDeleteObjects | KUploadFile
| KListObjectsV2 | KDownloadFileobj.

Definition kind_of (ev : event) : event_kind :=
  match ev with
  | EvLog _ _ => KLog
  | EvMakedirs _ _ => KMakedirs
  | EvTarOpen _ _ | EvTarAdd _ _ _ | EvTarClose _ _ => KTar
  | EvListObjects _ _ _ => KListObjects
  | EvDeleteObjects _ _ _ => KDeleteObjects
  | EvUploadFile _ _ _ _ => KUploadFile
  | EvListObjectsV2 _ _ _ => KListObjectsV2
  | EvDownloadFileobj _ _ _ _ => KDownloadFileobj
  end.

Definition kind_eqb (a b : event_kind) : bool :=
  match a, b with
  | KLog, KLog | KMakedirs, KMakedirs | KTar, KTar
  | KListObjects, KListObjects | KDeleteObjects, KDeleteObjects
  | KUploadFile, KUploadFile | KListObjectsV2, KListObjectsV2
  | KDownloadFileobj, KDownloadFileobj => true
  | _, _ => false
  end.

Definition of_kinds (ks : list event_kind) (ev : event) : bool :=
  existsb (kind_eqb (kind_of ev)) ks.

(** Every effect of [m], from any history and whatever its outcome,
    satisfies [P]. *)
Definition every_effect {A} (P : event -> bool) (m : M A) : Prop :=
  forall h, exists t, snd (m h) = h ++ t /\ forallb P t = true.

(** Every effect of [m] is of one of the kinds [ks]. *)
Definition only_emits {A} (ks : list event_kind) (m : M A) : Prop :=
  every_effect (of_kinds ks) m.

(** A directory created or a file written is at a path that starts with
    [folder]. *)
Definition writes_below (folder : string) (ev : event) : bool :=
  match ev with
  | EvMakedirs path _ => Py.startswith folder path
  | EvDownloadFileobj _ _ path _ => Py.startswith folder path
  | _ => true
  end.

(** The archive events of a history, the batches deleted and the markers of
    the listing calls. *)
Definition tar_events (t : history) : list event :=
  filter (fun ev => kind_eqb (kind_of ev) KTar) t.

Definition deleted (t : history) : list (list string) :=
  flat_map (fun ev =>
              match ev with
              | EvDeleteObjects _ keys _ => [keys]
              | _ => []
              end) t.

Definition listing_markers (t : history) : list (option string) :=
  flat_map (fun ev =>
              match ev with
              | EvListObjects _ _ marker | EvListObjectsV2 _ _ marker => [marker]
              | _ => []
              end) t.

(** The events of an archive written without error. *)
Definition archived (archive_path : string) (file_list : list string) : list event :=
  EvTarOpen archive_path None ::
  map (fun item => EvTarAdd item (OsPath.basename item) None) file_list ++
  [EvTarClose archive_path None].

(** How the writing of an archive can fail: at the opening, at the first
    member that cannot be added, or at the closing. *)
Definition archive_failure (archive_path : string) (file_list : list string)
    (evs : list event) : Prop :=
  (exists e, evs = [EvTarOpen archive_path (Some e)]) \/
  (exists e done failed rest,
     file_list = done ++ failed :: rest /\
     evs = EvTarOpen archive_path None ::
           map (fun item => EvTarAdd item (OsPath.basename item) None) done ++
           [EvTarAdd failed (OsPath.basename failed) (Some e)]) \/
  (exists e,
     evs = EvTarOpen archive_path None ::
           map (fun item => EvTarAdd item (OsPath.basename item) None) file_list ++
           [EvTarClose archive_path (Some e)]).

(** The strings that [validate_s3_uri] accepts. *)
Definition well_formed_uri (s3_uri : string) : Prop :=
  exists bucket object_name,
    s3_uri = ("s3://" ++ bucket ++ "/" ++ object_name)%string /\ no_slash bucket.

(** The result of [download_s3_uri] for a string it rejects. *)
Definition invalid_uri_result : DownloadResult :=
  {| success := false; file_path := ""; download_time := -1;
     mime_type := "unknown"; content_length := -1 |}.

(** ** A store that lists by pages *)

(** The keys that follow [marker] in a listing. *)
Fixpoint after (marker : string) (keys : list string) : list string :=
  match keys with
  | [] => []
  | k :: keys' => if k =? marker then keys' else after marker keys'
  end.

(** The page that a store sends for the keys [rest] still to list, at most
    [page_size] of them; a page without keys has no ["Contents"]. *)
Definition page (page_size : nat) (rest : list string) : response :=
  {| Contents := match rest with
                 | [] => None
                 | _ => Some (firstn page_size rest)
                 end;
     IsTruncated := Some (page_size <? List.length rest)%nat;
     KeyCount := Some (Z.of_nat (List.length (firstn page_size rest))) |}.

Definition paged_listing (page_size : nat) (keys : list string)
    (marker : option string) : answer response :=
  Returned (page page_size
              match marker with
              | None => keys
              | Some m => after m keys
              end).

(** A file system of a directory [d] with a file and a sub-directory [d/s]
    with a file, given by its walks, and the height of its paths. *)
Definition two_level_env : Env :=
  {| os_path_exists := fun _ _ => true;
     os_path_isdir := fun _ f => (f =? "d")%string || (f =? "d/s")%string;
     os_walk := fun _ f =>
       if (f =? "d")%string then [("d", ["s"], ["a.txt"]); ("d/s", [], ["b.txt"])]
       else if (f =? "d/s")%string then [("d/s", [], ["b.txt"])]
       else [];
     os_makedirs := fun _ _ => None;
     tarfile_open := fun _ _ => None;
     tar_add := fun _ _ _ => None;
     tar_close := fun _ _ => None;
     list_objects := fun _ _ _ _ => Raised (ClientError "no store");
     delete_objects := fun _ _ _ => None;
     upload_file := fun _ _ _ _ => None;
     list_objects_v2 := fun _ _ _ _ => Raised (ClientError "no store");
     download_fileobj := fun _ _ _ _ => None;
     time := fun _ => 0%Z |}.

Definition two_level_rank (f : string) : nat :=
  if (f =? "d")%string then 2 else if (f =? "d/s")%string then 1 else 0.

Definition five_keys : list string :=
  ["p/q/a.json"; "p/q/b.json"; "p/q/c/d.json"; "p/q/c/e.json"; "p/q/f.json"].

(** A store that holds [five_keys] and whose [list_objects] lists them two
    at a time, continuing from the [Marker] it is given. *)
Definition paged_store : Env :=
  set_list_objects (fun _ _ _ => paged_listing 2 five_keys) (quiet_env test_tree).

(** The same keys seen through [list_objects_v2], which continues a listing
    from a [ContinuationToken] or [StartAfter] and refuses the [Marker] that
    [download_file] sends: the first page comes, the request for the second
    fails the validation of its parameters. *)
Definition marker_rejecting_store : Env :=
  set_list_objects_v2
    (fun _ _ _ marker =>
       match marker with
       | None => Returned (page 2 five_keys)
       | Some _ => Raised (PyException "ParamValidationError: Unknown parameter in input: Marker")
       end)
    (quiet_env test_tree).

(* ================================================================== *)
(** * The class [Task] ([DANE/tasks.py]) *)
(* ================================================================== *)

(** A task is a record that the methods update and return ([return self]).
    The handler behind [api] is outside the module: a task holds the handle
    of one, and the handlers answer from the calls made so far.  A handler
    returns the id it assigns (which, as any Python value, may be [None]) or
    raises.  [str.upper] is a parameter of the model. *)
Module Tasks.

Inductive error : Type :=
| ValueError (msg : string)
| APIRegistrationError (msg : string)
| MissingEndpointError (msg : string)
| HandlerError (msg : string).       (* raised by the handler *)

Record Task : Type := mkTask {
  task_key : string;
  task_id : option Z;
  task_state : option Z;
  task_msg : option string;
  api : option nat
}.

Inductive api_call : Type :=
| CallRegister (handle : nat) (job_id : Z) (task : Task)
| CallRun (handle : nat) (task_id : Z)
| CallRetry (handle : nat) (task_id : Z)
| CallIsDone (handle : nat) (task_id : Z).

Inductive result (A : Type) : Type :=
| Done (a : A)
| Failed (e : error).
Arguments Done {A} a.
Arguments Failed {A} e.

Record Handlers : Type := mkHandlers {
  handle_register : list api_call -> nat -> Z -> Task -> result (option Z);
  handle_run : list api_call -> nat -> Z -> result unit;
  handle_retry : list api_call -> nat -> Z -> result unit;
  handle_isDone : list api_call -> nat -> Z -> result bool
}.

(** A method: from the calls so far to its result and the calls after it. *)
Definition Method (A : Type) : Type := list api_call -> result A * list api_call.

Definition quote : string := String "034"%char "".

Section Methods.

Variable str_upper : string -> string.
Variable handlers : Handlers.

(** [Task.__init__]. *)
Definition init (key : option string) (id state : option Z) (msg : option string)
    (api_handle : option nat) : result Task :=
  match key with
  | None =>
      Failed (ValueError ("task key cannot be empty string " ++ quote ++ quote ++ " or None"))
  | Some k =>
      if (k =? "")%string then
        Failed (ValueError ("task key cannot be empty string " ++ quote ++ quote ++ " or None"))
      else
        Done {| task_key := str_upper k; task_id := id; task_state := state;
                task_msg := msg; api := api_handle |}
  end.

Definition with_task_id (self : Task) (id : option Z) : Task :=
  {| task_key := task_key self; task_id := id; task_state := task_state self;
     task_msg := task_msg self; api := api self |}.

Definition register (self : Task) (job_id : Z) : Method Task :=
  fun calls =>
    match task_id self with
    | Some _ => (Failed (APIRegistrationError "Task already registered"), calls)
    | None =>
        match api self with
        | None => (Failed (MissingEndpointError "No endpoint found toregister task"), calls)
        | Some handle =>
            match handle_register handlers calls handle job_id self with
            | Done id => (Done (with_task_id self id), calls ++ [CallRegister handle job_id self])
            | Failed e => (Failed e, calls ++ [CallRegister handle job_id self])
            end
        end
    end.

Definition run (self : Task) : Method Task :=
  fun calls =>
    match task_id self with
    | None => (Failed (APIRegistrationError "Cannot run an unregisteredtask"), calls)
    | Some id =>
        match api self with
        | None => (Failed (MissingEndpointError "No endpoint foundto perform task"), calls)
        | Some handle =>
            match handle_run handlers calls handle id with
            | Done _ => (Done self, calls ++ [CallRun handle id])
            | Failed e => (Failed e, calls ++ [CallRun handle id])
            end
        end
    end.

Definition retry (self : Task) : Method Task :=
  fun calls =>
    match task_id self with
    | None => (Failed (APIRegistrationError "Cannot retry an unregisteredtask"), calls)
    | Some id =>
        match api self with
        | None => (Failed (MissingEndpointError "No endpoint foundto perform task"), calls)
        | Some handle =>
            match handle_retry handlers calls handle id with
            | Done _ => (Done self, calls ++ [CallRetry handle id])
            | Failed e => (Failed e, calls ++ [CallRetry handle id])
            end
        end
    end.

Definition isDone (self : Task) : Method bool :=
  fun calls =>
    match task_state self with
    | Some state => (Done (state =? 200)%Z, calls)
    | None =>
        match task_id self with
        | None =>
            (Failed (APIRegistrationError "Cannot check doneness of anunregistered task"), calls)
        | Some id =>
            match api self with
            | None =>
                (Failed (MissingEndpointError "No endpoint found to checktask doneness against"),
                 calls)
            | Some handle =>
                match handle_isDone handlers calls handle id with
                | Done b => (Done b, calls ++ [CallIsDone handle id])
                | Failed e => (Failed e, calls ++ [CallIsDone handle id])
                end
            end
        end
    end.

Definition set_api (self : Task) (api_handle : option nat) : Task :=
  {| task_key := task_key self; task_id := task_id self; task_state := task_state self;
     task_msg := task_msg self; api := api_handle |}.

End Methods.

(** A handler that gives the id 7 to every task and runs everything. *)
Definition obliging : Handlers :=
  {| handle_register := fun _ _ _ _ => Done (Some 7%Z);
     handle_run := fun _ _ _ => Done tt;
     handle_retry := fun _ _ _ => Done tt;
     handle_isDone := fun _ _ _ => Done false |}.

End Tasks.

(* ================================================================== *)
(** * Facts about the string primitives *)
(* ================================================================== *)

Module PyFacts.

Local Open Scope string_scope.

Lemma take_drop (n : nat) (s : string) : Py.take n s ++ Py.drop n s = s.
Proof.
  revert s; induction n as [|n IH]; intros [|a s]; simpl; try reflexivity.
  now rewrite IH.
Qed.

Lemma take_app (a b : string) : Py.take (String.length a) (a ++ b) = a.
Proof. induction a as [|c a IH]; simpl; [now destruct b | now rewrite IH]. Qed.

Lemma drop_app (a b : string) : Py.drop (String.length a) (a ++ b) = b.
Proof. induction a as [|c a IH]; simpl; auto. Qed.

Lemma drop_drop (n m : nat) (s : string) :
  Py.drop n (Py.drop m s) = Py.drop (m + n) s.
Proof.
  revert s; induction m as [|m IH]; intros s; simpl; [reflexivity|].
  destruct s as [|a s]; [now destruct n | apply IH].
Qed.

Lemma length_app (a b : string) :
  String.length (a ++ b) = String.length a + String.length b.
Proof. induction a as [|c a IH]; simpl; auto. Qed.

Lemma length_take (n : nat) (s : string) :
  n <= String.length s -> String.length (Py.take n s) = n.
Proof.
  revert s; induction n as [|n IH]; intros [|a s] H; simpl in *; try lia.
  rewrite IH; lia.
Qed.

Lemma app_assoc (a b c : string) : (a ++ b) ++ c = a ++ (b ++ c).
Proof. induction a as [|x a IH]; simpl; [reflexivity | now rewrite IH]. Qed.

Lemma app_empty_r (a : string) : a ++ "" = a.
Proof. induction a as [|x a IH]; simpl; [reflexivity | now rewrite IH]. Qed.

(** ** Prefixes *)

Lemma prefix_app (a b : string) : prefix a (a ++ b) = true.
Proof.
  induction a as [|c a IH]; simpl; [now destruct b|].
  destruct (ascii_dec c c) as [_|ne]; [exact IH | now elim ne].
Qed.

Lemma prefix_split (a s : string) : prefix a s = true -> exists b, s = a ++ b.
Proof.
  revert s; induction a as [|c a IH]; intros s H.
  - now exists s.
  - destruct s as [|d s]; simpl in H; [discriminate|].
    destruct (ascii_dec c d) as [->|]; [|discriminate].
    destruct (IH _ H) as [b ->]. now exists b.
Qed.

Lemma prefix_iff (a s : string) : prefix a s = true <-> exists b, s = a ++ b.
Proof.
  split; [apply prefix_split | intros [b ->]; apply prefix_app].
Qed.

Lemma prefix_trans (a b c : string) :
  prefix a b = true -> prefix b c = true -> prefix a c = true.
Proof.
  intros [x ->]%prefix_iff [y ->]%prefix_iff.
  rewrite app_assoc. apply prefix_app.
Qed.

(** ** Suffixes: [s[-n:] == t] says that [s] ends with [t] *)

Lemma last_n_suffix (t s : string) :
  Py.last_n (String.length t) s = t <-> exists stem, s = stem ++ t.
Proof.
  unfold Py.last_n; split.
  - intros H. exists (Py.take (String.length s - String.length t) s).
    pose proof (take_drop (String.length s - String.length t) s) as E.
    rewrite H in E. now symmetry.
  - intros [stem ->]. rewrite length_app.
    replace (String.length stem + String.length t - String.length t)
      with (String.length stem) by lia.
    apply drop_app.
Qed.

(** ** Searching *)

Lemma find_pred_some (p : ascii -> bool) (s : string) (i : nat) :
  Py.find_pred p s = Some i ->
  exists c, p c = true /\ s = Py.take i s ++ String c (Py.drop (S i) s)
            /\ Py.find_pred p (Py.take i s) = None
            /\ i < String.length s.
Proof.
  revert i; induction s as [|a s IH]; intros i H; simpl in H; [discriminate|].
  destruct (p a) eqn:Hp.
  - injection H as <-. exists a. simpl. repeat split; auto. lia.
  - destruct (Py.find_pred p s) as [j|] eqn:Hj; [|discriminate].
    injection H as <-. destruct (IH j eq_refl) as (c & Hc & Hs & Hn & Hl).
    exists c. repeat split; auto.
    + change (String a s = String a (Py.take j s ++ String c (Py.drop (S j) s))).
      now f_equal.
    + simpl. now rewrite Hp, Hn.
    + simpl. lia.
Qed.

Lemma find_pred_app (p : ascii -> bool) (a b : string) (c : ascii) :
  Py.find_pred p a = None -> p c = true ->
  Py.find_pred p (a ++ String c b) = Some (String.length a).
Proof.
  induction a as [|x a IH]; simpl; intros Ha Hc.
  - now rewrite Hc.
  - destruct (p x); [discriminate|].
    destruct (Py.find_pred p a); [discriminate|]. now rewrite IH.
Qed.

(** What follows the last character satisfying [p] has none. *)
Lemma rfind_pred_tail (p : ascii -> bool) (s : string) :
  Py.find_pred p
    (match Py.rfind_pred p s with
     | Some i => Py.drop (S i) s
     | None => s
     end) = None.
Proof.
  induction s as [|a s IH]; simpl; [reflexivity|].
  destruct (Py.rfind_pred p s) as [i|]; [exact IH|].
  destruct (p a) eqn:Hp; simpl.
  - destruct s; exact IH.
  - now rewrite Hp, IH.
Qed.

Lemma find_pred_none_first (p : ascii -> bool) (a : ascii) (s : string) :
  Py.find_pred p (String a s) = None -> p a = false.
Proof. simpl. now destruct (p a). Qed.

Lemma find_pred_cons_none (p : ascii -> bool) (a : ascii) (s : string) :
  p a = false -> Py.find_pred p s = None -> Py.find_pred p (String a s) = None.
Proof. simpl. now intros -> ->. Qed.

(** ** Splitting *)

Lemma split_nonempty (c : ascii) (s : string) : Py.split c s <> [].
Proof.
  induction s as [|a s IH]; simpl; [discriminate|].
  destruct (Ascii.eqb a c); [discriminate|].
  destruct (Py.split c s); [contradiction | discriminate].
Qed.

Lemma split_single (c : ascii) (s : string) :
  (List.length (Py.split c s) <? 2)%nat = true <->
  Py.find_pred (Ascii.eqb c) s = None.
Proof.
  induction s as [|a s IH]; simpl; [now split|].
  rewrite (Ascii.eqb_sym c a).
  destruct (Ascii.eqb a c) eqn:E; simpl.
  - pose proof (split_nonempty c s) as Hne.
    destruct (Py.split c s); [contradiction|]. simpl. now split.
  - pose proof (split_nonempty c s) as Hne.
    destruct (Py.split c s) as [|w ws]; [contradiction|].
    simpl in *. destruct (Py.find_pred (Ascii.eqb c) s).
    + split; [|discriminate]. intros H. now apply IH in H.
    + split; [reflexivity|]. intros _. now apply IH.
Qed.

(** Splitting a string built from separator-free segments gives them back. *)
Lemma split_app_sep (c : ascii) (a b : string) :
  Py.find_pred (Ascii.eqb c) a = None ->
  Py.split c (a ++ String c b) = a :: Py.split c b.
Proof.
  induction a as [|x a IH]; simpl; intros H.
  - now rewrite Ascii.eqb_refl.
  - rewrite (Ascii.eqb_sym c x) in H.
    destruct (Ascii.eqb x c); [discriminate|].
    destruct (Py.find_pred (Ascii.eqb c) a); [discriminate|].
    now rewrite IH.
Qed.

Lemma split_no_sep (c : ascii) (a : string) :
  Py.find_pred (Ascii.eqb c) a = None -> Py.split c a = [a].
Proof.
  induction a as [|x a IH]; simpl; intros H; [reflexivity|].
  rewrite (Ascii.eqb_sym c x) in H.
  destruct (Ascii.eqb x c); [discriminate|].
  destruct (Py.find_pred (Ascii.eqb c) a); [discriminate|].
  now rewrite IH.
Qed.

(** ** The primitives on some inputs *)

Example split_example : Py.split "/"%char "a/b//c/" = ["a"; "b"; ""; "c"; ""]%list.
Proof. reflexivity. Qed.

Example split_empty : Py.split "/"%char "" = [""]%list.
Proof. reflexivity. Qed.

Example last_n_example : Py.last_n 7 "backup.tar.gz" = ".tar.gz" /\ Py.last_n 7 "r.gz" = "r.gz".
Proof. now split. Qed.

Example slice_to_minus_one : Py.slice_to (-1) "bucket" = "bucke".
Proof. reflexivity. Qed.

Example contains_example :
  Py.contains "tar.gz" "a/b.tar.gz" = true /\ Py.contains "tar.gz" "a/b.tgz" = false.
Proof. now split. Qed.

End PyFacts.

(* ================================================================== *)
(** * Facts about the path helpers *)
(* ================================================================== *)

Module PathFacts.

Local Open Scope string_scope.

Lemma find_pred_none_weaken (p q : ascii -> bool) (s : string) :
  (forall a, q a = true -> p a = true) ->
  Py.find_pred p s = None -> Py.find_pred q s = None.
Proof.
  intros Hpq; induction s as [|a s IH]; simpl; [reflexivity|].
  destruct (p a) eqn:Hp; [discriminate|].
  destruct (Py.find_pred p s); [discriminate|]. intros _.
  destruct (q a) eqn:Hq; [apply Hpq in Hq; congruence|].
  now rewrite IH.
Qed.

Lemma basename_no_slash (p : string) : no_slash (OsPath.basename p).
Proof.
  unfold no_slash, OsPath.basename, Py.rfind, OsPath.sep.
  pose proof (PyFacts.rfind_pred_tail (Ascii.eqb "/"%char) p) as H.
  destruct (Py.rfind_pred (Ascii.eqb "/"%char) p) as [i|]; simpl Py.index_or_minus_one.
  - replace (Z.to_nat (Z.of_nat i + 1)) with (S i) by lia. exact H.
  - exact H.
Qed.

Lemma nt_basename_no_slash (p : string) : no_slash (NtPath.basename p).
Proof.
  unfold no_slash, NtPath.basename, NtPath.tail_after_seps.
  apply find_pred_none_weaken with (p := NtPath.is_sep).
  - intros a Ha. unfold NtPath.is_sep. rewrite (Ascii.eqb_sym a "/"%char), Ha.
    apply orb_true_r.
  - apply PyFacts.rfind_pred_tail.
Qed.

Lemma no_slash_not_absolute (s : string) :
  no_slash s -> Py.startswith "/" s = false.
Proof.
  unfold no_slash, Py.startswith. intros H.
  destruct (prefix "/" s) eqn:E; [|reflexivity].
  apply PyFacts.prefix_split in E as [b ->]. discriminate H.
Qed.

(** Joining a relative component keeps what was there. *)
Lemma join_step_prefix (path b : string) :
  Py.startswith "/" b = false -> prefix path (OsPath.join_step path b) = true.
Proof.
  intros H. unfold OsPath.join_step. rewrite H.
  destruct ((path =? "") || Py.endswith "/" path); apply PyFacts.prefix_app.
Qed.

Lemma join_prefix (path b : string) :
  no_slash b -> Py.startswith path (OsPath.join path [b]) = true.
Proof.
  intros H. apply join_step_prefix, no_slash_not_absolute, H.
Qed.

(** The segments of a key contain no separator. *)
Lemma split_segments_no_slash (s x : string) :
  In x (Py.split "/"%char s) -> no_slash x.
Proof.
  unfold no_slash. revert x; induction s as [|a s IH]; intros x; simpl.
  - intros [<-|[]]. reflexivity.
  - pose proof (PyFacts.split_nonempty "/"%char s) as Hne.
    destruct (Ascii.eqb a "/"%char) eqn:E.
    + intros [<-|H]; [reflexivity | now apply IH].
    + destruct (Py.split "/"%char s) as [|w ws]; [contradiction|].
      intros [<-|H].
      * apply PyFacts.find_pred_cons_none.
        -- now rewrite Ascii.eqb_sym.
        -- apply IH. now left.
      * apply IH. now right.
Qed.

(** ** The helpers on some inputs *)

Example join_examples :
  OsPath.join "a" ["b"; "c"] = "a/b/c" /\ OsPath.join "a/" ["b"] = "a/b" /\
  OsPath.join "" ["b"] = "b" /\ OsPath.join "a" ["/b"; "c"] = "/b/c" /\
  OsPath.join "a" [""] = "a/".
Proof. now repeat split. Qed.

Example basename_examples :
  OsPath.basename "a/b/c.tar.gz" = "c.tar.gz" /\ OsPath.basename "a/b/" = "" /\
  OsPath.basename "c" = "c".
Proof. now repeat split. Qed.

Example nt_basename_examples :
  NtPath.basename "a/b/c.tar.gz" = "c.tar.gz" /\ NtPath.basename "a/b\c" = "c" /\
  NtPath.basename "c:foo" = "foo" /\ NtPath.basename "dir/" = "".
Proof. now repeat split. Qed.

Example parent_examples :
  PathLib.parent "tmp_tar_for_tests.tar.gz" = "." /\
  PathLib.parent "a/b/c.tar.gz" = "a/b" /\
  PathLib.parent "/c.tar.gz" = "/" /\
  PathLib.parent "a//b/./c" = "a/b".
Proof. now repeat split. Qed.

End PathFacts.

(* ================================================================== *)
(** * Facts about runs *)
(* ================================================================== *)

Module RunFacts.

Lemma bind_ok {A B} (m : M A) (k : A -> M B) (h h' : history) (b : B) :
  bind m k h = (Ok b, h') ->
  exists a h1, m h = (Ok a, h1) /\ k a h1 = (Ok b, h').
Proof.
  unfold bind. destruct (m h) as [[a| |] h1]; intros H; try discriminate.
  now exists a, h1.
Qed.

Lemma bind_run {A B} (m : M A) (k : A -> M B) (h h1 : history) (a : A) :
  m h = (Ok a, h1) -> bind m k h = k a h1.
Proof. unfold bind. now intros ->. Qed.

Lemma bind_raise {A B} (m : M A) (k : A -> M B) (h h1 : history) (e : exn) :
  m h = (Raise e, h1) -> bind m k h = (Raise e, h1).
Proof. unfold bind. now intros ->. Qed.

(** An invariant of the accumulator of a loop. *)
Lemma for_fold_invariant {A B} (P : B -> Prop) (body : B -> A -> M B) :
  (forall acc x h acc' h', P acc -> body acc x h = (Ok acc', h') -> P acc') ->
  forall xs acc h r h',
    P acc -> for_fold xs acc body h = (Ok r, h') -> P r.
Proof.
  intros Hbody; induction xs as [|x xs IH]; intros acc h r h' Hacc H; simpl in H.
  - unfold ret in H. now injection H as <- _.
  - apply bind_ok in H as (acc' & h1 & H1 & H2).
    eapply IH; [|exact H2]. eapply Hbody; eauto.
Qed.

(** A loop whose rounds each append one item. *)
Lemma for_fold_collect {A B} (g : A -> B) (body : list B -> A -> M (list B))
    (xs : list A) :
  (forall acc x h, In x xs -> returns (body acc x) h (acc ++ [g x])) ->
  forall acc h, returns (for_fold xs acc body) h (acc ++ map g xs).
Proof.
  unfold returns.
  induction xs as [|x xs IH]; intros Hbody acc h; simpl.
  - rewrite app_nil_r. now eexists.
  - destruct (Hbody acc x h (or_introl eq_refl)) as [h1 H1].
    rewrite (bind_run _ _ _ _ _ H1).
    destruct (IH (fun acc x h Hx => Hbody acc x h (or_intror Hx)) (acc ++ [g x]) h1)
      as [h2 H2].
    exists h2. rewrite H2. now rewrite <- List.app_assoc.
Qed.

(** A loop whose rounds all return does return. *)
Lemma for_fold_returns {A B} (body : B -> A -> M B) (xs : list A) :
  (forall acc x h, In x xs -> exists acc' h', body acc x h = (Ok acc', h')) ->
  forall acc h, exists r h', for_fold xs acc body h = (Ok r, h').
Proof.
  induction xs as [|x xs IH]; intros Hbody acc h; simpl.
  - now eexists _, _.
  - destruct (Hbody acc x h (or_introl eq_refl)) as (acc' & h1 & H1).
    rewrite (bind_run _ _ _ _ _ H1).
    apply IH. intros acc0 x0 h0 Hx. apply Hbody. now right.
Qed.

Lemma fuel_free_ret {A} (a : A) : fuel_free (ret a).
Proof. intros h h'; unfold ret; discriminate. Qed.

Lemma fuel_free_raise {A} (e : exn) : fuel_free (@raise A e).
Proof. intros h h'; unfold raise; discriminate. Qed.

Lemma fuel_free_log (l : level) (s : string) : fuel_free (log l s).
Proof. intros h h'; unfold log, emit; discriminate. Qed.

Lemma fuel_free_ask {A} (f : history -> A) : fuel_free (ask f).
Proof. intros h h'; unfold ask; discriminate. Qed.

Lemma fuel_free_call (r : history -> option exn) (ev : option exn -> event) :
  fuel_free (call r ev).
Proof. intros h h'; unfold call; destruct (r h); discriminate. Qed.

Lemma fuel_free_bind {A B} (m : M A) (k : A -> M B) :
  fuel_free m -> (forall a, fuel_free (k a)) -> fuel_free (bind m k).
Proof.
  intros Hm Hk h h'. unfold bind.
  destruct (m h) as [[a| |] h1] eqn:E; try discriminate.
  - apply Hk.
  - intros H; injection H as ->. now apply Hm in E.
Qed.

Lemma fuel_free_try {A} (m : M A) (handler : exn -> M A) :
  fuel_free m -> (forall e, fuel_free (handler e)) -> fuel_free (try_except m handler).
Proof.
  intros Hm Hk h h'. unfold try_except.
  destruct (m h) as [[a| |] h1] eqn:E; try discriminate.
  - apply Hk.
  - intros H; injection H as ->. now apply Hm in E.
Qed.

Lemma fuel_free_for_fold {A B} (xs : list A) (body : B -> A -> M B) :
  (forall acc x, fuel_free (body acc x)) -> forall acc, fuel_free (for_fold xs acc body).
Proof.
  intros Hbody; induction xs as [|x xs IH]; intros acc; simpl.
  - apply fuel_free_ret.
  - apply fuel_free_bind; auto.
Qed.

Create HintDb fuel.
#[export] Hint Resolve fuel_free_ret fuel_free_raise fuel_free_log fuel_free_ask
  fuel_free_call fuel_free_bind fuel_free_try fuel_free_for_fold : fuel.

End RunFacts.

(* ================================================================== *)
(** * Storage URIs *)
(* ================================================================== *)

Module Uri.

Local Open Scope string_scope.
Import PathFacts.

Lemma validate_s3_uri_run (s : string) (h : history) :
  exists b h', validate_s3_uri s h = (Ok b, h') /\
    (b = true <->
     Py.take 5 s = "s3://" /\
     Py.find_pred (Ascii.eqb "/"%char) (Py.drop 5 s) <> None).
Proof.
  unfold validate_s3_uri.
  destruct (Py.take 5 s =? "s3://") eqn:E; cbv [negb].
  - apply String.eqb_eq in E.
    destruct (List.length (Py.split "/"%char (Py.drop 5 s)) <? 2)%nat eqn:L.
    + eexists false, _. split; [reflexivity|].
      apply PyFacts.split_single in L. split; [discriminate|]. now intros [_ H].
    + eexists true, _. split; [reflexivity|].
      split; [|reflexivity]. intros _. split; [exact E|].
      intros H%PyFacts.split_single. congruence.
  - apply String.eqb_neq in E. eexists false, _. split; [reflexivity|].
    split; [discriminate|]. now intros [H _].
Qed.

Lemma shape_of_valid (s : string) :
  Py.take 5 s = "s3://" /\ Py.find_pred (Ascii.eqb "/"%char) (Py.drop 5 s) <> None <->
  exists bucket object_name,
    s = "s3://" ++ bucket ++ "/" ++ object_name /\ no_slash bucket.
Proof.
  split.
  - intros [Hs Hf].
    destruct (Py.find_pred (Ascii.eqb "/"%char) (Py.drop 5 s)) as [i|] eqn:F; [|congruence].
    apply PyFacts.find_pred_some in F as (c & Hc & Hd & Hn & _).
    apply Ascii.eqb_eq in Hc; subst c.
    exists (Py.take i (Py.drop 5 s)), (Py.drop (S i) (Py.drop 5 s)).
    split; [|exact Hn].
    change ("s3://" ++ Py.take i (Py.drop 5 s) ++ "/" ++ Py.drop (S i) (Py.drop 5 s))
      with ("s3://" ++ (Py.take i (Py.drop 5 s) ++ String "/" (Py.drop (S i) (Py.drop 5 s)))).
    rewrite <- Hd, <- Hs. symmetry. apply PyFacts.take_drop.
  - intros (bucket & object_name & -> & Hb). split; [reflexivity|].
    change (Py.drop 5 ("s3://" ++ bucket ++ "/" ++ object_name))
      with (bucket ++ String "/" object_name).
    rewrite (PyFacts.find_pred_app _ bucket object_name "/"%char Hb eq_refl).
    discriminate.
Qed.

Lemma parse_s3_uri_run (bucket object_name : string) (h : history) :
  no_slash bucket ->
  returns (parse_s3_uri ("s3://" ++ bucket ++ "/" ++ object_name)) h (bucket, object_name).
Proof.
  intros Hb. unfold returns, parse_s3_uri, bind, log, emit, ret.
  eexists; f_equal.
  change (Py.drop 5 ("s3://" ++ bucket ++ "/" ++ object_name))
    with (bucket ++ String "/" object_name).
  unfold Py.find.
  rewrite (PyFacts.find_pred_app _ bucket object_name "/"%char Hb eq_refl).
  simpl Py.index_or_minus_one. unfold Py.slice_to.
  destruct (0 <=? Z.of_nat (String.length bucket))%Z eqn:E;
    [|apply Z.leb_gt in E; lia].
  rewrite Nat2Z.id, PyFacts.take_app. f_equal. f_equal.
  replace (String.length bucket + 6) with (5 + S (String.length bucket)) by lia.
  rewrite <- PyFacts.drop_drop.
  change (Py.drop 5 ("s3://" ++ bucket ++ "/" ++ object_name))
    with (bucket ++ String "/" object_name).
  change (S (String.length bucket)) with (1 + String.length bucket).
  rewrite Nat.add_comm, <- PyFacts.drop_drop, PyFacts.drop_app. reflexivity.
Qed.

(** X22: [validate_s3_uri] always returns, and it returns true exactly for
    the strings [s3://<bucket>/<object_name>] with a bucket free of [/]; for
    these [parse_s3_uri] gives back the bucket and the object name.  Nothing
    is asked of the object name. *)
Theorem validate_s3_uri_accepts (s : string) (h : history) :
  exists b, returns (validate_s3_uri s) h b /\
    (b = true <->
     exists bucket object_name,
       s = "s3://" ++ bucket ++ "/" ++ object_name /\
       no_slash bucket /\
       forall h1, returns (parse_s3_uri s) h1 (bucket, object_name)).
Proof.
  destruct (validate_s3_uri_run s h) as (b & h' & Hrun & Hb).
  exists b. split; [now exists h'|].
  rewrite Hb, shape_of_valid. split.
  - intros (bucket & object_name & -> & Hn).
    exists bucket, object_name. repeat split; auto.
    intros h1. now apply parse_s3_uri_run.
  - intros (bucket & object_name & Hs & Hn & _). now exists bucket, object_name.
Qed.

(** The examples of the specification. *)
Example validate_bucket_obj : returns (validate_s3_uri "s3://bucket/obj") [] true.
Proof. now eexists. Qed.

Example validate_ftp : returns (validate_s3_uri "ftp://bucket/obj") [] false.
Proof. now eexists. Qed.

Example validate_bucket_only : returns (validate_s3_uri "s3://bucket") [] false.
Proof. now eexists. Qed.

Example parse_example :
  returns (parse_s3_uri "s3://beng-daan-visxp/jaap-dane-test/dane-test.tar.gz") []
          ("beng-daan-visxp", "jaap-dane-test/dane-test.tar.gz").
Proof. now eexists. Qed.

(** C7: [validate_s3_uri] accepts [s3://bucket/], whose object name is
    empty.  Its second guard is there to refuse a URI without object name
    (it logs [No object_name specified] for [s3://bucket]) but only looks for
    a separator after the bucket.  [parse_s3_uri] then gives the object name
    [""], and [download_s3_uri] goes on to list the bucket with the empty
    prefix. *)
Theorem validate_s3_uri_empty_object_name :
  validate_s3_uri "s3://bucket" [] =
    (Ok false, [EvLog ERROR "No object_name specified {s3_uri}"]) /\
  validate_s3_uri "s3://bucket/" [] = (Ok true, []) /\
  returns (parse_s3_uri "s3://bucket/") [] ("bucket", "") /\
  exists res h,
    download_s3_uri (quiet_env test_tree) 1 "s3://bucket/" "out" [] = (Ok res, h) /\
    In (EvListObjectsV2 "bucket" "" None) h.
Proof.
  split; [reflexivity|]. split; [reflexivity|]. split; [now eexists|].
  eexists _, _. split; [vm_compute; reflexivity|]. simpl. tauto.
Qed.

End Uri.

(* ================================================================== *)
(** * The archiver *)
(* ================================================================== *)

Module Archive.

Import RunFacts.

Lemma write_tar_fuel_free (env : Env) (archive_path : string) (file_list : list string) :
  fuel_free (write_tar env archive_path file_list).
Proof.
  unfold write_tar. auto 10 with fuel.
Qed.

Lemma is_valid_tar_path_run (env : Env) (archive_path : string) (h : history) :
  let h1 := h ++ [EvLog INFO "Validating {archive_path}"] in
  (exists h', is_valid_tar_path env archive_path h = (Ok false, h' ++ [EvLog ERROR "Parent dir does not exist: {archive_path}"]) /\
     h' = h1 /\ os_path_exists env h1 (PathLib.parent archive_path) = false) \/
  (exists h', is_valid_tar_path env archive_path h = (Ok false, h' ++ [EvLog ERROR "Archive file should have correct extension: {COMPRESSED_TAR_EXTENSION}"]) /\
     h' = h1 /\ ~ (exists stem, archive_path = (stem ++ ".tar.gz")%string)) \/
  (is_valid_tar_path env archive_path h = (Ok true, h1) /\
     os_path_exists env h1 (PathLib.parent archive_path) = true /\
     exists stem, archive_path = (stem ++ ".tar.gz")%string).
Proof.
  intros h1. unfold is_valid_tar_path, bind, log, emit, ask, ret. fold h1.
  destruct (os_path_exists env h1 (PathLib.parent archive_path)) eqn:E; cbv [negb].
  - destruct (Py.last_n 7 archive_path =? COMPRESSED_TAR_EXTENSION) eqn:X.
    + right; right. repeat split; auto.
      apply String.eqb_eq in X. now apply (PyFacts.last_n_suffix ".tar.gz").
    + right; left. eexists; repeat split; auto.
      apply String.eqb_neq in X. intros S. apply X.
      now apply (PyFacts.last_n_suffix ".tar.gz").
  - left. eexists; repeat split; auto.
Qed.

Lemma tar_list_of_files_run (env : Env) (archive_path : string)
    (file_list : list string) (h : history) :
  exists b h', tar_list_of_files env archive_path file_list h = (Ok b, h').
Proof.
  unfold tar_list_of_files.
  set (h0 := h ++ [EvLog INFO "Tarring {len(file_list)} into {archive_path}"]).
  rewrite (bind_run _ _ h h0 tt) by reflexivity.
  destruct (is_valid_tar_path_run env archive_path h0)
    as [(h' & Hrun & _) | [(h' & Hrun & _) | (Hrun & _)]];
    rewrite (bind_run _ _ _ _ _ Hrun); cbv [negb ret]; try (now eexists _, _).
  unfold try_except.
  destruct (write_tar env archive_path file_list
              (h0 ++ [EvLog INFO "Validating {archive_path}"])) as [[[]|e|] hw] eqn:W.
  - rewrite (bind_run _ _ _ _ _ W). now eexists _, _.
  - rewrite (bind_raise _ _ _ _ _ W). destruct e; now eexists _, _.
  - now apply write_tar_fuel_free in W.
Qed.

(** C6: [tar_list_of_files] never raises; it returns false when the parent
    directory of the archive path does not exist, when the path does not end
    with [.tar.gz], and when writing the archive raises any exception; each
    false comes with an error in the log. *)
Theorem tar_list_of_files_contract (env : Env) (archive_path : string)
    (file_list : list string) (h : history) :
  exists b h', tar_list_of_files env archive_path file_list h = (Ok b, h') /\
    (os_path_exists env (at_validation h) (PathLib.parent archive_path) = false -> b = false) /\
    (~ (exists stem, archive_path = (stem ++ ".tar.gz")%string) -> b = false) /\
    (forall e h1, write_tar env archive_path file_list (at_validation h) = (Raise e, h1) ->
                  b = false) /\
    (b = false -> exists fmt, In (EvLog ERROR fmt) h').
Proof.
  unfold tar_list_of_files, at_validation.
  set (h0 := h ++ [EvLog INFO "Tarring {len(file_list)} into {archive_path}"]).
  replace (h ++ [EvLog INFO "Tarring {len(file_list)} into {archive_path}";
                 EvLog INFO "Validating {archive_path}"])
    with (h0 ++ [EvLog INFO "Validating {archive_path}"])
    by (unfold h0; now rewrite <- List.app_assoc).
  rewrite (bind_run _ _ h h0 tt) by reflexivity.
  destruct (is_valid_tar_path_run env archive_path h0)
    as [(h' & Hrun & -> & Hex) | [(h' & Hrun & -> & Hext) | (Hrun & Hex & Hext)]].
  - rewrite (bind_run _ _ _ _ _ Hrun). cbv [negb ret].
    eexists false, _. split; [reflexivity|]. repeat split; auto.
    intros _. eexists. apply in_or_app. right. now left.
  - rewrite (bind_run _ _ _ _ _ Hrun). cbv [negb ret].
    eexists false, _. split; [reflexivity|]. repeat split; auto.
    intros _. eexists. apply in_or_app. right. now left.
  - rewrite (bind_run _ _ _ _ _ Hrun). cbv [negb]. unfold try_except.
    set (hc := h0 ++ [EvLog INFO "Validating {archive_path}"]) in *.
    destruct (write_tar env archive_path file_list hc) as [[[]|e|] hw] eqn:W.
    + rewrite (bind_run _ _ _ _ _ W). unfold bind, log, emit, ret.
      eexists true, _. split; [reflexivity|]. repeat split; congruence.
    + rewrite (bind_raise _ _ _ _ _ W).
      assert (exists fmt, bind (match e with
                | TarError => log ERROR "Failed to created archive: {archive_path}"
                | FileNotFoundError => log ERROR "File in file list not found"
                | _ => log ERROR "Unhandled error"
                end) (fun _ => log ERROR "Unknown error" ;; ret false) hw
              = (Ok false, (hw ++ [EvLog ERROR fmt]) ++ [EvLog ERROR "Unknown error"]))
        as [fmt ->] by (destruct e; eexists; reflexivity).
      eexists false, _. split; [reflexivity|]. repeat split; auto.
      intros _. eexists. apply in_or_app. right. now left.
    + now apply write_tar_fuel_free in W.
Qed.

End Archive.

(* ================================================================== *)
(** * Mapping files to keys *)
(* ================================================================== *)

Module Mapping.

Import RunFacts PathFacts.

Lemma generate_asset_id_with_extension (f : string) (h : history) :
  generate_asset_id_from_input_file f true h =
  (Ok (NtPath.basename f), h ++ [EvLog DEBUG "generating asset ID for {input_file}"]).
Proof. reflexivity. Qed.

Lemma keys_start_with_app (prefix : string) (xs ys : list (string * string)) :
  keys_start_with prefix xs -> keys_start_with prefix ys ->
  keys_start_with prefix (xs ++ ys).
Proof.
  intros Hx Hy f k [H|H]%in_app_or; [eapply Hx | eapply Hy]; eauto.
Qed.

Lemma keys_start_with_weaken (prefix longer : string) (xs : list (string * string)) :
  Py.startswith prefix longer = true ->
  keys_start_with longer xs -> keys_start_with prefix xs.
Proof.
  intros Hp Hx f k H. eapply PyFacts.prefix_trans; [exact Hp|]. eapply Hx; eauto.
Qed.

Lemma digest_file_list_keys (env : Env) (fuel : nat) :
  forall file_list prefix tar h pairs h',
    digest_file_list env fuel file_list prefix tar h = (Ok pairs, h') ->
    keys_start_with prefix pairs.
Proof.
  induction fuel as [|fuel IH]; intros file_list prefix tar h pairs h' H;
    [discriminate|].
  simpl in H. destruct (Py.truthy tar).
  - apply bind_ok in H as (ok & h1 & _ & H). destruct ok; cbv [negb] in H.
    + rewrite (bind_run _ _ _ _ _ (generate_asset_id_with_extension tar h1)) in H.
      unfold ret in H. injection H as <- _.
      intros f k [E|[]]. injection E as _ <-.
      apply join_prefix, nt_basename_no_slash.
    + apply bind_ok in H as (? & ? & _ & H). discriminate.
  - revert H. apply for_fold_invariant with (P := keys_start_with prefix);
      [|now intros f k []].
    intros acc f h0 acc' h0' Hacc H.
    unfold bind at 1, ask in H.
    destruct (os_path_isdir env h0 f).
    + unfold bind at 1 in H. revert H.
      apply for_fold_invariant with (P := keys_start_with prefix); [|exact Hacc].
      intros acc1 [[root dirs] files] h1 acc1' h1' Hacc1 H.
      apply bind_ok in H as (sub & h2 & Hsub & H).
      unfold ret in H. injection H as <- _.
      apply keys_start_with_app; [exact Hacc1|].
      apply keys_start_with_weaken with (longer := OsPath.join prefix [OsPath.basename f]).
      * apply join_prefix, basename_no_slash.
      * eapply IH; eauto.
    + rewrite (bind_run _ _ _ _ _ (generate_asset_id_with_extension f h0)) in H.
      unfold ret in H. injection H as <- _.
      apply keys_start_with_app; [exact Hacc|].
      intros f' k [E|[]]. injection E as _ <-.
      apply join_prefix, nt_basename_no_slash.
Qed.

(** C9: every key that [digest_file_list] produces starts with the prefix
    it was called with, in the archive branch and in the recursive one. *)
Theorem digest_file_list_key_prefix (env : Env) (fuel : nat)
    (file_list : list string) (prefix tar_archive_path : string)
    (h h' : history) (pairs : list (string * string)) (f k : string) :
  digest_file_list env fuel file_list prefix tar_archive_path h = (Ok pairs, h') ->
  In (f, k) pairs ->
  Py.startswith prefix k = true.
Proof.
  intros H. exact (digest_file_list_keys env fuel _ _ _ _ _ _ H f k).
Qed.

(** C5: with an archive path, [digest_file_list] first runs the archiver;
    when that returns false the call raises, when it returns true the result
    is the one pair of the archive and the key [prefix/<name of the archive>]. *)
Theorem digest_file_list_archive (env : Env) (fuel : nat)
    (file_list : list string) (prefix tar_archive_path : string) (h : history) :
  Py.truthy tar_archive_path = true ->
  exists archived h1,
    tar_list_of_files env tar_archive_path file_list h = (Ok archived, h1) /\
    if archived then
      returns (digest_file_list env (S fuel) file_list prefix tar_archive_path) h
              [(tar_archive_path,
                OsPath.join prefix [NtPath.basename tar_archive_path])]
    else
      raises (digest_file_list env (S fuel) file_list prefix tar_archive_path) h
             (PyException "Could not digest file list: archive error").
Proof.
  intros Htar.
  destruct (Archive.tar_list_of_files_run env tar_archive_path file_list h)
    as (archived & h1 & Hrun).
  exists archived, h1. split; [exact Hrun|].
  unfold returns, raises. simpl. rewrite Htar, (bind_run _ _ _ _ _ Hrun).
  destruct archived; cbv [negb]; eexists; reflexivity.
Qed.

(** A list of regular files maps to one pair per file, in order. *)
Lemma digest_regular_files (env : Env) (fuel : nat) (file_list : list string)
    (prefix : string) (h : history) :
  (forall h0 f, In f file_list -> os_path_isdir env h0 f = false) ->
  returns (digest_file_list env (S fuel) file_list prefix "") h
          (map (fun f => (f, OsPath.join prefix [NtPath.basename f])) file_list).
Proof.
  intros Hreg. simpl.
  apply for_fold_collect with (acc := []) (g := fun f => (f, OsPath.join prefix [NtPath.basename f])).
  intros acc f h0 Hin. unfold returns, bind, ask.
  rewrite (Hreg h0 f Hin). now eexists.
Qed.

(** X18: The recursion ends on a file system without cycles: when [rank] decreases
    from a directory to everything [os.walk] finds below it, fuel above the
    ranks of the file list is enough. *)
Lemma digest_file_list_terminates (env : Env) (rank : string -> nat) :
  (forall h f root dirs files fn,
      os_path_isdir env h f = true ->
      In (root, dirs, files) (os_walk env h f) ->
      In fn (dirs ++ files) ->
      rank (OsPath.join root [fn]) < rank f) ->
  forall fuel file_list prefix h,
    (forall f, In f file_list -> rank f < fuel) ->
    exists pairs h',
      digest_file_list env (S fuel) file_list prefix "" h = (Ok pairs, h').
Proof.
  intros Hrank; induction fuel as [|fuel IH]; intros file_list prefix h Hfl.
  - destruct file_list as [|f fl]; [now eexists _, _|].
    specialize (Hfl f (or_introl eq_refl)). lia.
  - change (digest_file_list env (S (S fuel)) file_list prefix "" h)
      with (for_fold file_list []
              (fun file_and_key_list f =>
                 is_dir <- ask (fun h => os_path_isdir env h f) ;;
                 if is_dir then
                   walked <- ask (fun h => os_walk env h f) ;;
                   for_fold walked file_and_key_list
                     (fun file_and_key_list '(root, dirs, files) =>
                        sub <- digest_file_list env (S fuel)
                                 (map (fun fn => OsPath.join root [fn]) (dirs ++ files))
                                 (OsPath.join prefix [OsPath.basename f]) "" ;;
                        ret (file_and_key_list ++ sub))
                 else
                   name <- generate_asset_id_from_input_file f true ;;
                   ret (file_and_key_list ++ [(f, OsPath.join prefix [name])])) h).
    apply for_fold_returns. intros acc f h0 Hf.
    unfold bind at 1, ask.
    destruct (os_path_isdir env h0 f) eqn:Hdir; [|now eexists _, _].
    unfold bind at 1.
    apply for_fold_returns. intros acc1 [[root dirs] files] h1 Hw.
    destruct (IH (map (fun fn => OsPath.join root [fn]) (dirs ++ files))
                 (OsPath.join prefix [OsPath.basename f]) h1) as (sub & h2 & Hsub).
    + intros g (fn & <- & Hfn)%in_map_iff.
      pose proof (Hrank h0 f root dirs files fn Hdir Hw Hfn).
      specialize (Hfl f Hf). lia.
    + rewrite (bind_run _ _ _ _ _ Hsub). now eexists _, _.
Qed.

End Mapping.

(* ================================================================== *)
(** * Clearing a prefix and uploading *)
(* ================================================================== *)

Module Transfer.

Import RunFacts.

Lemma uploads_app (a b : history) : uploads (a ++ b) = uploads a ++ uploads b.
Proof. apply flat_map_app. Qed.

Lemma try_upload_run (env : Env) (bucket f k : string) (h : history) :
  (try_upload env bucket f k h = (Ok true, h ++ [EvUploadFile f bucket k None])) \/
  (exists e,
     try_upload env bucket f k h =
     (Ok false, h ++ [EvUploadFile f bucket k (Some e); EvLog ERROR "Failed to upload {f}"])).
Proof.
  unfold try_upload, try_except, bind, call, log, emit, ret.
  destruct (upload_file env h f bucket k) as [e|].
  - right. exists e. now rewrite <- List.app_assoc.
  - now left.
Qed.

Lemma upload_all_run (env : Env) (bucket : string) (pairs : list (string * string)) :
  forall h, exists b t,
    upload_all env bucket pairs h = (Ok b, h ++ t) /\ fail_fast pairs b (uploads t).
Proof.
  induction pairs as [|[f k] rest IH]; intros h; simpl.
  - exists true, []. rewrite app_nil_r. split; [reflexivity|]. now left.
  - destruct (try_upload_run env bucket f k h) as [Hr | [e Hr]];
      rewrite (bind_run _ _ _ _ _ Hr).
    + destruct (IH (h ++ [EvUploadFile f bucket k None])) as (b & t & Hrun & Hff).
      exists b, (EvUploadFile f bucket k None :: t). split.
      * rewrite Hrun. now rewrite <- List.app_assoc.
      * change (uploads (EvUploadFile f bucket k None :: t))
          with ((f, k, true) :: uploads t).
        destruct Hff as [[-> ->] | (-> & done & failed & rest' & -> & ->)].
        -- now left.
        -- right. split; [reflexivity|].
           now exists ((f, k) :: done), failed, rest'.
    + eexists false, _. split; [reflexivity|].
      right. split; [reflexivity|]. now exists [], (f, k), rest.
Qed.

(** C1: once the prefix is cleared and the file list mapped, [transfer_to_s3]
    uploads the pairs in order and stops at the first upload that fails: it
    returns true with every pair uploaded, or false with the failing pair as
    the last upload attempted. *)
Theorem transfer_to_s3_fail_fast (env : Env) (fuel : nat)
    (bucket prefix : string) (file_list : list string) (tar_archive_path : string)
    (h h1 h2 : history) (pairs : list (string * string)) :
  clear_prefix env fuel bucket prefix h = (Ok tt, h1) ->
  digest_file_list env fuel file_list prefix tar_archive_path h1 = (Ok pairs, h2) ->
  exists b t,
    transfer_to_s3 env fuel bucket prefix file_list tar_archive_path h = (Ok b, h2 ++ t) /\
    fail_fast pairs b (uploads t).
Proof.
  intros Hclear Hdigest. unfold transfer_to_s3.
  rewrite (bind_run _ _ _ _ _ Hclear), (bind_run _ _ _ _ _ Hdigest).
  apply upload_all_run.
Qed.

(** After a failure nothing more is attempted: the number of uploads is the
    position of the failing pair. *)
Lemma fail_fast_count (pairs : list (string * string)) (ups : list (string * string * bool)) :
  fail_fast pairs false ups ->
  exists done failed rest,
    pairs = done ++ failed :: rest /\ List.length ups = S (List.length done).
Proof.
  intros [[? _] | (_ & done & failed & rest & -> & ->)]; [discriminate|].
  exists done, failed, rest. split; [reflexivity|].
  unfold uploaded. rewrite length_app, length_map. simpl. lia.
Qed.

(** ** The clear step *)

(** A listing that carries an empty ["Contents"]: nothing is deleted. *)
Lemma clear_prefix_empty_contents (env : Env) (fuel : nat) (bucket prefix : string)
    (h : history) (resp : response) :
  list_objects env h bucket prefix None = Returned resp ->
  Contents resp = Some [] ->
  clear_prefix env fuel bucket prefix h = (Ok tt, h ++ [EvListObjects bucket prefix None]).
Proof.
  intros Hl Hc. unfold clear_prefix, bind, call_listing. now rewrite Hl, Hc.
Qed.

(** A listing without ["Contents"]: the read of the entry raises. *)
Lemma clear_prefix_absent_contents (env : Env) (fuel : nat) (bucket prefix : string)
    (h : history) (resp : response) :
  list_objects env h bucket prefix None = Returned resp ->
  Contents resp = None ->
  clear_prefix env fuel bucket prefix h =
  (Raise (KeyError "Contents"), h ++ [EvListObjects bucket prefix None]).
Proof.
  intros Hl Hc. unfold clear_prefix, bind, call_listing. now rewrite Hl, Hc.
Qed.

Lemma transfer_to_s3_absent_contents (env : Env) (fuel : nat) (bucket prefix : string)
    (file_list : list string) (tar : string) (h : history) (resp : response) :
  list_objects env h bucket prefix None = Returned resp ->
  Contents resp = None ->
  transfer_to_s3 env fuel bucket prefix file_list tar h =
  (Raise (KeyError "Contents"), h ++ [EvListObjects bucket prefix None]).
Proof.
  intros Hl Hc. unfold transfer_to_s3.
  now rewrite (bind_raise _ _ _ _ _ (clear_prefix_absent_contents env fuel _ _ _ _ Hl Hc)).
Qed.

End Transfer.

(* ================================================================== *)
(** * Downloading *)
(* ================================================================== *)

Module Retrieval.

Import RunFacts PathFacts.

(** ** Local paths *)

Lemma join_app (base : string) (xs ys : list string) :
  OsPath.join base (xs ++ ys) = OsPath.join (OsPath.join base xs) ys.
Proof. apply fold_left_app. Qed.

Lemma local_file_unfold (output_path key : string) :
  local_file output_path key =
  OsPath.join output_path
    (Py.slice_2_to_last (Py.split "/"%char key) ++ [last (Py.split "/"%char key) ""]).
Proof. unfold local_file, local_dir. now rewrite join_app. Qed.

Lemma long_key_segments {A} (xs : list A) (d : A) :
  3 <= List.length xs ->
  Py.slice_2_to_last xs ++ [last xs d] = skipn 2 xs.
Proof.
  intros H. destruct xs as [|a [|b [|c rest]]]; try (simpl in H; lia).
  unfold Py.slice_2_to_last.
  change (skipn 2 (a :: b :: c :: rest)) with (c :: rest).
  change (last (a :: b :: c :: rest) d) with (last (c :: rest) d).
  symmetry. apply app_removelast_last. discriminate.
Qed.

Lemma join_segments_prefix (segs : list string) :
  forall base, (forall x, In x segs -> no_slash x) ->
               Py.startswith base (OsPath.join base segs) = true.
Proof.
  induction segs as [|x segs IH]; intros base Hs.
  - simpl. unfold Py.startswith.
    rewrite <- (PyFacts.app_empty_r base) at 2. apply PyFacts.prefix_app.
  - change (OsPath.join base (x :: segs))
      with (OsPath.join (OsPath.join_step base x) segs).
    eapply PyFacts.prefix_trans.
    + apply join_step_prefix, no_slash_not_absolute, Hs. now left.
    + apply IH. intros y Hy. apply Hs. now right.
Qed.

Lemma in_last {A} (l : list A) (d : A) : l <> [] -> In (last l d) l.
Proof.
  induction l as [|a [|b l] IH]; intros H; [contradiction | now left |].
  right. apply IH. discriminate.
Qed.

Lemma in_removelast {A} (l : list A) (x : A) : In x (removelast l) -> In x l.
Proof.
  induction l as [|a [|b l] IH]; intros H; [contradiction | contradiction |].
  destruct H as [<-|H]; [now left | right; now apply IH].
Qed.

Lemma in_skipn {A} (n : nat) (l : list A) (x : A) : In x (skipn n l) -> In x l.
Proof.
  intros H. rewrite <- (firstn_skipn n l). apply in_or_app. now right.
Qed.

Lemma local_file_under (output_folder object_name key : string) :
  Py.startswith output_folder
    (local_file (OsPath.join output_folder [OsPath.basename object_name]) key) = true.
Proof.
  eapply PyFacts.prefix_trans.
  - apply join_prefix, basename_no_slash.
  - rewrite local_file_unfold. apply join_segments_prefix.
    intros x [Hx|Hx]%in_app_or; apply (split_segments_no_slash key).
    + unfold Py.slice_2_to_last in Hx.
      now apply in_removelast, in_skipn in Hx.
    + destruct Hx as [<-|[]]. apply in_last, PyFacts.split_nonempty.
Qed.

(** ** One round of the loop *)

Lemma downloads_app (a b : history) : downloads (a ++ b) = downloads a ++ downloads b.
Proof. apply flat_map_app. Qed.

Lemma error_logs_app (a b : history) : error_logs (a ++ b) = error_logs a ++ error_logs b.
Proof. apply filter_app. Qed.

Lemma failed_downloads_app (a b : history) :
  failed_downloads (a ++ b) = failed_downloads a ++ failed_downloads b.
Proof. unfold failed_downloads. now rewrite downloads_app, filter_app. Qed.

Lemma makedirs_failures_app (a b : history) :
  makedirs_failures (a ++ b) = makedirs_failures a ++ makedirs_failures b.
Proof. apply flat_map_app. Qed.

Lemma try_download_run (env : Env) (bucket output_path : string) (success : bool)
    (key : string) (h : history) :
  exists ok t,
    try_download env bucket output_path success key h = (Ok (success && ok), h ++ t) /\
    downloads t = [(key, local_file output_path key, ok)] /\
    List.length (error_logs t) = List.length (failed_downloads t) /\
    makedirs_failures t = [].
Proof.
  unfold try_download, try_except, bind, call, log, emit, ret.
  destruct (download_fileobj env h bucket key (local_file output_path key)) as [e|].
  - exists false, [EvDownloadFileobj bucket key (local_file output_path key) (Some e);
                   EvLog ERROR "Failed to download {item} from bucket {bucket}."].
    rewrite andb_false_r, <- List.app_assoc. now repeat split.
  - exists true, [EvDownloadFileobj bucket key (local_file output_path key) None].
    rewrite andb_true_r. now repeat split.
Qed.

(** The directory is there, or it is created, or its creation raises. *)
Lemma ensure_dir_run (env : Env) (location : string) (h : history) :
  (exists t, ensure_dir env location h = (Ok tt, h ++ t) /\
             downloads t = [] /\ error_logs t = [] /\ makedirs_failures t = []) \/
  (exists e, ensure_dir env location h = (Raise e, h ++ [EvMakedirs location (Some e)])).
Proof.
  unfold ensure_dir, bind, ask, call, ret.
  destruct (os_path_exists env h location); cbv [negb].
  - left. exists []. now rewrite app_nil_r.
  - destruct (os_makedirs env h location) as [e|].
    + right. now exists e.
    + left. now exists [EvMakedirs location None].
Qed.

(** A round of the loop attempts its key, whatever became of the keys
    before, unless the directory cannot be created: that exception leaves
    the round. *)
Lemma download_item_run (env : Env) (bucket output_path : string) (success : bool)
    (key : string) (h : history) :
  (exists ok t,
     download_item env bucket output_path success key h = (Ok (success && ok), h ++ t) /\
     downloads t = [(key, local_file output_path key, ok)] /\
     List.length (error_logs t) = List.length (failed_downloads t) /\
     makedirs_failures t = []) \/
  (exists e,
     download_item env bucket output_path success key h =
       (Raise e, h ++ [EvMakedirs (local_dir output_path key) (Some e)])).
Proof.
  unfold download_item.
  destruct (ensure_dir_run env (local_dir output_path key) h)
    as [(t1 & H1 & D1 & E1 & M1) | (e & H1)].
  - left.
    destruct (try_download_run env bucket output_path success key (h ++ t1))
      as (ok & t2 & H2 & D2 & E2 & M2).
    exists ok, (t1 ++ t2). rewrite (bind_run _ _ _ _ _ H1), H2, <- List.app_assoc.
    split; [reflexivity|].
    rewrite downloads_app, error_logs_app, failed_downloads_app, makedirs_failures_app.
    rewrite D1, E1, M1, M2.
    unfold failed_downloads at 1. rewrite D1. now repeat split.
  - right. exists e. now rewrite (bind_raise _ _ _ _ _ H1).
Qed.

(** ** The loop *)

Lemma attempted_cons (output_path key : string) (keys : list string) (ok : bool)
    (t1 t2 : history) :
  downloads t1 = [(key, local_file output_path key, ok)] ->
  List.length (error_logs t1) = List.length (failed_downloads t1) ->
  makedirs_failures t1 = [] ->
  attempted output_path keys t2 ->
  attempted output_path (key :: keys) (t1 ++ t2).
Proof.
  intros D1 E1 M1 (D2 & E2 & M2). unfold attempted.
  rewrite downloads_app, error_logs_app, failed_downloads_app, makedirs_failures_app.
  rewrite !length_app, D1, E1, E2, M1, M2. simpl. rewrite D2. now repeat split.
Qed.

(** The loop goes through the keys in order.  A download that fails does not
    stop it; the first directory that cannot be created does. *)
Lemma download_loop_run (env : Env) (bucket output_path : string) :
  forall keys success h,
    (exists t,
       for_fold keys success (download_item env bucket output_path) h =
         (Ok (success && forallb snd (downloads t)), h ++ t) /\
       attempted output_path keys t) \/
    (exists e done key rest t,
       keys = done ++ key :: rest /\
       for_fold keys success (download_item env bucket output_path) h =
         (Raise e, h ++ t ++ [EvMakedirs (local_dir output_path key) (Some e)]) /\
       attempted output_path done t).
Proof.
  induction keys as [|key keys IH]; intros success h; simpl.
  - left. exists []. rewrite app_nil_r, andb_true_r. now repeat split.
  - destruct (download_item_run env bucket output_path success key h)
      as [(ok & t1 & H1 & D1 & E1 & M1) | (e & H1)].
    + rewrite (bind_run _ _ _ _ _ H1).
      destruct (IH (success && ok) (h ++ t1))
        as [(t2 & H2 & A2) | (e & done & key' & rest & t2 & Hk & H2 & A2)].
      * left. exists (t1 ++ t2). rewrite H2. split.
        -- rewrite downloads_app, D1, <- List.app_assoc. simpl. now rewrite andb_assoc.
        -- now apply attempted_cons with ok.
      * right. exists e, (key :: done), key', rest, (t1 ++ t2). split; [|split].
        -- now rewrite Hk.
        -- rewrite H2. now rewrite <- !List.app_assoc.
        -- now apply attempted_cons with ok.
    + right. exists e, [], key, keys, [].
      rewrite (bind_raise _ _ _ _ _ H1). now repeat split.
Qed.

(** The prefix branch of [download_into], from the first listing on. *)
Lemma download_into_prefix_run (env : Env) (fuel : nat)
    (bucket object_name output_folder : string) (start_time : Z)
    (h h2 : history) (resp : response) (key_count : Z) (keys : list string) :
  Py.contains "tar.gz" object_name = false ->
  list_objects_v2 env h bucket object_name None = Returned resp ->
  KeyCount resp = Some key_count ->
  key_count <> 0%Z ->
  gather_pages fuel
    (fun h marker => list_objects_v2 env h bucket object_name (Some marker))
    (fun marker => EvListObjectsV2 bucket object_name (Some marker))
    resp [] (h ++ [EvListObjectsV2 bucket object_name None]) = (Ok keys, h2) ->
  let output_path := OsPath.join output_folder [OsPath.basename object_name] in
  (exists res t,
     download_into env fuel bucket object_name output_folder start_time h = (Ok res, h2 ++ t) /\
     attempted output_path keys t /\
     success res = forallb snd (downloads t) /\
     file_path res = output_path) \/
  (exists e done key rest t,
     keys = done ++ key :: rest /\
     download_into env fuel bucket object_name output_folder start_time h =
       (Raise e, h2 ++ t ++ [EvMakedirs (local_dir output_path key) (Some e)]) /\
     attempted output_path done t).
Proof.
  intros Hc Hl Hk Hk0 Hg output_path.
  assert (Hcall : call_listing (fun h => list_objects_v2 env h bucket object_name None)
                    (EvListObjectsV2 bucket object_name None) h
                  = (Ok resp, h ++ [EvListObjectsV2 bucket object_name None]))
    by (unfold call_listing; now rewrite Hl).
  apply Z.eqb_neq in Hk0.
  assert (Hlisted :
            download_into env fuel bucket object_name output_folder start_time h =
            (success <- for_fold keys true (download_item env bucket output_path) ;;
             end_time <- ask (time env) ;;
             ret {| success := success; file_path := output_path;
                    download_time := end_time - start_time;
                    mime_type := "unknown"; content_length := -1 |}) h2).
  { unfold download_into. fold output_path. rewrite Hc.
    unfold bind at 1. rewrite (bind_run _ _ _ _ _ Hcall), Hk.
    unfold getitem. rewrite (bind_run _ _ _ _ key_count eq_refl).
    now rewrite Hk0, (bind_run _ _ _ _ _ Hg). }
  rewrite Hlisted.
  destruct (download_loop_run env bucket output_path keys true h2)
    as [(t & Hloop & Ha) | (e & done & key & rest & t & Hkeys & Hloop & Ha)].
  - left. rewrite (bind_run _ _ _ _ _ Hloop). unfold bind, ask, ret.
    eexists _, t. split; [reflexivity|]. split; [exact Ha | now split].
  - right. rewrite (bind_raise _ _ _ _ _ Hloop).
    exists e, done, key, rest, t. split; [exact Hkeys|]. now split.
Qed.

Lemma download_file_run (env : Env) (fuel : nat)
    (bucket object_name output_folder : string) (h : history) :
  (forall h p, os_makedirs env h p = None) ->
  download_file env fuel bucket object_name output_folder h =
  download_into env fuel bucket object_name output_folder (time env h)
    (after_folder_check env output_folder h).
Proof.
  intros Hmk. unfold download_file, after_folder_check, bind, ask, log, emit, call, ret.
  destruct (os_path_exists env _ output_folder); cbv [negb]; [reflexivity|].
  now rewrite Hmk, <- List.app_assoc.
Qed.

(** The same when only the folder of this call is known to be there or to be
    creatable. *)
Lemma download_file_after_folder_check (env : Env) (fuel : nat)
    (bucket object_name output_folder : string) (h : history) :
  folder_check env output_folder h = None ->
  download_file env fuel bucket object_name output_folder h =
  download_into env fuel bucket object_name output_folder (time env h)
    (after_folder_check env output_folder h).
Proof.
  unfold folder_check, download_file, after_folder_check, bind, ask, log, emit, call, ret.
  destruct (os_path_exists env _ output_folder); cbv [negb]; [reflexivity|].
  intros ->. now rewrite <- List.app_assoc.
Qed.

(** C2 (as amended): a prefix retrieval that has listed its keys goes through
    them in order.  A download that fails is logged and recorded and does not
    stop the loop.  Either no [os.makedirs] call raises: then every listed
    key is attempted, a [DownloadResult] comes back and its [success] is the
    conjunction of the outcomes of the downloads.  Or the creation of the
    directory of some key raises: [os.makedirs] is called outside the [try],
    so the exception leaves [download_file]; the keys before that one have
    been attempted, that key and those after it have not. *)
Theorem download_file_fail_continue (env : Env) (fuel : nat)
    (bucket object_name output_folder : string)
    (h h2 : history) (resp : response) (key_count : Z) (keys : list string) :
  let h1 := after_folder_check env output_folder h in
  let output_path := OsPath.join output_folder [OsPath.basename object_name] in
  Py.contains "tar.gz" object_name = false ->
  folder_check env output_folder h = None ->
  list_objects_v2 env h1 bucket object_name None = Returned resp ->
  KeyCount resp = Some key_count ->
  key_count <> 0%Z ->
  gather_pages fuel
    (fun h marker => list_objects_v2 env h bucket object_name (Some marker))
    (fun marker => EvListObjectsV2 bucket object_name (Some marker))
    resp [] (h1 ++ [EvListObjectsV2 bucket object_name None]) = (Ok keys, h2) ->
  (exists res t,
     download_file env fuel bucket object_name output_folder h = (Ok res, h2 ++ t) /\
     attempted output_path keys t /\
     success res = forallb snd (downloads t) /\
     file_path res = output_path) \/
  (exists e done key rest t,
     keys = done ++ key :: rest /\
     download_file env fuel bucket object_name output_folder h =
       (Raise e, h2 ++ t ++ [EvMakedirs (local_dir output_path key) (Some e)]) /\
     attempted output_path done t).
Proof.
  intros h1 output_path Hc Hf Hl Hk Hk0 Hg.
  rewrite (download_file_after_folder_check env fuel bucket object_name output_folder h Hf).
  exact (download_into_prefix_run env fuel bucket object_name output_folder (time env h)
           h1 h2 resp key_count keys Hc Hl Hk Hk0 Hg).
Qed.

(** C2 as stated fails where a directory cannot be created: the store lists
    three keys, the first is downloaded, the directory of the second cannot
    be made, and [download_file] raises without attempting the second and
    the third and without a result. *)
Lemma download_file_uncreatable_directory :
  let run := download_file blocked_directory_store 1 "bucket" "p/q" "out" [] in
  downloads (snd run) = [("p/q/a", "out/q/a", true)] /\
  ~ claimed_fail_continue blocked_keys run.
Proof.
  split; [vm_compute; reflexivity|].
  intros (res & H & _). vm_compute in H. discriminate H.
Qed.

Lemma short_key_segments {A} (xs : list A) :
  List.length xs <= 2 -> Py.slice_2_to_last xs = [].
Proof.
  intros H. destruct xs as [|a [|b [|c rest]]]; try reflexivity. simpl in H. lia.
Qed.

(** C8 (as amended): the local path of a key is
    [os.path.join(output_path, *segments[2:-1], segments[-1])], where
    [output_path] is [os.path.join(output_folder, basename(object_name))] and
    [segments] are the parts of the key between its separators.  For a key of
    at least three segments these are the segments after the first two, the
    last one as file name and those before it as directories.  For a key of
    one or two segments no directory is left and the final segment, which is
    then the first or the second, is the file name, directly in
    [output_path].  As a string the path starts with [output_path] and so
    with [output_folder].  A round of the loop downloads its key to this
    path, once, unless the directory cannot be created. *)
Theorem download_item_local_path (env : Env) (bucket output_folder object_name : string)
    (success : bool) (key : string) (h : history) :
  let output_path := OsPath.join output_folder [OsPath.basename object_name] in
  let segments := Py.split "/"%char key in
  let path := local_file output_path key in
  local_dir output_path key = OsPath.join output_path (removelast (skipn 2 segments)) /\
  path = OsPath.join output_path (removelast (skipn 2 segments) ++ [last segments ""]) /\
  (3 <= List.length segments -> path = OsPath.join output_path (skipn 2 segments)) /\
  (List.length segments <= 2 ->
   local_dir output_path key = output_path /\
   path = OsPath.join output_path [last segments ""]) /\
  Py.startswith output_path path = true /\
  Py.startswith output_folder path = true /\
  ((exists ok t,
      download_item env bucket output_path success key h = (Ok (success && ok), h ++ t) /\
      downloads t = [(key, path, ok)]) \/
   (exists e,
      download_item env bucket output_path success key h =
        (Raise e, h ++ [EvMakedirs (local_dir output_path key) (Some e)]))).
Proof.
  intros output_path segments path.
  split; [reflexivity|]. split; [apply local_file_unfold|].
  split; [|split; [|split; [|split]]].
  - intros Hlen. unfold path. rewrite local_file_unfold. f_equal.
    now apply long_key_segments.
  - intros Hlen. unfold path, local_file, local_dir. fold segments.
    rewrite (short_key_segments segments Hlen). now split.
  - unfold path. rewrite local_file_unfold. apply join_segments_prefix.
    intros x [Hx|Hx]%in_app_or; apply (split_segments_no_slash key).
    + unfold Py.slice_2_to_last in Hx.
      now apply in_removelast, in_skipn in Hx.
    + destruct Hx as [<-|[]]. apply in_last, PyFacts.split_nonempty.
  - apply local_file_under.
  - destruct (download_item_run env bucket output_path success key h)
      as [(ok & t & Hrun & Hd & _) | (e & Hrun)].
    + left. now exists ok, t.
    + right. now exists e.
Qed.

(** C8 as stated fails on a key of two segments: the object is written
    under the name of the key's second segment, which is not discarded. *)
Lemma local_file_short_key :
  let output_path := OsPath.join "out" [OsPath.basename "a"] in
  ~ (local_file output_path "a/b" = claimed_local_file output_path "a/b" \/
     local_file output_path "a/b" = claimed_local_file "out" "a/b").
Proof. vm_compute. intros [H|H]; discriminate H. Qed.

(** ** Every part of [download_file] only adds to the history *)

Lemma extends_ret {A} (a : A) : extends (ret a).
Proof. intros h; exists []; simpl; now rewrite app_nil_r. Qed.

Lemma extends_raise {A} (e : exn) : extends (@raise A e).
Proof. intros h; exists []; simpl; now rewrite app_nil_r. Qed.

Lemma extends_out_of_fuel {A} : extends (@out_of_fuel A).
Proof. intros h; exists []; simpl; now rewrite app_nil_r. Qed.

Lemma extends_ask {A} (f : history -> A) : extends (ask f).
Proof. intros h; exists []; simpl; now rewrite app_nil_r. Qed.

Lemma extends_log (l : level) (s : string) : extends (log l s).
Proof. intros h; now eexists. Qed.

Lemma extends_call (r : history -> option exn) (ev : option exn -> event) :
  extends (call r ev).
Proof. intros h; unfold call; destruct (r h); now eexists. Qed.

Lemma extends_call_listing (r : history -> answer response) (ev : event) :
  extends (call_listing r ev).
Proof. intros h; unfold call_listing; destruct (r h); now eexists. Qed.

Lemma extends_getitem {A} (key : string) (field : option A) : extends (getitem key field).
Proof. destruct field; [apply extends_ret | apply extends_raise]. Qed.

Lemma extends_last_item (xs : list string) : extends (last_item xs).
Proof. destruct xs; [apply extends_raise | apply extends_ret]. Qed.

Lemma extends_bind {A B} (m : M A) (k : A -> M B) :
  extends m -> (forall a, extends (k a)) -> extends (bind m k).
Proof.
  intros Hm Hk h. unfold bind. destruct (Hm h) as [t Ht].
  destruct (m h) as [[a| |] h1]; simpl in Ht; subst h1; try now exists t.
  destruct (Hk a (h ++ t)) as [t' Ht']. exists (t ++ t').
  now rewrite Ht', List.app_assoc.
Qed.

Lemma extends_try {A} (m : M A) (handler : exn -> M A) :
  extends m -> (forall e, extends (handler e)) -> extends (try_except m handler).
Proof.
  intros Hm Hk h. unfold try_except. destruct (Hm h) as [t Ht].
  destruct (m h) as [[a| |] h1]; simpl in Ht; subst h1; try now exists t.
  destruct (Hk e (h ++ t)) as [t' Ht']. exists (t ++ t').
  now rewrite Ht', List.app_assoc.
Qed.

Lemma extends_for_fold {A B} (xs : list A) (body : B -> A -> M B) :
  (forall acc x, extends (body acc x)) -> forall acc, extends (for_fold xs acc body).
Proof.
  intros Hbody; induction xs as [|x xs IH]; intros acc; simpl.
  - apply extends_ret.
  - apply extends_bind; auto.
Qed.

Create HintDb ext.
#[export] Hint Resolve extends_ret extends_raise extends_out_of_fuel extends_ask
  extends_log extends_call extends_call_listing extends_getitem extends_last_item
  extends_bind extends_try extends_for_fold : ext.

Lemma extends_gather_pages (fuel : nat) (list_page : history -> string -> answer response)
    (page_event : string -> event) :
  forall response acc, extends (gather_pages fuel list_page page_event response acc).
Proof.
  induction fuel as [|fuel IH]; intros response acc; simpl; [apply extends_out_of_fuel|].
  apply extends_bind; [auto with ext|]. intros contents.
  apply extends_bind; [auto with ext|]. intros [|]; cbv [negb]; auto 10 with ext.
Qed.

Lemma extends_download_item (env : Env) (bucket output_path : string)
    (success : bool) (key : string) :
  extends (download_item env bucket output_path success key).
Proof.
  unfold download_item, ensure_dir, try_download.
  apply extends_bind; [|auto 10 with ext].
  apply extends_bind; [auto with ext|]. intros [|]; cbv [negb]; auto with ext.
Qed.

Lemma extends_download_into (env : Env) (fuel : nat)
    (bucket object_name output_folder : string) (start_time : Z) :
  extends (download_into env fuel bucket object_name output_folder start_time).
Proof.
  unfold download_into. apply extends_bind; [|auto with ext].
  destruct (Py.contains "tar.gz" object_name); [auto 10 with ext|].
  apply extends_bind; [auto with ext|]. intros response.
  apply extends_bind; [auto with ext|]. intros key_count.
  destruct (key_count =? 0)%Z; [auto with ext|].
  apply extends_bind; [apply extends_gather_pages|]. intros to_download.
  apply extends_for_fold. intros acc x. apply extends_download_item.
Qed.

(** C10: when the output folder does not exist, [download_file] calls
    [os.makedirs] on it (which creates the intermediate directories as well)
    before anything else; if that call returns, the retrieval goes on exactly
    as [download_into] does from there, and every listing and download of the
    run comes after the creation. *)
Theorem download_file_creates_output_folder (env : Env) (fuel : nat)
    (bucket object_name output_folder : string) (h : history) :
  let h0 := h ++ [EvLog INFO "Downloading {bucket}:{object_name} into {output_folder}"] in
  let h1 := h0 ++ [EvLog INFO "Output folder does not exist, creating it..."] in
  os_path_exists env h0 output_folder = false ->
  os_makedirs env h1 output_folder = None ->
  download_file env fuel bucket object_name output_folder h =
    download_into env fuel bucket object_name output_folder (time env h)
      (h1 ++ [EvMakedirs output_folder None]) /\
  exists t,
    snd (download_file env fuel bucket object_name output_folder h) =
    h1 ++ EvMakedirs output_folder None :: t.
Proof.
  intros h0 h1 Hex Hmk.
  assert (E : download_file env fuel bucket object_name output_folder h =
              download_into env fuel bucket object_name output_folder (time env h)
                (h1 ++ [EvMakedirs output_folder None])).
  { unfold download_file, bind, ask, log, emit, call, ret.
    fold h0. rewrite Hex. cbv [negb]. fold h1. now rewrite Hmk. }
  split; [exact E|]. rewrite E.
  destruct (extends_download_into env fuel bucket object_name output_folder (time env h)
              (h1 ++ [EvMakedirs output_folder None])) as [t Ht].
  exists t. now rewrite Ht, <- List.app_assoc.
Qed.

(** With the folder in place nothing is created. *)
Lemma download_file_existing_output_folder (env : Env) (fuel : nat)
    (bucket object_name output_folder : string) (h : history) :
  let h0 := h ++ [EvLog INFO "Downloading {bucket}:{object_name} into {output_folder}"] in
  os_path_exists env h0 output_folder = true ->
  download_file env fuel bucket object_name output_folder h =
    download_into env fuel bucket object_name output_folder (time env h) h0.
Proof.
  intros h0 Hex. unfold download_file, bind, ask, log, emit, call, ret.
  fold h0. now rewrite Hex.
Qed.

(** A creation that fails is not caught. *)
Lemma download_file_makedirs_raises (env : Env) (fuel : nat)
    (bucket object_name output_folder : string) (h : history) (e : exn) :
  let h0 := h ++ [EvLog INFO "Downloading {bucket}:{object_name} into {output_folder}"] in
  let h1 := h0 ++ [EvLog INFO "Output folder does not exist, creating it..."] in
  os_path_exists env h0 output_folder = false ->
  os_makedirs env h1 output_folder = Some e ->
  download_file env fuel bucket object_name output_folder h =
    (Raise e, h1 ++ [EvMakedirs output_folder (Some e)]).
Proof.
  intros h0 h1 Hex Hmk. unfold download_file, bind, ask, log, emit, call, ret.
  fold h0. rewrite Hex. cbv [negb]. fold h1. now rewrite Hmk.
Qed.

End Retrieval.

(* ================================================================== *)
(** * Concrete runs *)
(* ================================================================== *)

Module Runs.

(** C3: on the directory of the test, which holds one file at its top and
    one in a sub-directory, [digest_file_list] produces three pairs: the file
    of the sub-directory comes once with its directory in the key and once
    more without it, because [os.walk] descends into the sub-directory and
    the recursive call does so again. *)
Theorem digest_file_list_nested_directory :
  fst (digest_file_list (quiet_env test_tree) 3 ["tmp_dir_for_tests"] "test-prefix" "" []) =
  Ok [("tmp_dir_for_tests/provenance/tmp_file_in_subdir",
       "test-prefix/tmp_dir_for_tests/provenance/tmp_file_in_subdir");
      ("tmp_dir_for_tests/tmp_file_top_level",
       "test-prefix/tmp_dir_for_tests/tmp_file_top_level");
      ("tmp_dir_for_tests/provenance/tmp_file_in_subdir",
       "test-prefix/tmp_dir_for_tests/tmp_file_in_subdir")].
Proof. vm_compute. reflexivity. Qed.

(** An empty directory contributes nothing, a file in the list one pair. *)
Example digest_empty_directory :
  fst (digest_file_list (quiet_env test_tree) 3
         ["tmp_dir_for_tests/assets"; "tmp_dir_for_tests/tmp_file_top_level"] "p" "" []) =
  Ok [("tmp_dir_for_tests/tmp_file_top_level", "p/tmp_file_top_level")].
Proof. vm_compute. reflexivity. Qed.

(** C4: when the store lists a prefix without keys, the read of
    ["Contents"] raises [KeyError]: [clear_prefix] fails after the listing,
    and [transfer_to_s3] with it, before any mapping or upload. *)
Theorem clear_prefix_empty_prefix_raises :
  clear_prefix empty_prefix_store 1 "bucket" "prefix" [] =
    (Raise (KeyError "Contents"), [EvListObjects "bucket" "prefix" None]) /\
  transfer_to_s3 empty_prefix_store 3 "bucket" "prefix"
      ["tmp_dir_for_tests/tmp_file_top_level"] "" [] =
    (Raise (KeyError "Contents"), [EvListObjects "bucket" "prefix" None]).
Proof. split; vm_compute; reflexivity. Qed.

(** The scenario of the specification: the second of three uploads fails,
    two uploads are attempted and the result is false. *)
Example second_of_three_puts_fails :
  exists h,
    transfer_to_s3 second_put_fails 1 "bucket" "p" ["a.txt"; "b.txt"; "c.txt"] "" [] =
      (Ok false, h) /\
    uploads h = [("a.txt", "p/a.txt", true); ("b.txt", "p/b.txt", false)].
Proof. eexists. split; vm_compute; reflexivity. Qed.

(** The second of three downloads fails, all three are attempted and the
    result is false. *)
Example second_of_three_gets_fails :
  exists res h,
    download_file second_get_fails 1 "bucket" "test_items/1411058" "out" [] = (Ok res, h) /\
    success res = false /\
    downloads h =
      [("test_items/1411058/keyframes/105320.jpg", "out/1411058/keyframes/105320.jpg", true);
       ("test_items/1411058/keyframes/105321.jpg", "out/1411058/keyframes/105321.jpg", false);
       ("test_items/1411058/index.json", "out/1411058/index.json", true)].
Proof. eexists _, _. repeat split; vm_compute; reflexivity. Qed.

(** ** Instances of the theorems *)

Lemma transfer_to_s3_fail_fast_witness :
  exists b t,
    transfer_to_s3 second_put_fails 1 "bucket" "p" ["a.txt"; "b.txt"; "c.txt"] "" [] =
      (Ok b,
       [EvListObjects "bucket" "p" None;
        EvLog WARNING "Prefix '{prefix}' exists in bucket '{bucket}'.";
        EvLog WARNING "Removing {len(to_delete)} item with '{prefix}' as prefix from bucket.";
        EvDeleteObjects "bucket" ["p/old.json"] None;
        EvLog DEBUG "generating asset ID for {input_file}";
        EvLog DEBUG "generating asset ID for {input_file}";
        EvLog DEBUG "generating asset ID for {input_file}"] ++ t) /\
    fail_fast [("a.txt", "p/a.txt"); ("b.txt", "p/b.txt"); ("c.txt", "p/c.txt")] b (uploads t).
Proof.
  apply (Transfer.transfer_to_s3_fail_fast second_put_fails 1 "bucket" "p"
           ["a.txt"; "b.txt"; "c.txt"] "" []
           [EvListObjects "bucket" "p" None;
            EvLog WARNING "Prefix '{prefix}' exists in bucket '{bucket}'.";
            EvLog WARNING "Removing {len(to_delete)} item with '{prefix}' as prefix from bucket.";
            EvDeleteObjects "bucket" ["p/old.json"] None]);
    reflexivity.
Defined.

Lemma download_file_fail_continue_witness :
  let output_path := OsPath.join "out" [OsPath.basename "test_items/1411058"] in
  let h2 := [EvLog INFO "Downloading {bucket}:{object_name} into {output_folder}";
             EvLog INFO "Output folder does not exist, creating it...";
             EvMakedirs "out" None;
             EvListObjectsV2 "bucket" "test_items/1411058" None] in
  (exists res t,
     download_file second_get_fails 1 "bucket" "test_items/1411058" "out" [] =
       (Ok res, h2 ++ t) /\
     attempted output_path three_keys t /\
     success res = forallb snd (downloads t) /\
     file_path res = output_path) \/
  (exists e done key rest t,
     three_keys = done ++ key :: rest /\
     download_file second_get_fails 1 "bucket" "test_items/1411058" "out" [] =
       (Raise e, h2 ++ t ++ [EvMakedirs (local_dir output_path key) (Some e)]) /\
     attempted output_path done t).
Proof.
  apply (Retrieval.download_file_fail_continue second_get_fails 1
           "bucket" "test_items/1411058" "out" []
           [EvLog INFO "Downloading {bucket}:{object_name} into {output_folder}";
            EvLog INFO "Output folder does not exist, creating it...";
            EvMakedirs "out" None;
            EvListObjectsV2 "bucket" "test_items/1411058" None]
           {| Contents := Some three_keys; IsTruncated := Some false; KeyCount := Some 3%Z |}
           3 three_keys);
    try reflexivity.
  discriminate.
Defined.

(** The directory of the second of three keys cannot be created: the first
    key is downloaded, the exception of [os.makedirs] leaves [download_file]
    and the third key is never asked for. *)
Example second_directory_blocked :
  exists h,
    download_file blocked_directory_store 1 "bucket" "p/q" "out" [] =
      (Raise (OSError "[Errno 20] Not a directory: 'out/q/a/b'"), h) /\
    downloads h = [("p/q/a", "out/q/a", true)] /\
    makedirs_failures h =
      [("out/q/a/b", OSError "[Errno 20] Not a directory: 'out/q/a/b'")] /\
    last h (EvLog DEBUG "") =
      EvMakedirs "out/q/a/b" (Some (OSError "[Errno 20] Not a directory: 'out/q/a/b'")).
Proof. eexists. repeat split; vm_compute; reflexivity. Qed.

(** The local paths of a key of four segments, of three, of two and of one,
    for a retrieval of [test_items/1411058] into [out]. *)
Example local_paths :
  let output_path := OsPath.join "out" [OsPath.basename "test_items/1411058"] in
  local_file output_path "test_items/1411058/keyframes/105320.jpg" =
    "out/1411058/keyframes/105320.jpg" /\
  local_dir output_path "test_items/1411058/keyframes/105320.jpg" =
    "out/1411058/keyframes" /\
  local_file output_path "test_items/1411058/index.json" = "out/1411058/index.json" /\
  local_file output_path "test_items/1411058" = "out/1411058/1411058" /\
  local_file output_path "index.json" = "out/1411058/index.json".
Proof. repeat split; vm_compute; reflexivity. Qed.

Lemma download_file_creates_output_folder_witness :
  download_file (quiet_env test_tree) 1 "bucket" "test_items/1411058" "out/deep/folder" [] =
    download_into (quiet_env test_tree) 1 "bucket" "test_items/1411058" "out/deep/folder" 0
      [EvLog INFO "Downloading {bucket}:{object_name} into {output_folder}";
       EvLog INFO "Output folder does not exist, creating it...";
       EvMakedirs "out/deep/folder" None] /\
  exists t,
    snd (download_file (quiet_env test_tree) 1 "bucket" "test_items/1411058"
           "out/deep/folder" []) =
    [EvLog INFO "Downloading {bucket}:{object_name} into {output_folder}";
     EvLog INFO "Output folder does not exist, creating it..."] ++
    EvMakedirs "out/deep/folder" None :: t.
Proof.
  apply (Retrieval.download_file_creates_output_folder (quiet_env test_tree) 1
           "bucket" "test_items/1411058" "out/deep/folder" []); reflexivity.
Defined.

Lemma digest_file_list_key_prefix_witness :
  Py.startswith "test-prefix" "test-prefix/tmp_dir_for_tests/tmp_file_in_subdir" = true.
Proof.
  apply (Mapping.digest_file_list_key_prefix (quiet_env test_tree) 3
           ["tmp_dir_for_tests"] "test-prefix" "" []
           (snd (digest_file_list (quiet_env test_tree) 3 ["tmp_dir_for_tests"]
                   "test-prefix" "" []))
           [("tmp_dir_for_tests/provenance/tmp_file_in_subdir",
             "test-prefix/tmp_dir_for_tests/provenance/tmp_file_in_subdir");
            ("tmp_dir_for_tests/tmp_file_top_level",
             "test-prefix/tmp_dir_for_tests/tmp_file_top_level");
            ("tmp_dir_for_tests/provenance/tmp_file_in_subdir",
             "test-prefix/tmp_dir_for_tests/tmp_file_in_subdir")]
           "tmp_dir_for_tests/provenance/tmp_file_in_subdir").
  - vm_compute. reflexivity.
  - simpl. auto.
Defined.

Lemma digest_file_list_archive_witness :
  exists archived h1,
    tar_list_of_files (quiet_env test_tree) "tmp_tar_for_tests.tar.gz"
      ["tmp_dir_for_tests"] [] = (Ok archived, h1) /\
    if archived then
      returns (digest_file_list (quiet_env test_tree) 1 ["tmp_dir_for_tests"]
                 "test-prefix" "tmp_tar_for_tests.tar.gz") []
              [("tmp_tar_for_tests.tar.gz",
                OsPath.join "test-prefix" [NtPath.basename "tmp_tar_for_tests.tar.gz"])]
    else
      raises (digest_file_list (quiet_env test_tree) 1 ["tmp_dir_for_tests"]
                "test-prefix" "tmp_tar_for_tests.tar.gz") []
             (PyException "Could not digest file list: archive error").
Proof.
  apply (Mapping.digest_file_list_archive (quiet_env test_tree) 0 ["tmp_dir_for_tests"]
           "test-prefix" "tmp_tar_for_tests.tar.gz" []).
  reflexivity.
Defined.

(** The two outcomes of the archive branch. *)
Example digest_archive_ok :
  returns (digest_file_list (quiet_env test_tree) 1 ["tmp_dir_for_tests"]
             "test-prefix" "tmp_tar_for_tests.tar.gz") []
          [("tmp_tar_for_tests.tar.gz", "test-prefix/tmp_tar_for_tests.tar.gz")].
Proof. eexists. vm_compute. reflexivity. Qed.

Example digest_archive_missing_parent :
  raises (digest_file_list (quiet_env test_tree) 1 ["tmp_dir_for_tests"]
            "test-prefix" "no_such_dir/archive.tar.gz") []
         (PyException "Could not digest file list: archive error").
Proof. eexists. vm_compute. reflexivity. Qed.

End Runs.

(* ================================================================== *)
(** * What each function can do to the world *)
(* ================================================================== *)

Module Effects.

Import RunFacts.

Lemma effects_weaken {A} (P Q : event -> bool) (m : M A) :
  (forall ev, P ev = true -> Q ev = true) -> every_effect P m -> every_effect Q m.
Proof.
  intros HPQ Hm h. destruct (Hm h) as (t & Ht & Hall). exists t. split; [exact Ht|].
  rewrite forallb_forall in *. auto.
Qed.

Lemma of_kinds_sub (ks ks' : list event_kind) (ev : event) :
  (forall k, In k ks -> In k ks') -> of_kinds ks ev = true -> of_kinds ks' ev = true.
Proof.
  intros Hincl. unfold of_kinds. rewrite !existsb_exists.
  intros (k & Hk & E). exists k. auto.
Qed.

Lemma effects_none {A} (P : event -> bool) (m : M A) :
  (forall h, snd (m h) = h) -> every_effect P m.
Proof. intros H h. exists []. now rewrite H, app_nil_r. Qed.

Lemma effects_ret {A} P (a : A) : every_effect P (ret a).
Proof. now apply effects_none. Qed.

Lemma effects_raise {A} P (e : exn) : every_effect P (@raise A e).
Proof. now apply effects_none. Qed.

Lemma effects_out_of_fuel {A} P : every_effect P (@out_of_fuel A).
Proof. now apply effects_none. Qed.

Lemma effects_ask {A} P (f : history -> A) : every_effect P (ask f).
Proof. now apply effects_none. Qed.

Lemma effects_getitem {A} P (key : string) (field : option A) :
  every_effect P (getitem key field).
Proof. destruct field; [apply effects_ret | apply effects_raise]. Qed.

Lemma effects_last_item P (xs : list string) : every_effect P (last_item xs).
Proof. destruct xs; [apply effects_raise | apply effects_ret]. Qed.

Lemma effects_log P (l : level) (s : string) :
  P (EvLog l s) = true -> every_effect P (log l s).
Proof.
  intros HP h. exists [EvLog l s]. split; [reflexivity|]. simpl. now rewrite HP.
Qed.

Lemma effects_call P (r : history -> option exn) (ev : option exn -> event) :
  (forall x, P (ev x) = true) -> every_effect P (call r ev).
Proof.
  intros Hev h. unfold call.
  destruct (r h) as [e|]; eexists [_]; (split; [reflexivity|]); simpl;
    now rewrite Hev.
Qed.

Lemma effects_call_listing P (r : history -> answer response) (ev : event) :
  P ev = true -> every_effect P (call_listing r ev).
Proof.
  intros Hev h. unfold call_listing.
  destruct (r h); exists [ev]; (split; [reflexivity|]); simpl; now rewrite Hev.
Qed.

Lemma effects_bind {A B} P (m : M A) (k : A -> M B) :
  every_effect P m -> (forall a, every_effect P (k a)) -> every_effect P (bind m k).
Proof.
  intros Hm Hk h. unfold bind. destruct (Hm h) as (t & Ht & Hall).
  destruct (m h) as [[a| |] h1]; simpl in Ht; subst h1; try now exists t.
  destruct (Hk a (h ++ t)) as (t' & Ht' & Hall'). exists (t ++ t').
  now rewrite Ht', List.app_assoc, forallb_app, Hall, Hall'.
Qed.

Lemma effects_try {A} P (m : M A) (handler : exn -> M A) :
  every_effect P m -> (forall e, every_effect P (handler e)) ->
  every_effect P (try_except m handler).
Proof.
  intros Hm Hk h. unfold try_except. destruct (Hm h) as (t & Ht & Hall).
  destruct (m h) as [[a| |] h1]; simpl in Ht; subst h1; try now exists t.
  destruct (Hk e (h ++ t)) as (t' & Ht' & Hall'). exists (t ++ t').
  now rewrite Ht', List.app_assoc, forallb_app, Hall, Hall'.
Qed.

Lemma effects_for_fold {A B} P (xs : list A) (body : B -> A -> M B) :
  (forall acc x, every_effect P (body acc x)) ->
  forall acc, every_effect P (for_fold xs acc body).
Proof.
  intros Hbody; induction xs as [|x xs IH]; intros acc; simpl.
  - apply effects_ret.
  - apply effects_bind; auto.
Qed.

Create HintDb effects.
#[export] Hint Resolve effects_ret effects_raise effects_out_of_fuel
  effects_ask effects_getitem effects_last_item effects_bind
  effects_try effects_for_fold : effects.

Ltac sub_kinds := intros ?; simpl; intuition auto.

(** A log line, or a call, whose event is fine by evaluation. *)
Ltac emit_ok :=
  first [ apply effects_log; reflexivity
        | apply effects_call; intros ?; reflexivity
        | apply effects_call_listing; reflexivity ].

Lemma effects_gather_pages P (fuel : nat)
    (list_page : history -> string -> answer response) (page_event : string -> event) :
  (forall m, P (page_event m) = true) ->
  forall response acc,
    every_effect P (gather_pages fuel list_page page_event response acc).
Proof.
  intros Hev; induction fuel as [|fuel IH]; intros response acc; simpl;
    [apply effects_out_of_fuel|].
  apply effects_bind; [auto with effects|]. intros contents.
  apply effects_bind; [auto with effects|]. intros [|]; cbv [negb];
    [|auto with effects].
  apply effects_bind; [auto with effects|]. intros contents'.
  apply effects_bind; [auto with effects|]. intros marker.
  apply effects_bind; [|auto]. now apply effects_call_listing.
Qed.

Lemma effects_generate_asset_id P (f : string) (b : bool) :
  (forall l s, P (EvLog l s) = true) ->
  every_effect P (generate_asset_id_from_input_file f b).
Proof.
  intros Hlog. unfold generate_asset_id_from_input_file.
  apply effects_bind; [now apply effects_log|]. intros _.
  destruct b; [auto with effects|].
  destruct (OsPath.splitext (NtPath.basename f)); auto with effects.
Qed.

Lemma effects_is_valid_tar_path P (env : Env) (archive_path : string) :
  (forall l s, P (EvLog l s) = true) ->
  every_effect P (is_valid_tar_path env archive_path).
Proof.
  intros Hlog. unfold is_valid_tar_path.
  apply effects_bind; [now apply effects_log|]. intros _.
  apply effects_bind; [auto with effects|]. intros [|]; cbv [negb].
  - destruct (Py.last_n 7 archive_path =? COMPRESSED_TAR_EXTENSION)%string; cbv [negb];
      [auto with effects|].
    apply effects_bind; [now apply effects_log | auto with effects].
  - apply effects_bind; [now apply effects_log | auto with effects].
Qed.

Lemma only_emits_write_tar (env : Env) (archive_path : string) (file_list : list string) :
  only_emits [KLog; KTar] (write_tar env archive_path file_list).
Proof.
  unfold only_emits, write_tar.
  apply effects_bind; [emit_ok|]. intros _.
  apply effects_bind; [|intros _; emit_ok].
  apply effects_for_fold. intros _ item.
  apply effects_bind; [emit_ok|]. intros _. emit_ok.
Qed.

Lemma only_emits_tar_list_of_files (env : Env) (archive_path : string)
    (file_list : list string) :
  only_emits [KLog; KTar] (tar_list_of_files env archive_path file_list).
Proof.
  unfold only_emits, tar_list_of_files.
  apply effects_bind; [emit_ok|]. intros _.
  apply effects_bind; [now apply effects_is_valid_tar_path|].
  intros [|]; cbv [negb]; [|auto with effects].
  apply effects_try.
  - apply effects_bind; [apply only_emits_write_tar|]. intros _.
    apply effects_bind; [emit_ok | auto with effects].
  - intros e. apply effects_bind.
    + destruct e; emit_ok.
    + intros _. apply effects_bind; [emit_ok | auto with effects].
Qed.

Lemma only_emits_digest_plain (env : Env) (fuel : nat) :
  forall file_list prefix,
    only_emits [KLog] (digest_file_list env fuel file_list prefix "").
Proof.
  unfold only_emits.
  induction fuel as [|fuel IH]; intros file_list prefix; simpl;
    [apply effects_out_of_fuel|].
  apply effects_for_fold. intros acc f.
  apply effects_bind; [auto with effects|]. intros [|].
  - apply effects_bind; [auto with effects|]. intros walked.
    apply effects_for_fold. intros acc' [[root dirs] files].
    apply effects_bind; [exact (IH _ _) | auto with effects].
  - apply effects_bind; [now apply effects_generate_asset_id | auto with effects].
Qed.

Lemma only_emits_digest (env : Env) (fuel : nat) (file_list : list string)
    (prefix tar : string) :
  only_emits [KLog; KTar] (digest_file_list env fuel file_list prefix tar).
Proof.
  destruct (Py.truthy tar) eqn:T.
  - unfold only_emits.
    destruct fuel as [|fuel]; simpl; [apply effects_out_of_fuel|]. rewrite T.
    apply effects_bind; [apply only_emits_tar_list_of_files|].
    intros [|]; cbv [negb].
    + apply effects_bind; [now apply effects_generate_asset_id | auto with effects].
    + apply effects_bind; [emit_ok | auto with effects].
  - assert (tar = "") as ->.
    { unfold Py.truthy in T. apply negb_false_iff, String.eqb_eq in T. exact T. }
    apply (effects_weaken (of_kinds [KLog]) (of_kinds [KLog; KTar]));
      [intros ev; apply of_kinds_sub; sub_kinds|].
    exact (only_emits_digest_plain env fuel file_list prefix).
Qed.

Lemma only_emits_clear_prefix (env : Env) (fuel : nat) (bucket prefix : string) :
  only_emits [KLog; KListObjects; KDeleteObjects] (clear_prefix env fuel bucket prefix).
Proof.
  unfold only_emits, clear_prefix.
  apply effects_bind; [emit_ok|]. intros response.
  apply effects_bind; [auto with effects|]. intros contents.
  destruct (0 <? List.length contents)%nat; [|auto with effects].
  apply effects_bind; [emit_ok|]. intros _.
  apply effects_bind; [now apply effects_gather_pages|]. intros to_delete.
  apply effects_bind; [emit_ok|]. intros _. emit_ok.
Qed.

Lemma only_emits_upload_all (env : Env) (bucket : string) (pairs : list (string * string)) :
  only_emits [KLog; KUploadFile] (upload_all env bucket pairs).
Proof.
  unfold only_emits.
  induction pairs as [|[f k] rest IH]; simpl; [auto with effects|].
  apply effects_bind.
  - unfold try_upload. apply effects_try.
    + apply effects_bind; [emit_ok | auto with effects].
    + intros e. apply effects_bind; [emit_ok | auto with effects].
  - intros [|]; auto with effects.
Qed.

(** The effects of [download_file] when each download goes to a path that
    [P] accepts. *)
Lemma effects_download_file P (env : Env) (fuel : nat)
    (bucket object_name output_folder : string) :
  (forall l s, P (EvLog l s) = true) ->
  (forall marker, P (EvListObjectsV2 bucket object_name marker) = true) ->
  (forall r, P (EvMakedirs output_folder r) = true) ->
  (forall r,
      P (EvDownloadFileobj bucket object_name
           (OsPath.join output_folder [OsPath.basename object_name]) r) = true) ->
  (forall key r,
      P (EvMakedirs
           (local_dir (OsPath.join output_folder [OsPath.basename object_name]) key) r) = true) ->
  (forall key r,
      P (EvDownloadFileobj bucket key
           (local_file (OsPath.join output_folder [OsPath.basename object_name]) key) r) = true) ->
  every_effect P (download_file env fuel bucket object_name output_folder).
Proof.
  intros Hlog Hlist Hmk Hone Hdir Hget. unfold download_file.
  apply effects_bind; [auto with effects|]. intros start_time.
  apply effects_bind; [now apply effects_log|]. intros _.
  apply effects_bind; [auto with effects|]. intros folder_exists.
  apply effects_bind.
  { destruct folder_exists; cbv [negb]; [auto with effects|].
    apply effects_bind; [now apply effects_log|]. intros _.
    now apply effects_call. }
  intros _. unfold download_into. apply effects_bind; [|auto with effects].
  destruct (Py.contains "tar.gz" object_name).
  - apply effects_try.
    + apply effects_bind; [now apply effects_call | auto with effects].
    + intros e. apply effects_bind; [now apply effects_log | auto with effects].
  - apply effects_bind; [now apply effects_call_listing|]. intros response.
    apply effects_bind; [auto with effects|]. intros key_count.
    destruct (key_count =? 0)%Z.
    + apply effects_bind; [now apply effects_log | auto with effects].
    + apply effects_bind; [apply effects_gather_pages; intros m; apply Hlist|].
      intros to_download. apply effects_for_fold. intros acc key.
      unfold download_item, ensure_dir, try_download.
      apply effects_bind.
      * apply effects_bind; [auto with effects|]. intros [|]; cbv [negb];
          [auto with effects | now apply effects_call].
      * intros _. apply effects_try.
        -- apply effects_bind; [now apply effects_call | auto with effects].
        -- intros e. apply effects_bind; [now apply effects_log | auto with effects].
Qed.

End Effects.

(* ================================================================== *)
(** * Which calls a run can make *)
(* ================================================================== *)

Module Reach.

Import RunFacts PathFacts Effects.

(** Membership of a kind in a list of kinds, decided. *)
Lemma not_kind (k : event_kind) (ks : list event_kind) :
  existsb (kind_eqb k) ks = false -> ~ In k ks.
Proof.
  intros H Hin. assert (existsb (kind_eqb k) ks = true) as E; [|congruence].
  apply existsb_exists. exists k. split; [exact Hin | now destruct k].
Qed.

Lemma uploads_of_kinds (ks : list event_kind) (t : history) :
  forallb (of_kinds ks) t = true -> existsb (kind_eqb KUploadFile) ks = false ->
  uploads t = [].
Proof.
  intros Hall Hno%not_kind; revert Hall.
  induction t as [|ev t IH]; simpl; [reflexivity|].
  intros [Hev Ht]%andb_prop. rewrite (IH Ht).
  destruct ev; try reflexivity.
  unfold of_kinds in Hev. apply existsb_exists in Hev as (k & Hk & E).
  destruct k; try discriminate E. contradiction.
Qed.

Lemma deleted_of_kinds (ks : list event_kind) (t : history) :
  forallb (of_kinds ks) t = true -> existsb (kind_eqb KDeleteObjects) ks = false ->
  deleted t = [].
Proof.
  intros Hall Hno%not_kind; revert Hall.
  induction t as [|ev t IH]; simpl; [reflexivity|].
  intros [Hev Ht]%andb_prop. rewrite (IH Ht).
  destruct ev; try reflexivity.
  unfold of_kinds in Hev. apply existsb_exists in Hev as (k & Hk & E).
  destruct k; try discriminate E. contradiction.
Qed.

Lemma downloads_of_kinds (ks : list event_kind) (t : history) :
  forallb (of_kinds ks) t = true -> existsb (kind_eqb KDownloadFileobj) ks = false ->
  downloads t = [].
Proof.
  intros Hall Hno%not_kind; revert Hall.
  induction t as [|ev t IH]; simpl; [reflexivity|].
  intros [Hev Ht]%andb_prop. rewrite (IH Ht).
  destruct ev; try reflexivity.
  unfold of_kinds in Hev. apply existsb_exists in Hev as (k & Hk & E).
  destruct k; try discriminate E. contradiction.
Qed.

Lemma tar_events_of_kinds (ks : list event_kind) (t : history) :
  forallb (of_kinds ks) t = true -> existsb (kind_eqb KTar) ks = false ->
  tar_events t = [].
Proof.
  intros Hall Hno%not_kind; revert Hall.
  induction t as [|ev t IH]; simpl; [reflexivity|].
  intros [Hev Ht]%andb_prop. unfold tar_events in *. simpl. rewrite (IH Ht).
  unfold of_kinds in Hev. apply existsb_exists in Hev as (k & Hk & E).
  destruct (kind_of ev); try reflexivity.
  destruct k; try discriminate E. contradiction.
Qed.

Lemma effects_validate_s3_uri P (s : string) :
  (forall l m, P (EvLog l m) = true) -> every_effect P (validate_s3_uri s).
Proof.
  intros Hlog. unfold validate_s3_uri.
  destruct (Py.take 5 s =? "s3://")%string; cbv [negb].
  - destruct (List.length (Py.split "/"%char (Py.drop 5 s)) <? 2)%nat; [|auto with effects].
    apply effects_bind; [now apply effects_log | auto with effects].
  - apply effects_bind; [now apply effects_log | auto with effects].
Qed.

Lemma effects_parse_s3_uri P (s : string) :
  (forall l m, P (EvLog l m) = true) -> every_effect P (parse_s3_uri s).
Proof.
  intros Hlog. unfold parse_s3_uri.
  apply effects_bind; [now apply effects_log | auto with effects].
Qed.

(** X1: A retrieval only reads the store: whatever the URI, the folder, the
    environment and the outcome, a run of [download_s3_uri] (and so of
    [download_file]) makes no call other than [os.makedirs],
    [list_objects_v2] and the download of an object, besides its log lines;
    it never uploads, deletes or archives. *)
Theorem download_s3_uri_only_reads (env : Env) (fuel : nat) (s3_uri output_folder : string) :
  only_emits [KLog; KMakedirs; KListObjectsV2; KDownloadFileobj]
    (download_s3_uri env fuel s3_uri output_folder) /\
  forall h,
    uploads (snd (download_s3_uri env fuel s3_uri output_folder h)) = uploads h /\
    deleted (snd (download_s3_uri env fuel s3_uri output_folder h)) = deleted h /\
    tar_events (snd (download_s3_uri env fuel s3_uri output_folder h)) = tar_events h.
Proof.
  assert (E : only_emits [KLog; KMakedirs; KListObjectsV2; KDownloadFileobj]
                (download_s3_uri env fuel s3_uri output_folder)).
  { unfold only_emits, download_s3_uri.
    apply effects_bind; [emit_ok|]. intros _.
    apply effects_bind; [now apply effects_validate_s3_uri|]. intros [|]; cbv [negb].
    - apply effects_bind; [now apply effects_parse_s3_uri|]. intros [bucket object_name].
      apply effects_bind; [emit_ok|]. intros _.
      now apply effects_download_file.
    - apply effects_bind; [emit_ok | auto with effects]. }
  split; [exact E|]. intros h. destruct (E h) as (t & -> & Hall).
  unfold uploads, deleted, tar_events. rewrite !flat_map_app, filter_app.
  fold (uploads t) (deleted t) (tar_events t).
  rewrite (uploads_of_kinds _ t Hall eq_refl),
          (deleted_of_kinds _ t Hall eq_refl),
          (tar_events_of_kinds _ t Hall eq_refl).
  now rewrite !app_nil_r.
Qed.

Lemma startswith_refl (s : string) : Py.startswith s s = true.
Proof.
  unfold Py.startswith. rewrite <- (PyFacts.app_empty_r s) at 2.
  apply PyFacts.prefix_app.
Qed.

Lemma local_dir_under (output_folder object_name key : string) :
  Py.startswith output_folder
    (local_dir (OsPath.join output_folder [OsPath.basename object_name]) key) = true.
Proof.
  eapply PyFacts.prefix_trans.
  - apply join_prefix, basename_no_slash.
  - unfold local_dir. apply Retrieval.join_segments_prefix.
    intros x Hx. apply (split_segments_no_slash key).
    unfold Py.slice_2_to_last in Hx.
    now apply Retrieval.in_removelast, Retrieval.in_skipn in Hx.
Qed.

(** X2: Whatever the keys that the store lists, every directory that
    [download_file] creates and every file that it writes is at a path that
    starts with [output_folder]: no segment of a key is absolute, so
    [os.path.join] never drops the folder. *)
Theorem download_file_writes_below_output_folder (env : Env) (fuel : nat)
    (bucket object_name output_folder : string) (h : history) :
  exists t,
    snd (download_file env fuel bucket object_name output_folder h) = h ++ t /\
    forall path,
      (exists r, In (EvMakedirs path r) t) \/
      (exists key r, In (EvDownloadFileobj bucket key path r) t) ->
      Py.startswith output_folder path = true.
Proof.
  assert (E : every_effect (writes_below output_folder)
                (download_file env fuel bucket object_name output_folder)).
  { apply effects_download_file; intros; cbn [writes_below];
      auto using startswith_refl, local_dir_under, Retrieval.local_file_under.
    apply join_prefix, basename_no_slash. }
  destruct (E h) as (t & Ht & Hall). exists t. split; [exact Ht|].
  rewrite forallb_forall in Hall.
  intros path [[r Hin] | (key & r & Hin)]; exact (Hall _ Hin).
Qed.

(** X3: Mapping has no effect on the store or on the file system: without an
    archive path a run of [digest_file_list] only logs, and with one it only
    logs and writes the archive. *)
Theorem digest_file_list_effects (env : Env) (fuel : nat) (file_list : list string)
    (prefix tar_archive_path : string) :
  only_emits [KLog] (digest_file_list env fuel file_list prefix "") /\
  only_emits [KLog; KTar] (digest_file_list env fuel file_list prefix tar_archive_path).
Proof.
  split; [exact (only_emits_digest_plain env fuel file_list prefix)
         | apply only_emits_digest].
Qed.

(** The two phases of a transfer. *)
Lemma transfer_to_s3_split (env : Env) (fuel : nat) (bucket prefix : string)
    (file_list : list string) (tar : string) (h : history) :
  exists t1 t2 t3,
    snd (transfer_to_s3 env fuel bucket prefix file_list tar h) = h ++ t1 ++ t2 ++ t3 /\
    forallb (of_kinds [KLog; KListObjects; KDeleteObjects]) t1 = true /\
    forallb (of_kinds [KLog; KTar]) t2 = true /\
    forallb (of_kinds [KLog; KUploadFile]) t3 = true /\
    forall f k ok, In (f, k, ok) (uploads t3) -> Py.startswith prefix k = true.
Proof.
  unfold transfer_to_s3, bind.
  destruct (only_emits_clear_prefix env fuel bucket prefix h) as (t1 & H1 & K1).
  destruct (clear_prefix env fuel bucket prefix h) as [[[]|e|] h1]; simpl in H1; subst h1;
    try (exists t1, [], []; rewrite !app_nil_r; repeat split; auto; now intros ? ? ? []).
  destruct (only_emits_digest env fuel file_list prefix tar (h ++ t1)) as (t2 & H2 & K2).
  destruct (digest_file_list env fuel file_list prefix tar (h ++ t1)) as [[pairs|e|] h2] eqn:D;
    simpl in H2; subst h2;
    try (exists t1, t2, []; rewrite !app_nil_r, <- List.app_assoc;
         repeat split; auto; now intros ? ? ? []).
  destruct (Transfer.upload_all_run env bucket pairs ((h ++ t1) ++ t2)) as (b & t3 & H3 & F3).
  destruct (only_emits_upload_all env bucket pairs ((h ++ t1) ++ t2)) as (t3' & H3' & K3).
  rewrite H3 in H3'. simpl in H3'. apply app_inv_head in H3'. subst t3'.
  exists t1, t2, t3. rewrite H3. simpl. rewrite <- !List.app_assoc.
  repeat split; auto.
  intros f k ok Hin.
  assert (In (f, k) pairs) as Hp.
  { destruct F3 as [[_ E] | (_ & done & failed & rest & -> & E)]; rewrite E in Hin.
    - unfold uploaded in Hin. apply in_map_iff in Hin as ([f' k'] & [= <- <- _] & Hin).
      exact Hin.
    - apply in_app_or in Hin as [Hin | [[= <- <- _] | []]].
      + unfold uploaded in Hin. apply in_map_iff in Hin as ([f' k'] & [= <- <- _] & Hin).
        apply in_or_app. now left.
      + apply in_or_app. right. left. now destruct failed. }
  exact (Mapping.digest_file_list_keys env fuel _ _ _ _ _ _ D f k Hp).
Qed.

(** X4: A transfer clears before it uploads, and never the other way round: the
    effects of a run of [transfer_to_s3] are those of the clearing (listings
    and deletions are possible there, no upload and no archive), followed by
    those of the mapping and the uploads, among which nothing is deleted or
    listed; and nothing is ever downloaded. *)
Theorem transfer_to_s3_clears_then_uploads (env : Env) (fuel : nat)
    (bucket prefix : string) (file_list : list string) (tar_archive_path : string)
    (h : history) :
  exists t_clear t_rest,
    snd (transfer_to_s3 env fuel bucket prefix file_list tar_archive_path h)
      = h ++ t_clear ++ t_rest /\
    uploads t_clear = [] /\ tar_events t_clear = [] /\
    deleted t_rest = [] /\ listing_markers t_rest = [] /\
    downloads (t_clear ++ t_rest) = [].
Proof.
  destruct (transfer_to_s3_split env fuel bucket prefix file_list tar_archive_path h)
    as (t1 & t2 & t3 & Hrun & K1 & K2 & K3 & _).
  exists t1, (t2 ++ t3). split; [exact Hrun|].
  assert (K23 : forallb (of_kinds [KLog; KTar; KUploadFile]) (t2 ++ t3) = true).
  { rewrite forallb_app. apply andb_true_intro. split.
    - rewrite forallb_forall in *. intros ev Hev.
      apply (of_kinds_sub [KLog; KTar]); [sub_kinds | auto].
    - rewrite forallb_forall in *. intros ev Hev.
      apply (of_kinds_sub [KLog; KUploadFile]); [sub_kinds | auto]. }
  repeat split.
  - apply (uploads_of_kinds _ t1 K1 eq_refl).
  - apply (tar_events_of_kinds _ t1 K1 eq_refl).
  - apply (deleted_of_kinds _ _ K23 eq_refl).
  - clear - K23. induction (t2 ++ t3) as [|ev t IH]; [reflexivity|].
    simpl in K23. apply andb_prop in K23 as [Hev Ht]. simpl. rewrite (IH Ht).
    destruct ev; try reflexivity; discriminate Hev.
  - unfold downloads. rewrite flat_map_app. fold (downloads t1) (downloads (t2 ++ t3)).
    now rewrite (downloads_of_kinds _ t1 K1 eq_refl),
                (downloads_of_kinds _ _ K23 eq_refl).
Qed.

(** X5: A transfer writes under its prefix only: in every run of
    [transfer_to_s3], whatever the file list and the outcome, the key of each
    upload attempted starts with [prefix]. *)
Theorem transfer_to_s3_uploads_under_prefix (env : Env) (fuel : nat)
    (bucket prefix : string) (file_list : list string) (tar_archive_path : string)
    (h : history) :
  exists t,
    snd (transfer_to_s3 env fuel bucket prefix file_list tar_archive_path h) = h ++ t /\
    forall f k ok, In (f, k, ok) (uploads t) -> Py.startswith prefix k = true.
Proof.
  destruct (transfer_to_s3_split env fuel bucket prefix file_list tar_archive_path h)
    as (t1 & t2 & t3 & Hrun & K1 & K2 & K3 & Hkeys).
  exists (t1 ++ t2 ++ t3). split; [exact Hrun|].
  intros f k ok. unfold uploads. rewrite !flat_map_app.
  fold (uploads t1) (uploads t2) (uploads t3).
  rewrite (uploads_of_kinds _ t1 K1 eq_refl),
          (uploads_of_kinds _ t2 K2 eq_refl).
  simpl. apply Hkeys.
Qed.

End Reach.

(* ================================================================== *)
(** * The archive that is written *)
(* ================================================================== *)

Module ArchiveTrace.

Import RunFacts Effects Reach.

Lemma tar_events_app (a b : history) : tar_events (a ++ b) = tar_events a ++ tar_events b.
Proof. apply filter_app. Qed.

(** The loop over the members. *)
Lemma add_members_run (env : Env) (file_list : list string) :
  forall h, exists r t,
    for_fold file_list tt
      (fun _ item =>
         log INFO (OsPath.basename item) ;;
         call (fun h => tar_add env h item (OsPath.basename item))
              (EvTarAdd item (OsPath.basename item))) h = (r, h ++ t) /\
    ((r = Ok tt /\
      tar_events t = map (fun item => EvTarAdd item (OsPath.basename item) None) file_list) \/
     (exists e done failed rest,
        r = Raise e /\ file_list = done ++ failed :: rest /\
        tar_events t =
          map (fun item => EvTarAdd item (OsPath.basename item) None) done ++
          [EvTarAdd failed (OsPath.basename failed) (Some e)])).
Proof.
  induction file_list as [|item fl IH]; intros h; simpl.
  - exists (Ok tt), []. rewrite app_nil_r. split; [reflexivity|]. now left.
  - destruct (tar_add env (h ++ [EvLog INFO (OsPath.basename item)]) item
                (OsPath.basename item)) as [e|] eqn:A.
    + assert (Hstep : (log INFO (OsPath.basename item) ;;
                       call (fun h => tar_add env h item (OsPath.basename item))
                            (EvTarAdd item (OsPath.basename item))) h
                      = (Raise e, h ++ [EvLog INFO (OsPath.basename item);
                                        EvTarAdd item (OsPath.basename item) (Some e)])).
      { unfold bind, log, emit, call. rewrite A. now rewrite <- List.app_assoc. }
      rewrite (bind_raise _ _ _ _ _ Hstep). eexists (Raise e), _. split; [reflexivity|].
      right. exists e, [], item, fl. now repeat split.
    + assert (Hstep : (log INFO (OsPath.basename item) ;;
                       call (fun h => tar_add env h item (OsPath.basename item))
                            (EvTarAdd item (OsPath.basename item))) h
                      = (Ok tt, h ++ [EvLog INFO (OsPath.basename item);
                                      EvTarAdd item (OsPath.basename item) None])).
      { unfold bind, log, emit, call. rewrite A. now rewrite <- List.app_assoc. }
      rewrite (bind_run _ _ _ _ _ Hstep).
      destruct (IH (h ++ [EvLog INFO (OsPath.basename item);
                          EvTarAdd item (OsPath.basename item) None]))
        as (r & t & Hrun & Hev).
      exists r, ([EvLog INFO (OsPath.basename item);
                  EvTarAdd item (OsPath.basename item) None] ++ t).
      split; [rewrite Hrun; now rewrite <- !List.app_assoc|].
      rewrite tar_events_app.
      change (tar_events [EvLog INFO (OsPath.basename item);
                          EvTarAdd item (OsPath.basename item) None])
        with [EvTarAdd item (OsPath.basename item) None].
      destruct Hev as [[-> ->] | (e & done & failed & rest & -> & -> & ->)].
      * now left.
      * right. exists e, (item :: done), failed, rest. now repeat split.
Qed.

Lemma write_tar_run (env : Env) (archive_path : string) (file_list : list string)
    (h : history) :
  exists r t,
    write_tar env archive_path file_list h = (r, h ++ t) /\
    ((r = Ok tt /\ tar_events t = archived archive_path file_list) \/
     (exists e, r = Raise e) /\ archive_failure archive_path file_list (tar_events t)).
Proof.
  unfold write_tar. unfold bind at 1, call at 1.
  destruct (tarfile_open env h archive_path) as [e|] eqn:O.
  { eexists (Raise e), [_]. split; [reflexivity|]. right. split; [now exists e|].
    left. now exists e. }
  destruct (add_members_run env file_list (h ++ [EvTarOpen archive_path None]))
    as (r & t & Hrun & Hev).
  unfold bind at 1. rewrite Hrun.
  destruct Hev as [[-> Hev] | (e & done & failed & rest & -> & Hfl & Hev)].
  - unfold call.
    destruct (tar_close env ((h ++ [EvTarOpen archive_path None]) ++ t) archive_path)
      as [e|] eqn:C.
    + exists (Raise e), (EvTarOpen archive_path None :: t ++ [EvTarClose archive_path (Some e)]).
      split; [f_equal; now rewrite <- !List.app_assoc|].
      right. split; [now exists e|]. right. right. exists e.
      change (tar_events (EvTarOpen archive_path None :: t ++ [EvTarClose archive_path (Some e)]))
        with (EvTarOpen archive_path None :: tar_events (t ++ [EvTarClose archive_path (Some e)])).
      now rewrite tar_events_app, Hev.
    + exists (Ok tt), (EvTarOpen archive_path None :: t ++ [EvTarClose archive_path None]).
      split; [f_equal; now rewrite <- !List.app_assoc|].
      left. split; [reflexivity|].
      change (tar_events (EvTarOpen archive_path None :: t ++ [EvTarClose archive_path None]))
        with (EvTarOpen archive_path None :: tar_events (t ++ [EvTarClose archive_path None])).
      now rewrite tar_events_app, Hev.
  - exists (Raise e), (EvTarOpen archive_path None :: t).
    split; [f_equal; now rewrite <- !List.app_assoc|].
    right. split; [now exists e|]. right. left. exists e, done, failed, rest.
    split; [exact Hfl|].
    change (tar_events (EvTarOpen archive_path None :: t))
      with (EvTarOpen archive_path None :: tar_events t).
    now rewrite Hev.
Qed.

(** X6: What [tar_list_of_files] does to the archive, in every run.  When it
    returns true, the archive was opened, every member of the file list was
    added in the order of the list under its basename (so a member deep in
    a tree lands at the top of the archive), and the archive was closed.  When
    it returns false, either nothing was opened at all (the path was
    rejected), or the writing stopped at the first call that raised: no
    member after it is added. *)
Theorem tar_list_of_files_trace (env : Env) (archive_path : string)
    (file_list : list string) (h : history) :
  exists b t,
    tar_list_of_files env archive_path file_list h = (Ok b, h ++ t) /\
    if b then tar_events t = archived archive_path file_list
    else tar_events t = [] \/ archive_failure archive_path file_list (tar_events t).
Proof.
  unfold tar_list_of_files.
  set (h0 := h ++ [EvLog INFO "Tarring {len(file_list)} into {archive_path}"]).
  rewrite (bind_run _ _ h h0 tt) by reflexivity.
  assert (Hlogs : forall (A : Type) (m : M A) (hv : history) (r : outcome A) (tv : history),
             m h0 = (r, h0 ++ tv) ->
             m h0 = (r, h ++ EvLog INFO "Tarring {len(file_list)} into {archive_path}" :: tv)).
  { intros A m hv r tv ->. unfold h0. now rewrite <- List.app_assoc. }
  destruct (Archive.is_valid_tar_path_run env archive_path h0)
    as [(h' & Hrun & -> & _) | [(h' & Hrun & -> & _) | (Hrun & _)]];
    rewrite (bind_run _ _ _ _ _ Hrun); cbv [negb].
  - exists false, [EvLog INFO "Tarring {len(file_list)} into {archive_path}";
                   EvLog INFO "Validating {archive_path}";
                   EvLog ERROR "Parent dir does not exist: {archive_path}"].
    split; [|now left]. unfold ret, h0. now rewrite <- !List.app_assoc.
  - exists false, [EvLog INFO "Tarring {len(file_list)} into {archive_path}";
                   EvLog INFO "Validating {archive_path}";
                   EvLog ERROR "Archive file should have correct extension: {COMPRESSED_TAR_EXTENSION}"].
    split; [|now left]. unfold ret, h0. now rewrite <- !List.app_assoc.
  - set (h1 := h0 ++ [EvLog INFO "Validating {archive_path}"]).
    destruct (write_tar_run env archive_path file_list h1) as (r & t & W & Hev).
    unfold try_except.
    destruct Hev as [[-> Hev] | [[e ->] Hev]].
    + rewrite (bind_run _ _ _ _ _ W). unfold bind, log, emit, ret.
      exists true, ([EvLog INFO "Tarring {len(file_list)} into {archive_path}";
                     EvLog INFO "Validating {archive_path}"] ++ t ++
                    [EvLog INFO "Succesfully created {archive_path}"]).
      split; [unfold h1, h0; now rewrite <- !List.app_assoc|].
      rewrite !tar_events_app, Hev. simpl. now rewrite app_nil_r.
    + rewrite (bind_raise _ _ _ _ _ W).
      assert (exists fmt,
                 bind (match e with
                       | TarError => log ERROR "Failed to created archive: {archive_path}"
                       | FileNotFoundError => log ERROR "File in file list not found"
                       | _ => log ERROR "Unhandled error"
                       end) (fun _ => log ERROR "Unknown error" ;; ret false) (h1 ++ t)
                 = (Ok false, ((h1 ++ t) ++ [EvLog ERROR fmt]) ++ [EvLog ERROR "Unknown error"]))
        as [fmt ->] by (destruct e; eexists; reflexivity).
      exists false, ([EvLog INFO "Tarring {len(file_list)} into {archive_path}";
                      EvLog INFO "Validating {archive_path}"] ++ t ++
                     [EvLog ERROR fmt; EvLog ERROR "Unknown error"]).
      split; [unfold h1, h0; now rewrite <- !List.app_assoc|].
      right. rewrite !tar_events_app. simpl. now rewrite app_nil_r.
Qed.

End ArchiveTrace.

(* ================================================================== *)
(** * Listing by pages *)
(* ================================================================== *)

Module Paging.

Import RunFacts Effects Reach.

Lemma after_found (m : string) (l r : list string) :
  ~ In m l -> after m (l ++ m :: r) = r.
Proof.
  induction l as [|x l IH]; intros Hn; simpl.
  - now rewrite String.eqb_refl.
  - destruct (String.eqb_spec x m) as [->|_].
    + elim Hn. now left.
    + apply IH. intros H. apply Hn. now right.
Qed.

(** Asked for what follows the last key of a page, the store goes on where
    the page ended. *)
Lemma after_page (page_size : nat) (pre rest : list string) :
  NoDup (pre ++ rest) -> 0 < page_size -> page_size < List.length rest ->
  after (last (firstn page_size rest) "") (pre ++ rest) = skipn page_size rest.
Proof.
  intros Hnd Hn Hlen.
  assert (Hne : firstn page_size rest <> []).
  { destruct rest; [simpl in Hlen; lia|]. destruct page_size; [lia | discriminate]. }
  pose proof (app_removelast_last "" Hne) as Hsplit.
  set (m := last (firstn page_size rest) "") in *.
  set (front := removelast (firstn page_size rest)) in *.
  assert (E : pre ++ rest = (pre ++ front) ++ m :: skipn page_size rest).
  { rewrite <- (firstn_skipn page_size rest) at 1. rewrite Hsplit.
    now rewrite <- !List.app_assoc. }
  rewrite E. apply after_found.
  rewrite E in Hnd. apply NoDup_remove_2 in Hnd.
  intros H. apply Hnd. apply in_or_app. now left.
Qed.

Lemma more_pages (page_size len : nat) :
  0 < page_size -> page_size < len ->
  (len - 1) / page_size = S ((len - page_size - 1) / page_size).
Proof.
  intros Hn Hlen.
  replace (len - 1) with ((len - page_size - 1) + 1 * page_size) by lia.
  rewrite Nat.div_add by lia. lia.
Qed.

Lemma bind_getitem {A B} (key : string) (v : A) (k : A -> M B) (h : history) :
  bind (getitem key (Some v)) k h = k v h.
Proof. reflexivity. Qed.

Lemma bind_log {B} (l : level) (s : string) (k : unit -> M B) (h : history) :
  bind (log l s) k h = k tt (h ++ [EvLog l s]).
Proof. reflexivity. Qed.

Lemma gather_pages_step (fuel : nat)
    (list_page : history -> string -> answer response) (page_event : string -> event)
    (response : response) (acc : list string) :
  gather_pages (S fuel) list_page page_event response acc =
  (contents <- getitem "Contents" (Contents response) ;;
   truncated <- getitem "IsTruncated" (IsTruncated response) ;;
   if negb truncated then ret (acc ++ contents)
   else
     contents' <- getitem "Contents" (Contents response) ;;
     marker <- last_item contents' ;;
     response' <- call_listing (fun h => list_page h marker) (page_event marker) ;;
     gather_pages fuel list_page page_event response' (acc ++ contents)).
Proof. reflexivity. Qed.

(** The loop over the pages of a store that pages by marker: all the keys,
    in order, after as many further listings as there are further pages. *)
Lemma gather_pages_paged (page_size : nat) (keys : list string)
    (list_page : history -> string -> answer response) (page_event : string -> event) :
  0 < page_size -> NoDup keys ->
  (forall h m, list_page h m = Returned (page page_size (after m keys))) ->
  forall fuel pre rest acc h,
    keys = pre ++ rest -> rest <> [] -> List.length rest <= fuel ->
    exists markers,
      gather_pages fuel list_page page_event (page page_size rest) acc h =
        (Ok (acc ++ rest), h ++ map page_event markers) /\
      List.length markers = (List.length rest - 1) / page_size.
Proof.
  intros Hn Hnd Hstore. induction fuel as [|fuel IH]; intros pre rest acc h Hk Hne Hlen.
  - destruct rest; [contradiction | simpl in Hlen; lia].
  - rewrite gather_pages_step.
    assert (Hc : Contents (page page_size rest) = Some (firstn page_size rest))
      by (destruct rest; [contradiction | reflexivity]).
    rewrite Hc, bind_getitem.
    change (IsTruncated (page page_size rest))
      with (Some (page_size <? List.length rest)%nat).
    rewrite bind_getitem.
    destruct (page_size <? List.length rest)%nat eqn:T; cbv [negb].
    + apply Nat.ltb_lt in T.
      rewrite bind_getitem.
      assert (Hfn : firstn page_size rest <> []).
      { destruct rest; [contradiction|]. destruct page_size; [lia | discriminate]. }
      assert (Hlast : last_item (firstn page_size rest) h =
                      (Ok (last (firstn page_size rest) ""), h)).
      { unfold last_item. destruct (firstn page_size rest); [contradiction | reflexivity]. }
      rewrite (bind_run _ _ _ _ _ Hlast).
      assert (Hcall : call_listing
                        (fun h0 => list_page h0 (last (firstn page_size rest) ""))
                        (page_event (last (firstn page_size rest) "")) h =
                      (Ok (page page_size (skipn page_size rest)),
                       h ++ [page_event (last (firstn page_size rest) "")])).
      { unfold call_listing. rewrite Hstore, Hk, after_page; auto. now rewrite <- Hk. }
      rewrite (bind_run _ _ _ _ _ Hcall).
      destruct (IH (pre ++ firstn page_size rest) (skipn page_size rest)
                  (acc ++ firstn page_size rest)
                  (h ++ [page_event (last (firstn page_size rest) "")]))
        as (markers & Hrun & Hcount).
      * now rewrite <- List.app_assoc, firstn_skipn.
      * intros E. apply (f_equal (@List.length string)) in E.
        rewrite length_skipn in E. simpl in E. lia.
      * rewrite length_skipn. lia.
      * exists (last (firstn page_size rest) "" :: markers). split.
        -- rewrite Hrun. now rewrite <- !List.app_assoc, firstn_skipn.
        -- simpl. rewrite Hcount, length_skipn. symmetry. now apply more_pages.
    + apply Nat.ltb_ge in T. exists []. split.
      * unfold ret. now rewrite firstn_all2, app_nil_r by exact T.
      * simpl. symmetry. apply Nat.div_small. destruct rest; [contradiction | simpl in *; lia].
Qed.

Lemma deleted_listings (bucket prefix : string) (markers : list string) :
  deleted (map (fun m => EvListObjects bucket prefix (Some m)) markers) = [].
Proof. induction markers; simpl; auto. Qed.

Lemma listing_markers_v1 (bucket prefix : string) (markers : list string) :
  listing_markers (map (fun m => EvListObjects bucket prefix (Some m)) markers) =
  map Some markers.
Proof. induction markers as [|m ms IH]; simpl; [reflexivity | now rewrite IH]. Qed.

Lemma deleted_app (a b : history) : deleted (a ++ b) = deleted a ++ deleted b.
Proof. apply flat_map_app. Qed.

Lemma listing_markers_app (a b : history) :
  listing_markers (a ++ b) = listing_markers a ++ listing_markers b.
Proof. apply flat_map_app. Qed.

(** X7: Clearing is exhaustive and done in one batch: against a store that holds
    the distinct keys [keys] under the prefix and lists them [page_size] at a
    time, [clear_prefix] follows the pages to the end (one listing per page,
    each continued from the last key of the page before) and then deletes all
    the keys in a single [delete_objects] call, in the order listed. *)
Theorem clear_prefix_deletes_every_page (env : Env) (fuel page_size : nat)
    (bucket prefix : string) (keys : list string) (h : history) :
  0 < page_size -> NoDup keys -> keys <> [] -> List.length keys <= fuel ->
  (forall h marker, list_objects env h bucket prefix marker = paged_listing page_size keys marker) ->
  (forall h ks, delete_objects env h bucket ks = None) ->
  exists t,
    clear_prefix env fuel bucket prefix h = (Ok tt, h ++ t) /\
    deleted t = [keys] /\
    List.length (listing_markers t) = S ((List.length keys - 1) / page_size) /\
    hd_error (listing_markers t) = Some None.
Proof.
  intros Hn Hnd Hne Hlen Hstore Hdel. unfold clear_prefix.
  assert (Hcall : call_listing (fun h => list_objects env h bucket prefix None)
                    (EvListObjects bucket prefix None) h =
                  (Ok (page page_size keys), h ++ [EvListObjects bucket prefix None])).
  { unfold call_listing. now rewrite Hstore. }
  rewrite (bind_run _ _ _ _ _ Hcall).
  assert (Hc : Contents (page page_size keys) = Some (firstn page_size keys))
    by (destruct keys; [contradiction | reflexivity]).
  rewrite Hc, bind_getitem.
  assert (Hpos : (0 <? List.length (firstn page_size keys))%nat = true).
  { apply Nat.ltb_lt. destruct keys; [contradiction|]. destruct page_size; [lia | simpl; lia]. }
  rewrite Hpos, bind_log.
  destruct (gather_pages_paged page_size keys
              (fun h marker => list_objects env h bucket prefix (Some marker))
              (fun marker => EvListObjects bucket prefix (Some marker))
              Hn Hnd (fun h m => Hstore h (Some m)) fuel [] keys []
              ((h ++ [EvListObjects bucket prefix None]) ++
               [EvLog WARNING "Prefix '{prefix}' exists in bucket '{bucket}'."])
              eq_refl Hne Hlen) as (markers & Hrun & Hcount).
  rewrite (bind_run _ _ _ _ _ Hrun), bind_log.
  unfold call. rewrite Hdel.
  eexists (EvListObjects bucket prefix None ::
           EvLog WARNING "Prefix '{prefix}' exists in bucket '{bucket}'." ::
           map (fun marker => EvListObjects bucket prefix (Some marker)) markers ++
           [EvLog WARNING "Removing {len(to_delete)} item with '{prefix}' as prefix from bucket.";
            EvDeleteObjects bucket keys None]).
  split; [f_equal; now rewrite <- !List.app_assoc|].
  repeat split.
  - simpl. now rewrite deleted_app, deleted_listings.
  - simpl. rewrite listing_markers_app, listing_markers_v1, length_app, length_map.
    simpl. lia.
Qed.

(** X8: The second page of a retrieval is asked for with a [Marker], and a
    refusal of that request is not caught.  When the first page of
    [list_objects_v2] holds keys and says that it is truncated,
    [download_file] calls [list_objects_v2] again with the last key of the
    page as [Marker]; if that call raises, as a client does whose
    [list_objects_v2] takes no [Marker], [download_file] raises the same
    exception right after the two listings: nothing is downloaded and no
    [DownloadResult] comes back. *)
Theorem download_file_truncated_listing (env : Env) (fuel : nat)
    (bucket object_name output_folder : string) (h : history)
    (resp : response) (key_count : Z) (contents : list string) (e : exn) :
  let h1 := after_folder_check env output_folder h in
  let marker := last contents "" in
  Py.contains "tar.gz" object_name = false ->
  folder_check env output_folder h = None ->
  list_objects_v2 env h1 bucket object_name None = Returned resp ->
  KeyCount resp = Some key_count ->
  key_count <> 0%Z ->
  Contents resp = Some contents ->
  contents <> [] ->
  IsTruncated resp = Some true ->
  list_objects_v2 env (h1 ++ [EvListObjectsV2 bucket object_name None])
    bucket object_name (Some marker) = Raised e ->
  download_file env (S fuel) bucket object_name output_folder h =
    (Raise e, h1 ++ [EvListObjectsV2 bucket object_name None;
                     EvListObjectsV2 bucket object_name (Some marker)]).
Proof.
  intros h1 marker Hc Hf Hl Hk Hk0 Hcont Hne Htr Hnext.
  rewrite (Retrieval.download_file_after_folder_check env (S fuel) bucket object_name
             output_folder h Hf).
  fold h1. unfold download_into. rewrite Hc.
  assert (Hcall : call_listing (fun h => list_objects_v2 env h bucket object_name None)
                    (EvListObjectsV2 bucket object_name None) h1
                  = (Ok resp, h1 ++ [EvListObjectsV2 bucket object_name None]))
    by (unfold call_listing; now rewrite Hl).
  unfold bind at 1. rewrite (bind_run _ _ _ _ _ Hcall), Hk, bind_getitem.
  apply Z.eqb_neq in Hk0. rewrite Hk0.
  assert (Hg : gather_pages (S fuel)
                 (fun h marker => list_objects_v2 env h bucket object_name (Some marker))
                 (fun marker => EvListObjectsV2 bucket object_name (Some marker))
                 resp [] (h1 ++ [EvListObjectsV2 bucket object_name None]) =
               (Raise e, h1 ++ [EvListObjectsV2 bucket object_name None;
                                EvListObjectsV2 bucket object_name (Some marker)])).
  { rewrite gather_pages_step, Hcont, Htr, !bind_getitem. cbv [negb].
    rewrite bind_getitem.
    assert (Hlast : last_item contents (h1 ++ [EvListObjectsV2 bucket object_name None]) =
                    (Ok marker, h1 ++ [EvListObjectsV2 bucket object_name None])).
    { unfold last_item. destruct contents; [contradiction | reflexivity]. }
    rewrite (bind_run _ _ _ _ _ Hlast).
    apply bind_raise. unfold call_listing. rewrite Hnext.
    now rewrite <- List.app_assoc. }
  now rewrite (bind_raise _ _ _ _ _ Hg).
Qed.

(** A page that claims more to come but holds no key stops the loop with an
    [IndexError]: there is no last key to continue from. *)
Lemma gather_pages_empty_truncated_page (fuel : nat)
    (list_page : history -> string -> answer response) (page_event : string -> event)
    (acc : list string) (h : history) (count : option Z) :
  gather_pages (S fuel) list_page page_event
    {| Contents := Some []; IsTruncated := Some true; KeyCount := count |} acc h =
  (Raise IndexError, h).
Proof. reflexivity. Qed.

End Paging.

(* ================================================================== *)
(** * The other branches of a retrieval *)
(* ================================================================== *)

Module Branches.

Import RunFacts PathFacts Effects Reach.

Lemma single_download_run (env : Env) (bucket object_name output_path : string)
    (h : history) :
  exists ok t,
    try_except
      (call (fun h => download_fileobj env h bucket object_name output_path)
            (EvDownloadFileobj bucket object_name output_path) ;;
       ret true)
      (fun e => log ERROR "Failed to download {object_name}" ;; ret false) h
      = (Ok ok, h ++ t) /\
    downloads t = [(object_name, output_path, ok)] /\
    listing_markers t = [].
Proof.
  unfold try_except, bind, call, log, emit, ret.
  destruct (download_fileobj env h bucket object_name output_path) as [e|].
  - exists false, [EvDownloadFileobj bucket object_name output_path (Some e);
                   EvLog ERROR "Failed to download {object_name}"].
    rewrite <- List.app_assoc. now repeat split.
  - exists true, [EvDownloadFileobj bucket object_name output_path None].
    now repeat split.
Qed.

(** X9: A single archived object: when the object name contains [tar.gz],
    [download_file] lists nothing and makes exactly one download, of the
    object itself to [output_folder/basename(object_name)]; a download that
    raises is caught, and [success] is the outcome of that one download. *)
Theorem download_file_single_object (env : Env) (fuel : nat)
    (bucket object_name output_folder : string) (h : history) :
  Py.contains "tar.gz" object_name = true ->
  (forall h p, os_makedirs env h p = None) ->
  let output_path := OsPath.join output_folder [OsPath.basename object_name] in
  exists res ok t,
    download_file env fuel bucket object_name output_folder h =
      (Ok res, after_folder_check env output_folder h ++ t) /\
    downloads t = [(object_name, output_path, ok)] /\
    listing_markers t = [] /\
    success res = ok /\ file_path res = output_path.
Proof.
  intros Hc Hmk output_path.
  rewrite (Retrieval.download_file_run env fuel bucket object_name output_folder h Hmk).
  unfold download_into. fold output_path. rewrite Hc.
  destruct (single_download_run env bucket object_name output_path
              (after_folder_check env output_folder h)) as (ok & t & Hrun & Hd & Hl).
  rewrite (bind_run _ _ _ _ _ Hrun). unfold bind, ask, ret.
  eexists _, ok, t. now repeat split.
Qed.

(** X10: Nothing under the prefix: when the first listing reports a key count of
    zero, [download_file] returns a result with [success] false after that one
    listing, without creating a directory for a key and without any
    download, whatever else the response holds. *)
Theorem download_file_no_keys (env : Env) (fuel : nat)
    (bucket object_name output_folder : string) (h : history) (resp : response) :
  let h1 := after_folder_check env output_folder h in
  Py.contains "tar.gz" object_name = false ->
  (forall h p, os_makedirs env h p = None) ->
  list_objects_v2 env h1 bucket object_name None = Returned resp ->
  KeyCount resp = Some 0%Z ->
  exists res,
    download_file env fuel bucket object_name output_folder h =
      (Ok res,
       h1 ++ [EvListObjectsV2 bucket object_name None;
              EvLog ERROR "No content available in bucket '{bucket}' for prefix '{object_name}'."]) /\
    success res = false /\
    file_path res = OsPath.join output_folder [OsPath.basename object_name].
Proof.
  intros h1 Hc Hmk Hl Hk.
  rewrite (Retrieval.download_file_run env fuel bucket object_name output_folder h Hmk).
  fold h1. unfold download_into. rewrite Hc.
  unfold bind at 1. unfold bind at 1, call_listing. rewrite Hl, Hk.
  unfold getitem, bind, ret, log, emit, ask.
  change (0 =? 0)%Z with true. cbv beta iota.
  eexists. rewrite <- List.app_assoc. now repeat split.
Qed.

(** A response without ["KeyCount"] is not survived: the read raises
    [KeyError] and nothing is downloaded. *)
Lemma download_file_no_key_count (env : Env) (fuel : nat)
    (bucket object_name output_folder : string) (h : history) (resp : response) :
  let h1 := after_folder_check env output_folder h in
  Py.contains "tar.gz" object_name = false ->
  (forall h p, os_makedirs env h p = None) ->
  list_objects_v2 env h1 bucket object_name None = Returned resp ->
  KeyCount resp = None ->
  download_file env fuel bucket object_name output_folder h =
    (Raise (KeyError "KeyCount"), h1 ++ [EvListObjectsV2 bucket object_name None]).
Proof.
  intros h1 Hc Hmk Hl Hk.
  rewrite (Retrieval.download_file_run env fuel bucket object_name output_folder h Hmk).
  fold h1. unfold download_into. rewrite Hc.
  unfold bind at 1. unfold bind at 1, call_listing. now rewrite Hl, Hk.
Qed.

(** X11: An archive that cannot be written aborts the transfer after the prefix
    has been cleared: when [clear_prefix] has returned and the archiver then
    returns false, [transfer_to_s3] raises, what was deleted stays deleted and
    nothing is uploaded. *)
Theorem transfer_to_s3_archive_failure (env : Env) (fuel : nat)
    (bucket prefix : string) (file_list : list string) (tar_archive_path : string)
    (h h1 h2 : history) :
  Py.truthy tar_archive_path = true ->
  clear_prefix env (S fuel) bucket prefix h = (Ok tt, h1) ->
  tar_list_of_files env tar_archive_path file_list h1 = (Ok false, h2) ->
  exists t,
    transfer_to_s3 env (S fuel) bucket prefix file_list tar_archive_path h =
      (Raise (PyException "Could not digest file list: archive error"), h1 ++ t) /\
    uploads t = [] /\ deleted t = [].
Proof.
  intros Htar Hclear Harch. unfold transfer_to_s3.
  rewrite (bind_run _ _ _ _ _ Hclear).
  destruct (only_emits_tar_list_of_files env tar_archive_path file_list h1)
    as (t & Ht & Hall).
  rewrite Harch in Ht. simpl in Ht. subst h2.
  exists (t ++ [EvLog ERROR "Could not archive the file list before transferring to S3"]).
  split.
  - unfold bind at 1. simpl digest_file_list. rewrite Htar.
    rewrite (bind_run _ _ _ _ _ Harch). cbv [negb].
    unfold bind, log, emit, raise. now rewrite <- List.app_assoc.
  - unfold uploads, deleted. rewrite !flat_map_app. fold (uploads t) (deleted t).
    now rewrite (uploads_of_kinds _ t Hall eq_refl), (deleted_of_kinds _ t Hall eq_refl).
Qed.

(** Nothing to transfer: with an empty file list and no archive path,
    [transfer_to_s3] returns true once the prefix is cleared, without any
    upload. *)
Lemma transfer_to_s3_empty_file_list (env : Env) (fuel : nat)
    (bucket prefix : string) (h h1 : history) :
  clear_prefix env (S fuel) bucket prefix h = (Ok tt, h1) ->
  transfer_to_s3 env (S fuel) bucket prefix [] "" h = (Ok true, h1).
Proof.
  intros Hclear. unfold transfer_to_s3. now rewrite (bind_run _ _ _ _ _ Hclear).
Qed.

(** ** [download_s3_uri] *)

Lemma not_well_formed (s : string) (h : history) :
  ~ well_formed_uri s ->
  exists fmt,
    validate_s3_uri s h = (Ok false, h ++ [EvLog ERROR fmt]).
Proof.
  intros Hbad. unfold validate_s3_uri.
  destruct (Py.take 5 s =? "s3://")%string eqn:E; cbv [negb].
  - destruct (List.length (Py.split "/"%char (Py.drop 5 s)) <? 2)%nat eqn:L.
    + now eexists.
    + exfalso. apply Hbad. apply Uri.shape_of_valid. split.
      * now apply String.eqb_eq.
      * intros H%PyFacts.split_single. congruence.
  - now eexists.
Qed.

(** X12: A malformed URI is refused before anything is touched: for a string that
    is not of the form [s3://<bucket>/<object_name>], [download_s3_uri]
    returns the failed result with an empty path, and the run consists of
    three log lines: no folder is created and the store is not called. *)
Theorem download_s3_uri_rejects_malformed (env : Env) (fuel : nat)
    (s3_uri output_folder : string) (h : history) :
  ~ well_formed_uri s3_uri ->
  exists fmt,
    download_s3_uri env fuel s3_uri output_folder h =
      (Ok invalid_uri_result,
       h ++ [EvLog INFO "Downloading {s3_uri}"; EvLog ERROR fmt; EvLog ERROR "Invalid S3 URI"]).
Proof.
  intros Hbad. unfold download_s3_uri. rewrite Paging.bind_log.
  destruct (not_well_formed s3_uri (h ++ [EvLog INFO "Downloading {s3_uri}"]) Hbad)
    as (fmt & Hv).
  rewrite (bind_run _ _ _ _ _ Hv). cbv [negb]. rewrite Paging.bind_log.
  exists fmt. unfold ret, invalid_uri_result. now rewrite <- !List.app_assoc.
Qed.

(** X13: A well-formed URI is handed to [download_file] as the bucket and the
    object name it is made of: the run is that of [download_file] on the two,
    after three log lines. *)
Theorem download_s3_uri_delegates (env : Env) (fuel : nat)
    (bucket object_name output_folder : string) (h : history) :
  no_slash bucket ->
  download_s3_uri env fuel ("s3://" ++ bucket ++ "/" ++ object_name)%string output_folder h =
  download_file env fuel bucket object_name output_folder
    (h ++ [EvLog INFO "Downloading {s3_uri}";
           EvLog INFO "Parsing s3 URI {s3_uri}";
           EvLog DEBUG "OBJECT NAME: {object_name}"]).
Proof.
  intros Hb. unfold download_s3_uri. rewrite Paging.bind_log.
  set (s := ("s3://" ++ bucket ++ "/" ++ object_name)%string).
  destruct (Uri.validate_s3_uri_run s (h ++ [EvLog INFO "Downloading {s3_uri}"]))
    as (b & h' & Hrun & Hiff).
  assert (b = true) as ->.
  { apply Hiff. apply Uri.shape_of_valid. now exists bucket, object_name. }
  assert (h' = h ++ [EvLog INFO "Downloading {s3_uri}"]) as ->.
  { revert Hrun. unfold validate_s3_uri.
    destruct (negb (Py.take 5 s =? "s3://")%string); [discriminate|].
    destruct (List.length (Py.split "/"%char (Py.drop 5 s)) <? 2)%nat; [discriminate|].
    unfold ret. now intros [= <-]. }
  rewrite (bind_run _ _ _ _ _ Hrun). cbv [negb].
  destruct (Uri.parse_s3_uri_run bucket object_name
              (h ++ [EvLog INFO "Downloading {s3_uri}"]) Hb) as (h2 & Hp).
  assert (h2 = (h ++ [EvLog INFO "Downloading {s3_uri}"]) ++
               [EvLog INFO "Parsing s3 URI {s3_uri}"]) as ->.
  { revert Hp. unfold parse_s3_uri, bind, log, emit, ret. now intros [= _ _ <-]. }
  fold s in Hp. rewrite (bind_run _ _ _ _ _ Hp). rewrite Paging.bind_log.
  now rewrite <- !List.app_assoc.
Qed.

Lemma drop_all (n : nat) (s : string) :
  String.length s <= n -> Py.drop n s = ""%string.
Proof.
  revert n; induction s as [|c s IH]; intros n Hlen; [now destruct n|].
  destruct n; [simpl in Hlen; lia|]. simpl. apply IH. simpl in Hlen. lia.
Qed.

(** X14: Without a [/] after the scheme [parse_s3_uri] does not fail: [find]
    gives -1, so the bucket is the rest without its last character and the
    object name is empty. *)
Theorem parse_s3_uri_without_separator (rest : string) (h : history) :
  no_slash rest ->
  exists bucket,
    returns (parse_s3_uri ("s3://" ++ rest)%string) h (bucket, ""%string) /\
    bucket = Py.take (String.length rest - 1) rest.
Proof.
  intros Hn. exists (Py.take (String.length rest - 1) rest). split; [|reflexivity].
  unfold returns, parse_s3_uri, bind, log, emit, ret. eexists.
  change (Py.drop 5 ("s3://" ++ rest)) with rest.
  assert (Hb : Py.slice_to (Py.find "/"%char rest) rest =
               Py.take (String.length rest - 1) rest).
  { unfold Py.find. unfold no_slash in Hn. now rewrite Hn. }
  rewrite Hb.
  assert (Ho : Py.drop (String.length (Py.take (String.length rest - 1) rest) + 6)
                 ("s3://" ++ rest) = ""%string).
  { apply drop_all. rewrite PyFacts.length_take by lia.
    change (String.length ("s3://" ++ rest)) with (5 + String.length rest). lia. }
  now rewrite Ho.
Qed.

End Branches.

(* ================================================================== *)
(** * More on the mapping *)
(* ================================================================== *)

Module MoreMapping.

Import RunFacts PathFacts.

Lemma rfind_none_find_none (p : ascii -> bool) (s : string) :
  Py.rfind_pred p s = None <-> Py.find_pred p s = None.
Proof.
  induction s as [|a s IH]; simpl; [tauto|].
  destruct (Py.rfind_pred p s), (Py.find_pred p s), (p a); split; try discriminate;
    try reflexivity; intros _; exfalso;
    (destruct IH as [I1 I2]; try (now discriminate I1); try (now discriminate I2)).
Qed.

Lemma rfind_pred_some (p : ascii -> bool) (s : string) (i : nat) :
  Py.rfind_pred p s = Some i ->
  exists c, p c = true /\ Py.drop i s = String c (Py.drop (S i) s) /\
            Py.find_pred p (Py.drop (S i) s) = None.
Proof.
  revert i; induction s as [|a s IH]; intros i H; simpl in H; [discriminate|].
  destruct (Py.rfind_pred p s) as [j|] eqn:R.
  - injection H as <-. destruct (IH j eq_refl) as (c & Hc & Hd & Hn).
    exists c. repeat split; auto.
  - destruct (p a) eqn:Hp; [|discriminate]. injection H as <-.
    exists a. repeat split; auto. simpl. destruct s; now apply rfind_none_find_none.
Qed.

Lemma find_pred_take_none (p : ascii -> bool) (n : nat) (s : string) :
  Py.find_pred p s = None -> Py.find_pred p (Py.take n s) = None.
Proof.
  revert s; induction n as [|n IH]; intros [|a s]; simpl; auto.
  destruct (p a); [discriminate|].
  destruct (Py.find_pred p s) eqn:F; [discriminate|]. intros _. now rewrite IH.
Qed.

Lemma nt_basename_no_sep (f : string) : Py.find_pred NtPath.is_sep (NtPath.basename f) = None.
Proof. unfold NtPath.basename, NtPath.tail_after_seps. apply PyFacts.rfind_pred_tail. Qed.

(** [os.path.splitext] on a name without [/]. *)
Lemma splitext_of_name (p : string) :
  no_slash p ->
  exists ext,
    p = (fst (OsPath.splitext p) ++ ext)%string /\
    snd (OsPath.splitext p) = ext /\
    (ext = ""%string \/
     exists rest, ext = String "."%char rest /\
                  Py.find_pred (Ascii.eqb "."%char) rest = None) /\
    (fst (OsPath.splitext p) = ""%string -> p = ""%string).
Proof.
  intros Hn. unfold OsPath.splitext.
  assert (Hsep : Py.rfind OsPath.sep p = (-1)%Z).
  { unfold Py.rfind, OsPath.sep. now rewrite (proj2 (rfind_none_find_none _ p) Hn). }
  rewrite Hsep.
  assert (Hplain : exists ext, p = (p ++ ext)%string /\ ""%string = ext /\
            (ext = ""%string \/
             exists rest, ext = String "."%char rest /\
                          Py.find_pred (Ascii.eqb "."%char) rest = None) /\
            (p = ""%string -> p = ""%string)).
  { exists ""%string. rewrite PyFacts.app_empty_r. repeat split; auto. }
  unfold Py.rfind.
  destruct (Py.rfind_pred (Ascii.eqb "."%char) p) as [i|] eqn:R; simpl Py.index_or_minus_one.
  - replace (-1 <? Z.of_nat i)%Z with true by (symmetry; apply Z.ltb_lt; lia).
    change (Z.to_nat (-1 + 1)) with 0. rewrite Nat2Z.id, Nat.sub_0_r.
    change (Py.drop 0 p) with p.
    destruct (OsPath.all_dots (Py.take i p)) eqn:D; [exact Hplain|].
    destruct (rfind_pred_some _ _ _ R) as (c & Hc & Hd & Hno).
    apply Ascii.eqb_eq in Hc. subst c.
    exists (Py.drop i p). simpl fst. simpl snd. repeat split.
    + symmetry. apply PyFacts.take_drop.
    + right. exists (Py.drop (S i) p). split; [exact Hd | exact Hno].
    + intros E. rewrite E in D. discriminate D.
  - exact Hplain.
Qed.

(** X15: The asset id is the file name with its last extension cut off, and only
    that: [generate_asset_id_from_input_file] without extension returns a
    name that holds neither [/] nor [\], that together with an extension makes
    up the file name again, where the extension is empty or a [.] followed by
    dot-free characters; it is empty only if the file name is. *)
Theorem asset_id_cuts_last_extension (input_file : string) (h : history) :
  exists asset_id ext,
    returns (generate_asset_id_from_input_file input_file false) h asset_id /\
    returns (generate_asset_id_from_input_file input_file true) h (asset_id ++ ext)%string /\
    (ext = ""%string \/
     exists rest, ext = String "."%char rest /\
                  Py.find_pred (Ascii.eqb "."%char) rest = None) /\
    Py.find_pred NtPath.is_sep asset_id = None /\
    (asset_id = ""%string -> ext = ""%string).
Proof.
  destruct (splitext_of_name (NtPath.basename input_file) (nt_basename_no_slash input_file))
    as (ext & Hp & Hsnd & Hext & Hempty).
  exists (fst (OsPath.splitext (NtPath.basename input_file))), ext.
  repeat split.
  - unfold returns, generate_asset_id_from_input_file, bind, log, emit, ret.
    destruct (OsPath.splitext (NtPath.basename input_file)). now eexists.
  - unfold returns, generate_asset_id_from_input_file, bind, log, emit, ret.
    rewrite <- Hp. now eexists.
  - exact Hext.
  - pose proof (nt_basename_no_sep input_file) as Hn. rewrite Hp in Hn.
    revert Hn. generalize (fst (OsPath.splitext (NtPath.basename input_file))).
    intros a. induction a as [|c a IH]; simpl; [reflexivity|].
    destruct (NtPath.is_sep c); [discriminate|].
    destruct (Py.find_pred NtPath.is_sep (a ++ ext)) eqn:F; [discriminate|].
    intros _. now rewrite IH.
  - intros E. pose proof (Hempty E) as Hb. rewrite E in Hp. simpl in Hp.
    now rewrite <- Hp.
Qed.

Example asset_id_examples :
  fst (generate_asset_id_from_input_file "a/b/c.tar.gz" false []) = Ok "c.tar"%string /\
  fst (generate_asset_id_from_input_file "a/b/.bashrc" false []) = Ok ".bashrc"%string /\
  fst (generate_asset_id_from_input_file "a/b/" false []) = Ok ""%string /\
  fst (generate_asset_id_from_input_file "video.mp4" true []) = Ok "video.mp4"%string.
Proof. now repeat split. Qed.

(** ** Files and one-level directories *)

(** X16: In a list of regular files every file gives exactly one pair, in the
    order of the list: the file with the key [prefix/<its file name>]. *)
Theorem digest_file_list_of_regular_files (env : Env) (fuel : nat)
    (file_list : list string) (prefix : string) (h : history) :
  (forall h0 f, In f file_list -> os_path_isdir env h0 f = false) ->
  returns (digest_file_list env (S fuel) file_list prefix "") h
          (map (fun f => (f, OsPath.join prefix [NtPath.basename f])) file_list).
Proof. apply Mapping.digest_regular_files. Qed.

Lemma digest_plain_step (env : Env) (fuel : nat) (file_list : list string) (prefix : string) :
  digest_file_list env (S fuel) file_list prefix "" =
  for_fold file_list []
    (fun file_and_key_list f =>
       is_dir <- ask (fun h => os_path_isdir env h f) ;;
       if is_dir then
         walked <- ask (fun h => os_walk env h f) ;;
         for_fold walked file_and_key_list
           (fun file_and_key_list '(root, dirs, files) =>
              sub <- digest_file_list env fuel
                       (map (fun fn => OsPath.join root [fn]) (dirs ++ files))
                       (OsPath.join prefix [OsPath.basename f]) "" ;;
              ret (file_and_key_list ++ sub))
       else
         name <- generate_asset_id_from_input_file f true ;;
         ret (file_and_key_list ++ [(f, OsPath.join prefix [name])])).
Proof. reflexivity. Qed.

(** X17: A directory that holds only regular files maps as it should: every file
    of it gives exactly one pair, with the basename of the directory between
    the prefix and the file name; an empty directory gives nothing. *)
Theorem digest_file_list_of_flat_directory (env : Env) (fuel : nat)
    (d : string) (files : list string) (prefix : string) (h : history) :
  (forall h0, os_path_isdir env h0 d = true) ->
  (forall h0, os_walk env h0 d = [(d, [], files)]) ->
  (forall h0 fn, In fn files -> os_path_isdir env h0 (OsPath.join d [fn]) = false) ->
  returns (digest_file_list env (S (S fuel)) [d] prefix "") h
          (map (fun fn =>
                  (OsPath.join d [fn],
                   OsPath.join (OsPath.join prefix [OsPath.basename d])
                               [NtPath.basename (OsPath.join d [fn])]))
               files).
Proof.
  intros Hdir Hwalk Hfiles.
  destruct (Mapping.digest_regular_files env fuel
              (map (fun fn => OsPath.join d [fn]) files)
              (OsPath.join prefix [OsPath.basename d]) h) as (h' & Hsub).
  { intros h0 f (fn & <- & Hfn)%in_map_iff. now apply Hfiles. }
  rewrite map_map in Hsub.
  unfold returns. rewrite digest_plain_step. cbn [for_fold].
  unfold bind at 1. unfold bind at 1, ask at 1. rewrite Hdir.
  unfold bind at 1, ask at 1. rewrite Hwalk. cbn [for_fold app].
  unfold bind at 1. unfold bind at 1. rewrite Hsub.
  unfold ret. now eexists.
Qed.

Lemma two_level_rank_decreases :
  forall (h : history) (f root : string) (dirs files : list string) (fn : string),
    os_path_isdir two_level_env h f = true ->
    In (root, dirs, files) (os_walk two_level_env h f) ->
    In fn (dirs ++ files) ->
    two_level_rank (OsPath.join root [fn]) < two_level_rank f.
Proof.
  intros h f root dirs files fn _ Hw Hfn. simpl in Hw. unfold two_level_rank at 2.
  destruct (String.eqb_spec f "d") as [->|_].
  - destruct Hw as [E | [E | []]]; injection E as <- <- <-;
      simpl in Hfn; repeat (destruct Hfn as [<- | Hfn]; [vm_compute; lia|]);
      destruct Hfn.
  - destruct (String.eqb_spec f "d/s") as [->|_]; [|destruct Hw].
    destruct Hw as [E | []]; injection E as <- <- <-.
    simpl in Hfn. destruct Hfn as [<- | []]. vm_compute. lia.
Qed.

End MoreMapping.

(* ================================================================== *)
(** * Instances *)
(* ================================================================== *)

Module MoreRuns.

Lemma five_keys_distinct : NoDup five_keys.
Proof.
  unfold five_keys. repeat constructor; simpl; intuition discriminate.
Qed.

Lemma ftp_not_well_formed : ~ well_formed_uri "ftp://bucket/obj".
Proof. intros (bucket & object_name & E & _). simpl in E. discriminate E. Qed.

Lemma clear_prefix_deletes_every_page_witness :
  exists t,
    clear_prefix paged_store 5 "bucket" "p/q" [] = (Ok tt, [] ++ t) /\
    deleted t = [five_keys] /\
    List.length (listing_markers t) = S ((List.length five_keys - 1) / 2) /\
    hd_error (listing_markers t) = Some None.
Proof.
  apply (Paging.clear_prefix_deletes_every_page paged_store 5 2 "bucket" "p/q" five_keys []).
  - lia.
  - exact five_keys_distinct.
  - discriminate.
  - vm_compute. lia.
  - reflexivity.
  - reflexivity.
Defined.

(** The five keys come in three pages and go in one batch. *)
Example clear_prefix_three_pages :
  exists h,
    clear_prefix paged_store 5 "bucket" "p/q" [] = (Ok tt, h) /\
    listing_markers h = [None; Some "p/q/b.json"; Some "p/q/c/e.json"] /\
    deleted h = [five_keys].
Proof. eexists. repeat split; vm_compute; reflexivity. Qed.

Lemma download_file_truncated_listing_witness :
  download_file marker_rejecting_store 1 "bucket" "p/q" "out" [] =
    (Raise (PyException "ParamValidationError: Unknown parameter in input: Marker"),
     after_folder_check marker_rejecting_store "out" [] ++
     [EvListObjectsV2 "bucket" "p/q" None;
      EvListObjectsV2 "bucket" "p/q" (Some (last ["p/q/a.json"; "p/q/b.json"] ""))]).
Proof.
  apply (Paging.download_file_truncated_listing marker_rejecting_store 0 "bucket" "p/q" "out" []
           (page 2 five_keys) 2 ["p/q/a.json"; "p/q/b.json"]);
    try reflexivity; discriminate.
Defined.

(** Five keys are listed two at a time: the retrieval stops at the request
    for the second page and downloads none of them. *)
Example download_file_second_page :
  exists e h,
    download_file marker_rejecting_store 5 "bucket" "p/q" "out" [] = (Raise e, h) /\
    listing_markers h = [None; Some "p/q/b.json"] /\
    downloads h = [].
Proof. eexists _, _. repeat split; vm_compute; reflexivity. Qed.

Lemma download_file_single_object_witness :
  exists res ok t,
    download_file (quiet_env test_tree) 1 "bucket" "jaap-dane-test/dane-test.tar.gz" "out" [] =
      (Ok res, after_folder_check (quiet_env test_tree) "out" [] ++ t) /\
    downloads t =
      [("jaap-dane-test/dane-test.tar.gz",
        OsPath.join "out" [OsPath.basename "jaap-dane-test/dane-test.tar.gz"], ok)] /\
    listing_markers t = [] /\
    success res = ok /\
    file_path res = OsPath.join "out" [OsPath.basename "jaap-dane-test/dane-test.tar.gz"].
Proof.
  apply (Branches.download_file_single_object (quiet_env test_tree) 1 "bucket"
           "jaap-dane-test/dane-test.tar.gz" "out" []); reflexivity.
Defined.

Lemma download_file_no_keys_witness :
  exists res,
    download_file (quiet_env test_tree) 1 "bucket" "p/q" "out" [] =
      (Ok res,
       after_folder_check (quiet_env test_tree) "out" [] ++
       [EvListObjectsV2 "bucket" "p/q" None;
        EvLog ERROR "No content available in bucket '{bucket}' for prefix '{object_name}'."]) /\
    success res = false /\
    file_path res = OsPath.join "out" [OsPath.basename "p/q"].
Proof.
  apply (Branches.download_file_no_keys (quiet_env test_tree) 1 "bucket" "p/q" "out" []
           {| Contents := None; IsTruncated := Some false; KeyCount := Some 0%Z |});
    reflexivity.
Defined.

Lemma transfer_to_s3_archive_failure_witness :
  exists t,
    transfer_to_s3 (quiet_env test_tree) 1 "bucket" "p" ["tmp_dir_for_tests"]
      "no_such_dir/archive.tar.gz" [] =
      (Raise (PyException "Could not digest file list: archive error"),
       snd (clear_prefix (quiet_env test_tree) 1 "bucket" "p" []) ++ t) /\
    uploads t = [] /\ deleted t = [].
Proof.
  apply (Branches.transfer_to_s3_archive_failure (quiet_env test_tree) 0 "bucket" "p"
           ["tmp_dir_for_tests"] "no_such_dir/archive.tar.gz" []
           (snd (clear_prefix (quiet_env test_tree) 1 "bucket" "p" []))
           (snd (tar_list_of_files (quiet_env test_tree) "no_such_dir/archive.tar.gz"
                   ["tmp_dir_for_tests"]
                   (snd (clear_prefix (quiet_env test_tree) 1 "bucket" "p" [])))));
    reflexivity.
Defined.

(** The old key is gone when the archive fails. *)
Example archive_failure_after_deletion :
  deleted (snd (transfer_to_s3 (quiet_env test_tree) 1 "bucket" "p" ["tmp_dir_for_tests"]
                  "no_such_dir/archive.tar.gz" [])) = [["p/old.json"]] /\
  uploads (snd (transfer_to_s3 (quiet_env test_tree) 1 "bucket" "p" ["tmp_dir_for_tests"]
                  "no_such_dir/archive.tar.gz" [])) = [].
Proof. split; vm_compute; reflexivity. Qed.

Lemma download_s3_uri_rejects_malformed_witness :
  exists fmt,
    download_s3_uri (quiet_env test_tree) 1 "ftp://bucket/obj" "out" [] =
      (Ok invalid_uri_result,
       [] ++ [EvLog INFO "Downloading {s3_uri}"; EvLog ERROR fmt; EvLog ERROR "Invalid S3 URI"]).
Proof.
  apply (Branches.download_s3_uri_rejects_malformed (quiet_env test_tree) 1
           "ftp://bucket/obj" "out" []).
  exact ftp_not_well_formed.
Defined.

Lemma download_s3_uri_delegates_witness :
  download_s3_uri (quiet_env test_tree) 1 ("s3://" ++ "bucket" ++ "/" ++ "p/q")%string "out" [] =
  download_file (quiet_env test_tree) 1 "bucket" "p/q" "out"
    ([] ++ [EvLog INFO "Downloading {s3_uri}";
            EvLog INFO "Parsing s3 URI {s3_uri}";
            EvLog DEBUG "OBJECT NAME: {object_name}"]).
Proof.
  apply (Branches.download_s3_uri_delegates (quiet_env test_tree) 1 "bucket" "p/q" "out" []).
  reflexivity.
Defined.

Lemma parse_s3_uri_without_separator_witness :
  exists bucket,
    returns (parse_s3_uri ("s3://" ++ "bucket")%string) [] (bucket, ""%string) /\
    bucket = Py.take (String.length "bucket" - 1) "bucket".
Proof.
  apply (Branches.parse_s3_uri_without_separator "bucket" []). reflexivity.
Defined.

Example parse_bucket_only :
  fst (parse_s3_uri "s3://bucket" []) = Ok ("bucke"%string, ""%string).
Proof. reflexivity. Qed.

Lemma digest_file_list_of_regular_files_witness :
  returns (digest_file_list (quiet_env test_tree) 1 ["a.txt"; "sub/b.txt"] "p" "") []
          (map (fun f => (f, OsPath.join "p" [NtPath.basename f])) ["a.txt"; "sub/b.txt"]).
Proof.
  apply (MoreMapping.digest_file_list_of_regular_files (quiet_env test_tree) 0
           ["a.txt"; "sub/b.txt"] "p" []).
  intros h0 f [<- | [<- | []]]; reflexivity.
Defined.

Lemma digest_file_list_of_flat_directory_witness :
  returns (digest_file_list two_level_env 2 ["d/s"] "p" "") []
          (map (fun fn =>
                  (OsPath.join "d/s" [fn],
                   OsPath.join (OsPath.join "p" [OsPath.basename "d/s"])
                               [NtPath.basename (OsPath.join "d/s" [fn])]))
               ["b.txt"]).
Proof.
  apply (MoreMapping.digest_file_list_of_flat_directory two_level_env 0 "d/s" ["b.txt"] "p" []).
  - reflexivity.
  - reflexivity.
  - intros h0 fn [<- | []]. reflexivity.
Defined.

Example flat_directory_keys :
  fst (digest_file_list two_level_env 2 ["d/s"] "p" "" []) = Ok [("d/s/b.txt", "p/s/b.txt")].
Proof. reflexivity. Qed.

Lemma digest_file_list_terminates_witness :
  exists pairs h',
    digest_file_list two_level_env 4 ["d"] "p" "" [] = (Ok pairs, h').
Proof.
  apply (Mapping.digest_file_list_terminates two_level_env two_level_rank
           MoreMapping.two_level_rank_decreases 3 ["d"] "p" []).
  intros f [<- | []]. vm_compute. lia.
Defined.

End MoreRuns.

(* ================================================================== *)
(** * The life of a task *)
(* ================================================================== *)

Module TaskFacts.

Import Tasks.

(** X19: The handler is reached only when the guards allow it.  Whatever the
    task and the handlers, from any past: [register] calls the handler at most
    once and only for a task without id that has an endpoint; [run], [retry]
    and [isDone] call it at most once and only for a task with an id and an
    endpoint, [isDone] moreover only when the task carries no state; and a
    missing registration is reported before a missing endpoint. *)
Theorem handler_reached_only_through_guards (handlers : Handlers) (self : Task)
    (calls : list api_call) :
  (forall job_id,
      snd (register handlers self job_id calls) = calls \/
      exists handle,
        task_id self = None /\ api self = Some handle /\
        snd (register handlers self job_id calls) = calls ++ [CallRegister handle job_id self]) /\
  (snd (run handlers self calls) = calls \/
   exists handle id,
     task_id self = Some id /\ api self = Some handle /\
     snd (run handlers self calls) = calls ++ [CallRun handle id]) /\
  (snd (retry handlers self calls) = calls \/
   exists handle id,
     task_id self = Some id /\ api self = Some handle /\
     snd (retry handlers self calls) = calls ++ [CallRetry handle id]) /\
  (snd (isDone handlers self calls) = calls \/
   exists handle id,
     task_state self = None /\ task_id self = Some id /\ api self = Some handle /\
     snd (isDone handlers self calls) = calls ++ [CallIsDone handle id]) /\
  (task_id self = None ->
   (exists msg, run handlers self calls = (Failed (APIRegistrationError msg), calls)) /\
   (exists msg, retry handlers self calls = (Failed (APIRegistrationError msg), calls)) /\
   (task_state self = None ->
    exists msg, isDone handlers self calls = (Failed (APIRegistrationError msg), calls))).
Proof.
  destruct self as [key [id|] [state|] msg [handle|]];
    unfold register, run, retry, isDone; cbn [task_id task_state api];
    repeat split; intros;
    try discriminate;
    try (now left);
    try (now eexists);
    try (right; eexists; eexists; repeat split;
         match goal with |- context [match ?x with Done _ => _ | Failed _ => _ end] =>
           now destruct x end);
    try (right; eexists; repeat split;
         match goal with |- context [match ?x with Done _ => _ | Failed _ => _ end] =>
           now destruct x end).
Qed.

(** X20: From the constructor to a run: a task built from a non-empty key, given
    an endpoint and registered, carries the upper-cased key and the id that
    the handler assigned; [run] then reaches the handler with that id and
    returns the task unchanged; and the task cannot be registered a second
    time, which is refused without a call. *)
Theorem task_lifecycle (str_upper : string -> string) (handlers : Handlers)
    (key : string) (msg : option string) (handle : nat) (job_id id : Z)
    (calls : list api_call) :
  key <> ""%string ->
  let fresh := {| task_key := str_upper key; task_id := None; task_state := None;
                  task_msg := msg; api := Some handle |} in
  let registered := with_task_id fresh (Some id) in
  handle_register handlers calls handle job_id fresh = Done (Some id) ->
  handle_run handlers (calls ++ [CallRegister handle job_id fresh]) handle id = Done tt ->
  init str_upper (Some key) None None msg None = Done (set_api fresh None) /\
  register handlers (set_api (set_api fresh None) (Some handle)) job_id calls =
    (Done registered, calls ++ [CallRegister handle job_id fresh]) /\
  run handlers registered (calls ++ [CallRegister handle job_id fresh]) =
    (Done registered, calls ++ [CallRegister handle job_id fresh; CallRun handle id]) /\
  forall job_id' calls',
    register handlers registered job_id' calls' =
    (Failed (APIRegistrationError "Task already registered"), calls').
Proof.
  intros Hkey fresh registered Hreg Hrun. unfold registered, fresh in *.
  clear fresh registered. repeat split.
  - unfold init. apply String.eqb_neq in Hkey. now rewrite Hkey.
  - unfold register, set_api. cbn [task_id api task_key task_state task_msg].
    now rewrite Hreg.
  - unfold run, with_task_id. cbn [task_id api task_key task_state task_msg].
    rewrite Hrun. now rewrite <- List.app_assoc.
Qed.

(** X21: Before it is registered a task reaches nothing: for a task fresh from
    the constructor, with or without an endpoint, [run] and [retry] raise
    [APIRegistrationError], and so does [isDone] unless the task was built
    with a state, in which case [isDone] answers from the state alone: true
    exactly for 200. *)
Theorem unregistered_task (str_upper : string -> string) (handlers : Handlers)
    (key : string) (state : option Z) (msg : option string) (endpoint : option nat)
    (calls : list api_call) :
  key <> ""%string ->
  exists self,
    init str_upper (Some key) None state msg endpoint = Done self /\
    run handlers self calls =
      (Failed (APIRegistrationError "Cannot run an unregisteredtask"), calls) /\
    retry handlers self calls =
      (Failed (APIRegistrationError "Cannot retry an unregisteredtask"), calls) /\
    isDone handlers self calls =
      match state with
      | Some s => (Done (s =? 200)%Z, calls)
      | None =>
          (Failed (APIRegistrationError "Cannot check doneness of anunregistered task"), calls)
      end.
Proof.
  intros Hkey. apply String.eqb_neq in Hkey. unfold init. rewrite Hkey.
  eexists. split; [reflexivity|]. now destruct state.
Qed.

(** The constructor refuses a missing key. *)
Lemma init_refuses_empty_key (str_upper : string -> string)
    (id state : option Z) (msg : option string) (endpoint : option nat) :
  (exists m, init str_upper None id state msg endpoint = Failed (ValueError m)) /\
  (exists m, init str_upper (Some ""%string) id state msg endpoint = Failed (ValueError m)).
Proof. split; now eexists. Qed.

Lemma task_lifecycle_witness :
  let fresh := {| task_key := Py.upper "download"; task_id := None; task_state := None;
                  task_msg := None; api := Some 0 |} in
  let registered := with_task_id fresh (Some 7%Z) in
  init Py.upper (Some "download"%string) None None None None = Done (set_api fresh None) /\
  register obliging (set_api (set_api fresh None) (Some 0)) 1%Z [] =
    (Done registered, [] ++ [CallRegister 0 1%Z fresh]) /\
  run obliging registered ([] ++ [CallRegister 0 1%Z fresh]) =
    (Done registered, [] ++ [CallRegister 0 1%Z fresh; CallRun 0 7%Z]) /\
  forall job_id' calls',
    register obliging registered job_id' calls' =
    (Failed (APIRegistrationError "Task already registered"), calls').
Proof.
  apply (task_lifecycle Py.upper obliging "download" None 0 1%Z 7%Z []).
  - discriminate.
  - reflexivity.
  - reflexivity.
Defined.

Lemma unregistered_task_witness :
  exists self,
    init Py.upper (Some "download"%string) None (Some 200%Z) None None = Done self /\
    run obliging self [] =
      (Failed (APIRegistrationError "Cannot run an unregisteredtask"), []) /\
    retry obliging self [] =
      (Failed (APIRegistrationError "Cannot retry an unregisteredtask"), []) /\
    isDone obliging self [] = (Done (200 =? 200)%Z, []).
Proof.
  apply (unregistered_task Py.upper obliging "download" (Some 200%Z) None None []).
  discriminate.
Defined.

End TaskFacts.
